(** * SimEx: beam parameters from propagation output and the XRTS calculator

    A shallow embedding of
    - [Sources/python/SimEx/Parameters/DetectorGeometry.py]
      (class [DetectorGeometryParameters], function [propToBeamParameters]),
    - [python/src/SimEx/Calculators/PlasmaXRTSCalculator.py]
      (class [PlasmaXRTSCalculator], functions [parseStaticData],
      [extractDate], [checkAndSetParameters]).

    Python floats and numpy's float64 are IEEE 754 binary64 numbers: they
    are Rocq's primitive [float].  Exceptions are values of a [result]
    type; objects that Python mutates in place are threaded as explicit
    state. *)

From Stdlib Require Import ZArith List String Ascii Bool Lia.
From Stdlib Require Import Floats.
From stdpp Require Import base option list gmap strings.

Local Open Scope string_scope.
Set Warnings "-inexact-float".

(** ** Exceptions and fallible computations *)

Inductive exc_class : Set :=
| IOError | RuntimeError | TypeError | ValueError
| IndexError | ZeroDivisionError | OSError | AttributeError
| re_error.

(** An exception instance: its class and the message it was built with
    ([None] when it was instantiated without arguments). *)
Record exception : Set := Exc { exc_type : exc_class; exc_args : option string }.

Inductive result (A : Type) : Type :=
| Ok (a : A)
| Raise (e : exception).
Arguments Ok {A} a.
Arguments Raise {A} e.

Global Instance result_ret : MRet result := fun A a => Ok a.
Global Instance result_bind : MBind result := fun A B k m =>
  match m with
  | Ok a => k a
  | Raise e => Raise e
  end.

Definition raises {A} (m : result A) : Prop := exists e, m = Raise e.
Definition raises_class {A} (m : result A) (c : exc_class) : Prop :=
  exists e, m = Raise e /\ exc_type e = c.

(** [raise X(msg)] *)
Definition raise_ {A} (c : exc_class) (msg : string) : result A :=
  Raise (Exc c (Some msg)).

(** [raise (X, msg)]: the statement is given ONE expression, a tuple.
    Python 2 takes the first element of a tuple (repeatedly) as the
    exception and instantiates it without arguments: the message is
    evaluated and then dropped. *)
Definition raise_tuple {A} (c : exc_class) (msg : string) : result A :=
  Raise (Exc c None).

(** ** Python values and classes, as far as the parameter checks see them *)

(** An instance of [PlasmaXRTSCalculatorParameters] (a subclass of
    [AbstractCalculatorParameters]; the class itself is outside the
    sources).  The calculator reads [_tmp_dir]; [deck] stands for the
    physical parameters that make up the input deck. *)
Record CalculatorParameters : Type := {
  _tmp_dir : string;
  deck : string;
}.

Inductive pyobj : Type :=
| PyNone
| PyBool (b : bool)
| PyInt (z : Z)
| PyFloat (f : float)
| PyStr (s : string)
| PyParameters (p : CalculatorParameters).

Inductive pyclass : Set :=
| cls_float | cls_str | cls_AbstractCalculatorParameters.

Definition isinstance (v : pyobj) (c : pyclass) : bool :=
  match v, c with
  | PyFloat _, cls_float => true
  | PyStr _, cls_str => true
  | PyParameters _, cls_AbstractCalculatorParameters => true
  | _, _ => false
  end.

(** Modelled from the spec: [SimEx.Utilities.EntityChecks.checkAndSetInstance]
    is imported by both modules but is not among the sources.  The spec
    says of the parameters: "All validated on assignment; invalid types
    fail immediately", and the setters pass a class, the value and a
    default: [None] stands for "take the default", any other value has to
    be an instance of the class. *)
Definition checkAndSetInstance (cls : pyclass) (var default : pyobj) : result pyobj :=
  match var with
  | PyNone => Ok default
  | _ => if isinstance var cls then Ok var
         else raise_ TypeError "The parameter 'var' is not of correct type."
  end.

(** ** [DetectorGeometryParameters] *)

Record DetectorGeometryParameters : Type := {
  photon_energy : pyobj;
  photon_energy_relative_bandwidth : pyobj;
  beam_diameter_fwhm : pyobj;
  pulse_energy : pyobj;
  divergence : pyobj;
  photon_energy_spectrum_type : pyobj;
}.

(** The property setters; each one is a single [checkAndSetInstance]. *)
Definition set_photon_energy (self : DetectorGeometryParameters) (val : pyobj)
  : result DetectorGeometryParameters :=
  v ← checkAndSetInstance cls_float val PyNone;
   Ok {| photon_energy := v;
         photon_energy_relative_bandwidth := photon_energy_relative_bandwidth self;
         beam_diameter_fwhm := beam_diameter_fwhm self;
         pulse_energy := pulse_energy self;
         divergence := divergence self;
         photon_energy_spectrum_type := photon_energy_spectrum_type self |}.

Definition set_photon_energy_spectrum_type (self : DetectorGeometryParameters) (val : pyobj)
  : result DetectorGeometryParameters :=
  v ← checkAndSetInstance cls_str val (PyStr "SASE");
   Ok {| photon_energy := photon_energy self;
         photon_energy_relative_bandwidth := photon_energy_relative_bandwidth self;
         beam_diameter_fwhm := beam_diameter_fwhm self;
         pulse_energy := pulse_energy self;
         divergence := divergence self;
         photon_energy_spectrum_type := v |}.

Definition set_photon_energy_relative_bandwidth (self : DetectorGeometryParameters) (val : pyobj)
  : result DetectorGeometryParameters :=
  v ← checkAndSetInstance cls_float val (PyFloat 0.01);
   Ok {| photon_energy := photon_energy self;
         photon_energy_relative_bandwidth := v;
         beam_diameter_fwhm := beam_diameter_fwhm self;
         pulse_energy := pulse_energy self;
         divergence := divergence self;
         photon_energy_spectrum_type := photon_energy_spectrum_type self |}.

Definition set_beam_diameter_fwhm (self : DetectorGeometryParameters) (val : pyobj)
  : result DetectorGeometryParameters :=
  v ← checkAndSetInstance cls_float val PyNone;
   Ok {| photon_energy := photon_energy self;
         photon_energy_relative_bandwidth := photon_energy_relative_bandwidth self;
         beam_diameter_fwhm := v;
         pulse_energy := pulse_energy self;
         divergence := divergence self;
         photon_energy_spectrum_type := photon_energy_spectrum_type self |}.

Definition set_divergence (self : DetectorGeometryParameters) (val : pyobj)
  : result DetectorGeometryParameters :=
  v ← checkAndSetInstance cls_float val (PyFloat 0.0);
   Ok {| photon_energy := photon_energy self;
         photon_energy_relative_bandwidth := photon_energy_relative_bandwidth self;
         beam_diameter_fwhm := beam_diameter_fwhm self;
         pulse_energy := pulse_energy self;
         divergence := v;
         photon_energy_spectrum_type := photon_energy_spectrum_type self |}.

Definition set_pulse_energy (self : DetectorGeometryParameters) (val : pyobj)
  : result DetectorGeometryParameters :=
  v ← checkAndSetInstance cls_float val PyNone;
   Ok {| photon_energy := photon_energy self;
         photon_energy_relative_bandwidth := photon_energy_relative_bandwidth self;
         beam_diameter_fwhm := beam_diameter_fwhm self;
         pulse_energy := v;
         divergence := divergence self;
         photon_energy_spectrum_type := photon_energy_spectrum_type self |}.

(** A freshly allocated instance, before [__init__] has assigned anything. *)
Definition blank : DetectorGeometryParameters :=
  {| photon_energy := PyNone;
     photon_energy_relative_bandwidth := PyNone;
     beam_diameter_fwhm := PyNone;
     pulse_energy := PyNone;
     divergence := PyNone;
     photon_energy_spectrum_type := PyNone |}.

(** [DetectorGeometryParameters.__init__]: the six assignments in the
    order of the source (the parent constructor gets no keyword
    arguments here). *)
Definition DetectorGeometryParameters_init
    (photon_energy_ beam_diameter_fwhm_ pulse_energy_
     photon_energy_relative_bandwidth_ divergence_
     photon_energy_spectrum_type_ : pyobj) : result DetectorGeometryParameters :=
  self ← set_photon_energy blank photon_energy_;
   self ← set_photon_energy_relative_bandwidth self photon_energy_relative_bandwidth_;
   self ← set_beam_diameter_fwhm self beam_diameter_fwhm_;
   self ← set_pulse_energy self pulse_energy_;
   self ← set_divergence self divergence_;
   set_photon_energy_spectrum_type self photon_energy_spectrum_type_.

(** ** Floating-point arithmetic of Python 2 and numpy *)

Local Open Scope float_scope.

(** The double nearest to [num / den] ([0 <= num], [0 < den]), ties to
    the even mantissa; subnormal below [2^-1022], infinite from
    [2^1024 - 2^970] on. [q] is the mantissa of 53 bits (fewer for a
    subnormal) at the binary exponent [k]. *)
Definition float_of_fraction (num den : Z) : float :=
  if (num =? 0)%Z then 0%float else
  let scale (k : Z) : Z * Z :=
    if (0 <=? k)%Z then (num, den * 2 ^ k)%Z else (num * 2 ^ (- k), den)%Z in
  let k0 := (Z.log2 num - Z.log2 den - 52)%Z in
  let q0 := (let '(n, d) := scale k0 in n / d)%Z in
  let k1 := if (q0 <? 2 ^ 52)%Z then (k0 - 1)%Z else k0 in
  let k := Z.max k1 (-1074) in
  let '(n, d) := scale k in
  let q := (n / d)%Z in
  let r := (n mod d)%Z in
  let q' := if (d <? 2 * r)%Z || ((d =? 2 * r)%Z && Z.odd q)
            then (q + 1)%Z else q in
  if (0 <=? k)%Z && (2 ^ 1024 <=? q' * 2 ^ k)%Z then infinity
  else Z.ldexp (PrimFloat.of_uint63 (Uint63.of_Z q')) k.

(** An [int] where a float operation wants a float (Python's
    [float / int], numpy's cast of an [arange]): the nearest double,
    ties to even; exact up to [2^53]. Python raises an OverflowError
    instead from [2^1024 - 2^970] on, which no difference of two C longs
    (see [Mesh]) and no array index comes near. *)
Definition float_of_int (z : Z) : float :=
  if (z <? 0)%Z then - float_of_fraction (- z) 1 else float_of_fraction z 1.

(** [x / y] between Python floats (or a float and an int): a zero divisor
    of either sign raises. numpy's float64 never raises on division (it
    returns an infinity or a nan and warns): that one is [PrimFloat.div]. *)
Definition py_div (x y : float) : result float :=
  if y =? 0 then raise_ ZeroDivisionError "float division by zero"
  else Ok (x / y).

(** [math.sqrt]: a negative argument (minus infinity included) is a
    domain error; nan and -0.0 are returned as they are. *)
Definition math_sqrt (x : float) : result float :=
  if x <? 0 then raise_ ValueError "math domain error"
  else Ok (PrimFloat.sqrt x).

(** [max([a, b])]: the first element stays unless the second is larger. *)
Definition py_max2 (a b : float) : float := if a <? b then b else a.

(** numpy arrays of rank one are lists. [a[:-1]] and [a[1:]]: *)
Definition but_last {A} (a : list A) : list A := take (length a - 1) a.
Definition from_1 {A} (a : list A) : list A := drop 1 a.

(** Elementwise product and difference of two arrays of one shape, and
    [a**2] (numpy squares by multiplying). *)
Definition np_mul (a b : list float) : list float := zip_with PrimFloat.mul a b.
Definition np_sub (a b : list float) : list float := zip_with PrimFloat.sub a b.
Definition np_sq (a : list float) : list float := map (fun x => x * x) a.

(** [numpy.sum] of a contiguous array of float64, as numpy 1.9 to 1.16
    add it up ([pairwise_sum_DOUBLE] in [umath/loops.c.src]), in the
    order of the C code, since the order decides the rounding:
    - fewer than 8 elements are accumulated from the left, from 0.0;
    - up to 128 elements go through eight accumulators: [r] starts as
      the first eight elements, every further full group of eight is
      added to it lane by lane, the lanes are combined as
      [((r0+r1)+(r2+r3)) + ((r4+r5)+(r6+r7))], and the [n mod 8]
      elements that are left are added to that one by one;
    - a longer array is split at [n/2] rounded down to a multiple of 8
      and the sums of the two parts are added.
    The reduction starts from the identity 0.0 and adds the pairwise sum
    of the whole array to it. *)
Definition add_lanes (r c : list float) : list float := zip_with PrimFloat.add r c.

Fixpoint unrolled_loop (groups : nat) (r a : list float) : list float * list float :=
  match groups with
  | O => (r, a)
  | S groups => unrolled_loop groups (add_lanes r (take 8 a)) (drop 8 a)
  end.

Definition combine_lanes (r : list float) : float :=
  match r with
  | [r0; r1; r2; r3; r4; r5; r6; r7] =>
      ((r0 + r1) + (r2 + r3)) + ((r4 + r5) + (r6 + r7))
  | _ => 0
  end.

Definition block_sum (a : list float) : float :=
  let '(r, rest) := unrolled_loop (length a / 8 - 1) (take 8 a) (drop 8 a) in
  fold_left PrimFloat.add rest (combine_lanes r).

(** The recursion halves the array; [fuel] bounds its depth and the
    length of the array is always enough ([pairwise_sum_fuel]). *)
Fixpoint pairwise_sum (fuel : nat) (a : list float) : float :=
  let n := length a in
  if (n <? 8)%nat then fold_left PrimFloat.add a 0
  else if (n <=? 128)%nat then block_sum a
  else match fuel with
       | O => 0
       | S fuel =>
           let n2 := (n / 2 - (n / 2) mod 8)%nat in
           pairwise_sum fuel (take n2 a) + pairwise_sum fuel (drop n2 a)
       end.

Definition numpy_sum (a : list float) : float := 0 + pairwise_sum (length a) a.

(** [numpy.linspace(start, stop, num)] (numpy 1.10 to 1.16), statement
    by statement: [y = arange(0, num)] as floats and
    [delta = stop - start]; for [num > 1], [step = delta / (num - 1)]
    and [y = y * step], or [y = (y / (num - 1)) * delta] when the step
    is zero; for [num <= 1], [y = y * delta]; then [y += start], and for
    [num > 1] the last sample is set to [stop]. *)
Definition linspace (start stop : float) (num : nat) : list float :=
  let y := map (fun i => float_of_int (Z.of_nat i)) (seq 0 num) in
  let delta := stop - start in
  if (1 <? num)%nat then
    let div := float_of_int (Z.of_nat num - 1) in
    let step := delta / div in
    let y := if step =? 0 then map (fun v => v / div * delta) y
             else map (fun v => v * step) y in
    let y := map (fun v => v + start) y in
    but_last y ++ [stop]
  else map (fun v => v * delta + start) y.

(** ** The propagation output, as the wavefront library presents it *)

(** A Python 2 [int] is a C long. *)
Definition c_long (z : Z) : Prop := Is_true ((- 2 ^ 63 <=? z)%Z && (z <? 2 ^ 63)%Z).

(** The mesh of a wavefront. The numbers of pixels [nx] and [ny] are
    Python ints, as the wavefront library stores them. *)
Record Mesh : Set := {
  xMin : float; xMax : float; nx : Z;
  yMin : float; yMax : float; ny : Z;
  sliceMin : float; sliceMax : float;
  nx_int : c_long nx; ny_int : c_long ny;
}.

Record FWHM : Set := { fwhm_x : float; fwhm_y : float }.

(** What [propToBeamParameters] observes of a loaded [Wavefront]: the
    values that [wpg] (outside the sources) returns, in the order in
    which the function asks for them. [intensity_t] and [intensity_f]
    are [get_intensity().sum(axis=0).sum(axis=0)], one entry per slice,
    in the time and in the frequency representation, taken as arrays of
    float64: [mesh.nSlices] is the length of that array. *)
Record Wavefront : Set := {
  calc_pulse_energy : float;
  Mesh_t : Mesh;
  intensity_t : list float;
  Mesh_f : Mesh;
  intensity_f : list float;
  calculate_fwhm_f : FWHM;   (* in real space *)
  calculate_fwhm_a : FWHM;   (* after the switch to reciprocal space *)
}.

Definition nSlices (intensity : list float) : nat := length intensity.

Inductive file : Set :=
| WavefrontFile (w : Wavefront)
| TextFile (content : string).

Definition isfile (fs : gmap string file) (path : string) : bool :=
  match fs !! path with Some _ => true | None => false end.

Definition load_hdf5 (fs : gmap string file) (path : string) : result Wavefront :=
  match fs !! path with
  | Some (WavefrontFile w) => Ok w
  | _ => raise_ IOError "Unable to open file"
  end.

Section PropToBeamParameters.

(** What lies outside the sources:
    - [pow] of the C library, which numpy calls for [**] between two
      float64 scalars: its last digit differs between libraries and is
      not always that of the product ([pow(1.3795, 2.0)] is
      1.9030202499999997 with glibc 2.36, the product 1.90302025);
    - [scipy.constants.hbar] and [scipy.constants.e]: their digits
      follow the CODATA release of the installed scipy. *)
Variable pow : float -> float -> float.
Variables (hbar e : float).

(** Utility to setup a DetectorGeometryParameters instance from
    propagation output. The moments [m0], [m1], [m2] are numpy scalars,
    so the divisions that define them never raise and [m1**2] is
    [pow(m1, 2.0)]; on an array, [t**2] is the elementwise product.
    [rms] and the two quotients after it are Python floats. The [print]
    statements at the end write the five numbers to the standard output
    and leave the result as it is. *)
Definition propToBeamParameters (fs : gmap string file) (prop_output_path : string)
  : result DetectorGeometryParameters :=
  (* Check prop out exists. *)
  if negb (isfile fs prop_output_path)
  then raise_ IOError ("File not found: " +:+ prop_output_path +:+ ".")
  else
  (* Construct the wavefront. *)
  wavefront ← load_hdf5 fs prop_output_path;
  let pulse_energy := calc_pulse_energy wavefront in
  let mesh := Mesh_t wavefront in
  dx ← py_div (xMax mesh - xMin mesh) (float_of_int (nx mesh - 1));
  dy ← py_div (yMax mesh - yMin mesh) (float_of_int (ny mesh - 1));
  let int0 := intensity_t wavefront in
  let total_intensity := map (fun i => i * dx * dy) int0 in
  let times := linspace (sliceMin mesh) (sliceMax mesh) (nSlices int0) in
  let t := but_last times in
  let dt := np_sub (from_1 times) (but_last times) in
  let It := but_last total_intensity in
  let m0 := numpy_sum (np_mul It dt) in
  let m1 := numpy_sum (np_mul (np_mul It t) dt) / m0 in
  let m2 := numpy_sum (np_mul (np_mul It (np_sq t)) dt) / m0 in
  rms ← math_sqrt (m2 - pow m1 2);
  spike_fwhm_J ← py_div hbar rms;
  spike_fwhm_eV ← py_div spike_fwhm_J e;
  (* Switch to energy domain *)
  let mesh := Mesh_f wavefront in
  let spectrum := intensity_f wavefront in
  let energies := linspace (sliceMin mesh) (sliceMax mesh) (nSlices spectrum) in
  let w := but_last energies in
  let dw := np_sub (from_1 energies) (but_last energies) in
  let Iw := but_last spectrum in
  let m0 := numpy_sum (np_mul Iw dw) in
  let m1 := numpy_sum (np_mul (np_mul Iw w) dw) / m0 in
  let m2 := numpy_sum (np_mul (np_mul Iw (np_sq w)) dw) / m0 in
  rms ← math_sqrt (m2 - pow m1 2);
  let photon_energy := m1 in
  let spec_fwhm_eV := rms in
  (* Extract beam diameter fwhm *)
  let xy_fwhm := calculate_fwhm_f wavefront in
  (* Extract divergence *)
  let qxqy_fwhm := calculate_fwhm_a wavefront in
  DetectorGeometryParameters_init
    (PyFloat photon_energy)
    (PyFloat (py_max2 (fwhm_x xy_fwhm) (fwhm_y xy_fwhm)))
    (PyFloat pulse_energy)
    (PyFloat (spike_fwhm_eV / photon_energy))
    (PyFloat (py_max2 (fwhm_x qxqy_fwhm) (fwhm_y qxqy_fwhm) / 2))
    (PyStr "SASE").

End PropToBeamParameters.

(** CODATA 2014, as in scipy 1.x. *)
Definition hbar_2014 : float := 1.0545718e-34.
Definition e_2014 : float := 1.6021766208e-19.

(** A [pow] for the sample runs: the correctly rounded square. glibc
    2.36 returns these very values at every point that the samples
    below reach (1, 2/3, 0.15 and nan). *)
Definition pow_rounded (x y : float) : float := x * x.

(** ** Regular expressions: the fragment of Python's [re] that the
       calculator's patterns are written in *)

Local Open Scope char_scope.

(** One character's worth of pattern: a literal, [\s] or [\d]. *)
Inductive charset : Set :=
| Lit (c : ascii)
| Space
| Digit.

(** An atom matches exactly one character: a [charset] on its own, or a
    bracketed class [[...]] that lists several. *)
Inductive atom : Set :=
| Single (cs : charset)
| Class (members : list charset).

Inductive quant : Set := Once | Plus.

Abbreviation regex := (list (atom * quant)).

(** [\s] without the UNICODE flag: space, \t, \n, \v, \f, \r. *)
Definition is_space (c : ascii) : bool :=
  let n := N_of_ascii c in
  N.eqb n 32 || (N.leb 9 n && N.leb n 13).

Definition is_digit (c : ascii) : bool :=
  let n := N_of_ascii c in
  N.leb 48 n && N.leb n 57.

Definition is_alpha (c : ascii) : bool :=
  let n := N_of_ascii c in
  (N.leb 65 n && N.leb n 90) || (N.leb 97 n && N.leb n 122).

Definition charset_accepts (cs : charset) (c : ascii) : bool :=
  match cs with
  | Lit l => Ascii.eqb l c
  | Space => is_space c
  | Digit => is_digit c
  end.

Definition atom_accepts (a : atom) (c : ascii) : bool :=
  match a with
  | Single cs => charset_accepts cs c
  | Class members => existsb (fun cs => charset_accepts cs c) members
  end.

(** *** Compiling a pattern string *)

(** A backslash escape, inside or outside a class: [\s], [\d], or an
    escaped punctuation character, which is that character. Escaped
    letters and digits other than [s] and [d] have meanings of their own
    and are outside the fragment. *)
Definition parse_escape (c : ascii) : option charset :=
  if Ascii.eqb c "s" then Some Space
  else if Ascii.eqb c "d" then Some Digit
  else if is_alpha c || is_digit c then None
  else Some (Lit c).

(** The members of a class, up to the closing bracket. Inside a class
    [|], [+] and [.] are ordinary characters. Ranges and negation are
    outside the fragment. *)
Fixpoint parse_class (s : list ascii) (acc : list charset)
  : option (list charset * list ascii) :=
  match s with
  | [] => None
  | "]" :: rest => match acc with [] => None | _ => Some (rev acc, rest) end
  | "\" :: c :: rest =>
      match parse_escape c with
      | Some cs => parse_class rest (cs :: acc)
      | None => None
      end
  | "\" :: [] => None
  | "-" :: _ => None
  | "^" :: rest => match acc with [] => None | _ => parse_class rest (Lit "^" :: acc) end
  | "[" :: _ => None
  | c :: rest => parse_class rest (Lit c :: acc)
  end.

(** Characters that are operators outside a class. Of these only [+]
    (after an atom), [\] and [[] are in the fragment. *)
Definition is_special (c : ascii) : bool :=
  existsb (Ascii.eqb c) ["."; "^"; "$"; "*"; "+"; "?"; "{"; "}"; "("; ")"; "|"].

Definition parse_atom (s : list ascii) : option (atom * list ascii) :=
  match s with
  | [] => None
  | "\" :: c :: rest =>
      match parse_escape c with
      | Some cs => Some (Single cs, rest)
      | None => None
      end
  | "\" :: [] => None
  | "[" :: rest =>
      match parse_class rest [] with
      | Some (members, rest') => Some (Class members, rest')
      | None => None
      end
  | c :: rest => if is_special c then None else Some (Single (Lit c), rest)
  end.

Fixpoint parse_regex (fuel : nat) (s : list ascii) : option regex :=
  match s with
  | [] => Some []
  | _ =>
    match fuel with
    | O => None
    | S fuel' =>
      match parse_atom s with
      | None => None
      | Some (a, "+" :: rest) =>
          match parse_regex fuel' rest with
          | Some r => Some ((a, Plus) :: r)
          | None => None
          end
      | Some (a, rest) =>
          match parse_regex fuel' rest with
          | Some r => Some ((a, Once) :: r)
          | None => None
          end
      end
    end
  end.

(** [re.compile]. Every atom takes at least one character of the
    pattern, so its length is fuel enough (see [parse_regex_fuel]). A
    pattern outside the fragment is reported like a malformed one; the
    patterns of this module all lie inside (see [patterns_compile]). *)
Definition re_compile (pattern_string : string) : option regex :=
  let s := list_ascii_of_string pattern_string in
  parse_regex (length s) s.

(** *** Matching *)

(** [a*] followed by the rest of the pattern [k], greedy with
    backtracking: as many [a] as possible, giving one back at a time
    until [k] matches. The result is the length of the match. *)
Fixpoint match_star (a : atom) (k : list ascii -> option nat) (s : list ascii)
  : option nat :=
  match s with
  | c :: s' =>
      if atom_accepts a c then
        match match_star a k s' with
        | Some n => Some (S n)
        | None => k s
        end
      else k s
  | [] => k []
  end.

(** Match the pattern at the start of [s]. *)
Fixpoint match_here (r : regex) : list ascii -> option nat :=
  match r with
  | [] => fun _ => Some O
  | (a, q) :: r' =>
      let k := match_here r' in
      fun s =>
        match s with
        | c :: s' =>
            if atom_accepts a c then
              match q with
              | Once => S <$> k s'
              | Plus => S <$> match_star a k s'
              end
            else None
        | [] => None
        end
  end.

(** [pattern.findall(text)]: the matches from left to right, each search
    resuming where the previous match ended ([skip] counts the
    characters of a match still to be passed over). *)
Fixpoint findall_from (r : regex) (skip : nat) (s : list ascii) : list (list ascii) :=
  match skip with
  | S k => match s with [] => [] | _ :: s' => findall_from r k s' end
  | O =>
      match match_here r s with
      | Some n =>
          take n s :: match s with [] => [] | _ :: s' => findall_from r (pred n) s' end
      | None => match s with [] => [] | _ :: s' => findall_from r O s' end
      end
  end.

Definition findall (r : regex) (text : string) : list string :=
  map string_of_list_ascii (findall_from r O (list_ascii_of_string text)).

(** [pattern.split(text)]: the pieces between the (non-empty) matches;
    [cur] is the piece being read, last character first. *)
Fixpoint split_from (r : regex) (skip : nat) (cur : list ascii) (s : list ascii)
  : list (list ascii) :=
  match s with
  | [] => [rev cur]
  | c :: s' =>
      match skip with
      | S k => split_from r k cur s'
      | O =>
          match match_here r s with
          | Some (S n) => rev cur :: split_from r n [] s'
          | _ => split_from r O (c :: cur) s'
          end
      end
  end.

Definition split (r : regex) (text : string) : list string :=
  map string_of_list_ascii (split_from r O [] (list_ascii_of_string text)).

(** ** [float(string)] *)

(** [mantissa * 10^exp10], correctly rounded (Python converts decimal
    strings with correct rounding). *)
Definition float_of_decimal (mantissa : Z) (exp10 : Z) : float :=
  if (0 <=? exp10)%Z then float_of_fraction (mantissa * 10 ^ exp10) 1
  else float_of_fraction mantissa (10 ^ (- exp10)).

Definition digit_value (c : ascii) : Z := Z.of_N (N_of_ascii c) - 48.

(** The value of a run of decimal digits, most significant first. *)
Definition digits_value (ds : list ascii) : Z :=
  fold_left (fun acc c => 10 * acc + digit_value c)%Z ds 0%Z.

Definition lower (c : ascii) : ascii :=
  let n := N_of_ascii c in
  if N.leb 65 n && N.leb n 90 then ascii_of_N (n + 32) else c.

Fixpoint take_while {A} (p : A -> bool) (l : list A) : list A :=
  match l with
  | x :: l' => if p x then x :: take_while p l' else []
  | [] => []
  end.

Fixpoint drop_while {A} (p : A -> bool) (l : list A) : list A :=
  match l with
  | x :: l' => if p x then drop_while p l' else l
  | [] => []
  end.

Definition strip (s : list ascii) : list ascii :=
  rev (drop_while is_space (rev (drop_while is_space s))).

(** The leading digits of [s] and what follows them. *)
Definition span_digits (s : list ascii) : list ascii * list ascii :=
  (take_while is_digit s, drop_while is_digit s).

(** A leading sign, if there is one. *)
Definition split_sign (body : list ascii) : bool * list ascii :=
  match body with
  | "-" :: rest => (true, rest)
  | "+" :: rest => (false, rest)
  | _ => (false, body)
  end.

(** An optional exponent part [e±ddd] that has to end the string. *)
Definition parse_exponent (s : list ascii) : option Z :=
  match s with
  | [] => Some 0%Z
  | c :: s1 =>
      if Ascii.eqb (lower c) "e" then
        let '(neg, s2) := split_sign s1 in
        match span_digits s2 with
        | ((_ :: _) as ds, []) =>
            Some (if neg then - digits_value ds else digits_value ds)%Z
        | _ => None
        end
      else None
  end.

(** An unsigned number: [inf], [infinity], [nan] in any case, or decimal
    digits with an optional point (a digit on at least one side of it)
    and an optional exponent. *)
Definition parse_unsigned (s : list ascii) : option float :=
  let word := string_of_list_ascii (map lower s) in
  if String.eqb word "inf" || String.eqb word "infinity" then Some infinity
  else if String.eqb word "nan" then Some nan
  else
    let '(int_part, s1) := span_digits s in
    let '(frac_part, s2) :=
      match s1 with
      | "." :: s1' => span_digits s1'
      | _ => ([], s1)
      end in
    match (int_part ++ frac_part)%list with
    | [] => None
    | ds =>
        match parse_exponent s2 with
        | Some ex =>
            Some (float_of_decimal (digits_value ds) (ex - Z.of_nat (length frac_part)))
        | None => None
        end
    end.

(** [float(s)] for a string [s]: surrounding whitespace is ignored, a
    sign may lead; anything else is a [ValueError]. *)
Definition py_float (s : string) : result float :=
  let body := strip (list_ascii_of_string s) in
  let '(neg, digits) := split_sign body in
  match parse_unsigned digits with
  | Some f => Ok (if neg then (- f)%float else f)
  | None => raise_ ValueError ("could not convert string to float: " +:+ s)
  end.

(** ** [parseStaticData] and [extractDate] *)

Local Open Scope string_scope.

Definition compile (pattern_string : string) : result regex :=
  match re_compile pattern_string with
  | Some r => Ok r
  | None => raise_ re_error pattern_string
  end.

(** [l[0]] and [l[-1]] *)
Definition first_item {A} (l : list A) : result A :=
  match l with
  | x :: _ => Ok x
  | [] => raise_ IndexError "list index out of range"
  end.

Definition last_item {A} (l : list A) : result A :=
  match last l with
  | Some x => Ok x
  | None => raise_ IndexError "list index out of range"
  end.

(** Workhorse function to get a pattern from text using a regular
    expression. *)
Definition extractDate (pattern_string text : string) : result float :=
  (* Find the line. *)
  pattern ← compile pattern_string;
  let line := findall pattern text in
  (* Extract value (behind the '=' symbol). *)
  pattern ← compile "=\s";
  line0 ← first_item line;
  value ← last_item (split pattern line0);
  py_float value.

(** The ten patterns. The source writes them as ordinary (not raw)
    string literals: [\\] there is one backslash, and [\(], [\)], [\.],
    [\^], [\[], [\]] are kept as written. *)
Definition pattern_fk : string := "f\(k\)\s+=\s\d+\.\d+".
Definition pattern_qk : string := "q\(k\)\s+=\s\d+\.\d+".
Definition pattern_Sk_ion : string := "S_ii\(k\)\s+=\s\d+\.\d+".
Definition pattern_Sk_free : string := "S_ee\^0\(k\)\s+=\s\d+\.\d+".
Definition pattern_Sk_core : string := "Core_inelastic\(k\)\s+=\s\d+\.\d+".
Definition pattern_Wk : string := "Elastic\(k\)\s+=\s\d+\.\d+".
Definition pattern_Sk_total : string := "S_total\(k\)\s+=\s\d+\.\d+".
Definition pattern_ipl : string := "IP depression \[eV\]\s+=\s\d+\.\d+".
Definition pattern_lfc : string := "G\(k\)\s+=\s\d+\.\d+".
Definition pattern_debye_waller : string := "Debye-Waller\s+=\s+[1|\d+.\d+]".

(** Function to parse the run log and extract static data (form factors
    etc.) *)
Definition parseStaticData (data_string : string) : result (gmap string float) :=
  (* Setup return dictionary. *)
  let static_dict : gmap string float := ∅ in
  (* Extract static data from *)
  v ← extractDate pattern_fk data_string;
  let static_dict := <["fk" := v]> static_dict in
  v ← extractDate pattern_qk data_string;
  let static_dict := <["qk" := v]> static_dict in
  v ← extractDate pattern_Sk_ion data_string;
  let static_dict := <["Sk_ion" := v]> static_dict in
  v ← extractDate pattern_Sk_free data_string;
  let static_dict := <["Sk_free" := v]> static_dict in
  v ← extractDate pattern_Sk_core data_string;
  let static_dict := <["Sk_core" := v]> static_dict in
  v ← extractDate pattern_Wk data_string;
  let static_dict := <["Wk" := v]> static_dict in
  v ← extractDate pattern_Sk_total data_string;
  let static_dict := <["Sk_total" := v]> static_dict in
  v ← extractDate pattern_ipl data_string;
  let static_dict := <["ipl" := v]> static_dict in
  v ← extractDate pattern_lfc data_string;
  let static_dict := <["lfc" := v]> static_dict in
  v ← extractDate pattern_debye_waller data_string;
  let static_dict := <["debye_waller" := v]> static_dict in
  Ok static_dict.

(** The patterns, and the key each one fills. *)
Definition static_patterns : list (string * string) :=
  [("fk", pattern_fk); ("qk", pattern_qk); ("Sk_ion", pattern_Sk_ion);
   ("Sk_free", pattern_Sk_free); ("Sk_core", pattern_Sk_core);
   ("Wk", pattern_Wk); ("Sk_total", pattern_Sk_total); ("ipl", pattern_ipl);
   ("lfc", pattern_lfc); ("debye_waller", pattern_debye_waller)].

(** ** [PlasmaXRTSCalculator] *)

(** The object's fields. [__run_log], [__run_data] and [__static_data]
    do not exist until a method assigns them: [None] here. *)
Record PlasmaXRTSCalculator : Type := {
  parameters : pyobj;
  input_path : string;
  output_path : string;
  __is_initialized : bool;
  __expected_data : list string;
  __provided_data : list string;
  _input_data : gmap string (list float);
  __run_log : option string;
  __run_data : option (list (list float));
  __static_data : option (gmap string float);
}.

(** Utility to check if the parameters dictionary is ok. *)
Definition checkAndSetParameters (parameters : pyobj) : result pyobj :=
  if negb (isinstance parameters cls_AbstractCalculatorParameters)
  then raise_ RuntimeError
         "The 'parameters' argument must be of the type PlasmaXRTSCalculatorParameters."
  else Ok parameters.

(** [os.path.join(a, b)] *)
Definition os_path_join (a b : string) : string :=
  match b with
  | String "/" _ => b
  | _ =>
      match last (list_ascii_of_string a) with
      | None => b
      | Some "/"%char => a +:+ b
      | Some _ => a +:+ "/" +:+ b
      end
  end.

Arguments os_path_join : simpl never.

Record Popen : Set := { args : list string; cwd : string }.

(** The world outside the interpreter: the files, the current directory
    of this process, and the child processes started so far. *)
Record world : Type := {
  files : gmap string file;
  getcwd : string;
  processes : list Popen;
}.

(** Computations that run against an object of type [C] and the world:
    both survive an exception as they were when it was raised. *)
Definition method (C A : Type) : Type := C * world -> result A * (C * world).

Global Instance method_ret {C} : MRet (method C) := fun A a s => (Ok a, s).
Global Instance method_bind {C} : MBind (method C) := fun A B k m s =>
  match m s with
  | (Ok a, s') => k a s'
  | (Raise e, s') => (Raise e, s')
  end.

Definition lift {C A} (r : result A) : method C A := fun s => (r, s).
Definition get_self {C} : method C C := fun s => (Ok (fst s), s).
Definition get_world {C} : method C world := fun s => (Ok (snd s), s).
Definition set_self {C} (f : C -> C) : method C unit :=
  fun s => (Ok tt, (f (fst s), snd s)).
Definition set_world {C} (f : world -> world) : method C unit :=
  fun s => (Ok tt, (fst s, f (snd s))).

Definition with_files (fs : gmap string file) (w : world) : world :=
  {| files := fs; getcwd := getcwd w; processes := processes w |}.
Definition with_process (p : Popen) (w : world) : world :=
  {| files := files w; getcwd := getcwd w; processes := processes w ++ [p] |}.
Definition chdir (d : string) (w : world) : world :=
  {| files := files w; getcwd := d; processes := processes w |}.

Definition with_parameters (p : pyobj) (self : PlasmaXRTSCalculator) :=
  {| parameters := p;
     input_path := input_path self; output_path := output_path self;
     __is_initialized := __is_initialized self;
     __expected_data := __expected_data self;
     __provided_data := __provided_data self;
     _input_data := _input_data self;
     __run_log := __run_log self; __run_data := __run_data self;
     __static_data := __static_data self |}.
Definition with_run_log (out : string) (self : PlasmaXRTSCalculator) :=
  {| parameters := parameters self;
     input_path := input_path self; output_path := output_path self;
     __is_initialized := __is_initialized self;
     __expected_data := __expected_data self;
     __provided_data := __provided_data self;
     _input_data := _input_data self;
     __run_log := Some out; __run_data := __run_data self;
     __static_data := __static_data self |}.
Definition with_run_data (data : list (list float)) (self : PlasmaXRTSCalculator) :=
  {| parameters := parameters self;
     input_path := input_path self; output_path := output_path self;
     __is_initialized := __is_initialized self;
     __expected_data := __expected_data self;
     __provided_data := __provided_data self;
     _input_data := _input_data self;
     __run_log := __run_log self; __run_data := Some data;
     __static_data := __static_data self |}.

Section Calculator.

(** What lies outside the sources:
    - the constructor of the base class [AbstractPhotonDiffractor],
      which checks the two paths and returns them resolved;
    - [PlasmaXRTSCalculatorParameters._serialize], which writes the
      input deck and may set [_tmp_dir];
    - the child process: [subprocess.Popen] followed by
      [communicate] either fails to start or runs to its end, leaving
      its standard output, its standard error and the files behind;
    - [numpy.loadtxt] on the text of a file. *)
Variable AbstractPhotonDiffractor_init :
  pyobj -> pyobj -> pyobj -> result (string * string).
Variable _serialize :
  CalculatorParameters -> gmap string file ->
  result (CalculatorParameters * gmap string file).
Variable communicate :
  Popen -> gmap string file -> result (string * string * gmap string file).
Variable loadtxt : string -> result (list (list float)).

(** Constructor for the PlasmaXRTSCalculator. *)
Definition PlasmaXRTSCalculator_init (parameters input_path output_path : pyobj)
  : result PlasmaXRTSCalculator :=
  (* Check parameters. *)
  parameters ← checkAndSetParameters parameters;
  (* Init base class. *)
  '(input_path, output_path) ←
    AbstractPhotonDiffractor_init parameters input_path output_path;
  Ok {| parameters := parameters;
        input_path := input_path;
        output_path := output_path;
        (* Set state to not-initialized (e.g. input deck is not written). *)
        __is_initialized := false;
        (* Overwrite provided_data. *)
        __expected_data :=
          ["/data/snp_<7 digit index>/ff";
           "/data/snp_<7 digit index>/halfQ";
           "/data/snp_<7 digit index>/Nph";
           "/data/snp_<7 digit index>/r";
           "/data/snp_<7 digit index>/T";
           "/data/snp_<7 digit index>/Z";
           "/data/snp_<7 digit index>/xyz";
           "/data/snp_<7 digit index>/Sq_halfQ";
           "/data/snp_<7 digit index>/Sq_bound";
           "/data/snp_<7 digit index>/Sq_free";
           "/history/parent/detail";
           "/history/parent/parent";
           "/info/package_version";
           "/info/contact";
           "/info/data_description";
           "/info/method_description";
           "/version"];
        (* adjacent literals without a comma between them are one string *)
        __provided_data :=
          ["/data/";
           "/data/dynamic" +:+ "/data/dynamic/energy_shifts";
           "/data/dynamic/Skw_free";
           "/data/dynamic/Skw_bound";
           "/data/dynamic/collision_frequency";
           "/data/static" +:+ "/data/static/Sk_bound";
           "/data/static/Sk_ion";
           "/data/static/Sk_elastic";
           "/data/static/Sk_core_inelastic";
           "/data/static/Sk_free_inelastic";
           "/data/static/Sk_total";
           "/data/static/fk";
           "/data/static/qk";
           "/data/static/ionization_potential_delta" +:+ "/data/static/LFC";
           "/history/parent/detail";
           "/history/parent/parent";
           "/info/package_version";
           "/info/contact";
           "/info/data_description";
           "/info/method_description";
           "/info/units/energy" +:+ "/info/units/structure_factor"
             +:+ "/params/beam/photonEnergy";
           "/params/beam/spectrum";
           "/params/info"];
        _input_data := ∅;
        __run_log := None;
        __run_data := None;
        __static_data := None |}.

(** [self.parameters._serialize()]: the parameters object is updated
    in place, so the calculator sees the new [_tmp_dir]. *)
Definition parameters_serialize : method PlasmaXRTSCalculator unit :=
  self ← get_self;
  w ← get_world;
  match parameters self with
  | PyParameters p =>
      '(p', fs) ← lift (_serialize p (files w));
      set_self (with_parameters (PyParameters p'));;
      set_world (with_files fs)
  | _ => lift (raise_ AttributeError "object has no attribute '_serialize'")
  end.

(** [self.parameters._tmp_dir] *)
Definition parameters_tmp_dir : method PlasmaXRTSCalculator string :=
  self ← get_self;
  match parameters self with
  | PyParameters p => mret (_tmp_dir p)
  | _ => lift (raise_ AttributeError "object has no attribute '_tmp_dir'")
  end.

(** [subprocess.Popen(args, stdout=PIPE, stderr=PIPE, cwd=cwd)] and
    [process.communicate(input=None)] *)
Definition Popen_communicate (command_sequence : list string) (cwd : string)
  : method PlasmaXRTSCalculator (string * string) :=
  let process := {| args := command_sequence; cwd := cwd |} in
  set_world (with_process process);;
  w ← get_world;
  '(out, err, fs) ← lift (communicate process (files w));
  set_world (with_files fs);;
  mret (out, err).

Definition read_text (path : string) : method PlasmaXRTSCalculator string :=
  w ← get_world;
  match files w !! path with
  | Some (TextFile content) => mret content
  | _ => lift (raise_ IOError (path +:+ " not found."))
  end.

(** This method drives the backengine xrts. *)
Definition backengine : method PlasmaXRTSCalculator unit :=
  (* Serialize the parameters (generate the input deck). *)
  parameters_serialize;;
  (* cd to the temporary directory where input deck was written. *)
  w ← get_world;
  let pwd := getcwd w in
  (* Setup command sequence and issue the system call. *)
  let command_sequence := ["xrs"] in
  tmp_dir ← parameters_tmp_dir;
  (* Catch stdout and stderr, wait until process terminates. *)
  '(out, err) ← Popen_communicate command_sequence tmp_dir;
  (* Error handling. *)
  if negb (String.eqb err "")
  then lift (raise_tuple RuntimeError
               ("Error during xrts backengine execution in " +:+ tmp_dir
                +:+ ". Error output follows. " +:+ err))
  else
  (* Check if data was produced. *)
  let path_to_data := os_path_join tmp_dir "xrts_out.txt" in
  w ← get_world;
  if negb (isfile (files w) path_to_data)
  then lift (raise_tuple IOError
               ("No data generated. Check input deck "
                +:+ os_path_join tmp_dir "input.dat" +:+ "."))
  else
  (* Store output internally. *)
  set_self (with_run_log out);;
  (* Write to tmp_dir. *)
  set_world (fun w =>
    with_files (<[os_path_join tmp_dir "xrts.log" := TextFile out]> (files w)) w);;
  (* Store data internally. *)
  text ← read_text path_to_data;
  data ← lift (loadtxt text);
  set_self (with_run_data data);;
  (* Cd back to where we came from. *)
  set_world (chdir pwd).

End Calculator.

(** The pattern ["=\s"] that [extractDate] splits the line with. *)
Definition equals_space : regex :=
  [(Single (Lit "="), Once); (Single Space, Once)].

(** Nine of the ten patterns have one shape: the phrase of the report,
    character by character, then [\s+=\s\d+\.\d+]. *)
Definition literal (phrase : string) : regex :=
  map (fun c => (Single (Lit c), Once)) (list_ascii_of_string phrase).

Definition value_tail : regex :=
  [(Single Space, Plus); (Single (Lit "="), Once); (Single Space, Once);
   (Single Digit, Plus); (Single (Lit "."), Once); (Single Digit, Plus)].

Definition value_phrases : list (string * string) :=
  [("f(k)", pattern_fk); ("q(k)", pattern_qk); ("S_ii(k)", pattern_Sk_ion);
   ("S_ee^0(k)", pattern_Sk_free); ("Core_inelastic(k)", pattern_Sk_core);
   ("Elastic(k)", pattern_Wk); ("S_total(k)", pattern_Sk_total);
   ("IP depression [eV]", pattern_ipl); ("G(k)", pattern_lfc)].

(** A line of the report in that phrasing: the phrase, whitespace, the
    equals sign, one whitespace character, and a number with digits on
    both sides of its point. *)
Definition report_line (phrase : string) (ws : list ascii) (w : ascii)
    (int_digits frac_digits : list ascii) : list ascii :=
  (list_ascii_of_string phrase ++ ws ++ "="%char :: w :: int_digits
     ++ "."%char :: frac_digits)%list.

(** The tenth pattern behind its phrase: [\s+=\s+] and one character
    out of the class [[1|\d+.\d+]]. *)
Definition debye_waller_tail : regex :=
  [(Single Space, Plus); (Single (Lit "="), Once); (Single Space, Plus);
   (Class [Lit "1"; Lit "|"; Digit; Lit "+"; Lit "."; Digit; Lit "+"], Once)].

(** A line of the report for the Debye-Waller factor, up to the first
    character of its number. *)
Definition debye_waller_line (ws1 ws2 : list ascii) (c : ascii) : list ascii :=
  (list_ascii_of_string "Debye-Waller" ++ ws1 ++ "="%char :: ws2 ++ [c])%list.

(** The text [s] stops a run of the atom [a]: it is at its end, or
    starts with a character that [a] does not accept. *)
Definition stops (a : atom) (s : list ascii) : Prop :=
  match s with
  | c :: _ => atom_accepts a c = false
  | [] => True
  end.

(** [parseStaticData] told as one loop over [static_patterns]: each
    pattern is looked up in the text and its value stored under its
    key; the first failure ends the loop. *)
Definition collect (text : string) (patterns : list (string * string))
    (static_dict : result (gmap string float)) : result (gmap string float) :=
  fold_left
    (fun acc kp => d ← acc; v ← extractDate kp.2 text; Ok (<[kp.1 := v]> d))
    patterns static_dict.

(** The ten keys of the static data. *)
Definition static_keys : gset string :=
  list_to_set ["fk"; "qk"; "Sk_ion"; "Sk_free"; "Sk_core"; "Wk"; "Sk_total";
               "ipl"; "lfc"; "debye_waller"].

(** ** The moments of a sampled curve, as the specification words them *)

Section Moments.

Local Open Scope float_scope.

(** The square [m1^2] is the [pow] of the platform. A curve is sampled
    at the abscissae [x] with the ordinates [I], index by index. The
    sample [i] weighs [I_i] over the step [x_(i+1) - x_i], so the last
    sample has no step and no weight. *)
Variable pow : float -> float -> float.
Variables (I x : list float).

Definition ordinate (i : nat) : float := nth i I 0.
Definition abscissa (i : nat) : float := nth i x 0.
Definition step (i : nat) : float := abscissa (S i) - abscissa i.

(** [sum_(i < n) f i]: the [n] terms, added up as [numpy.sum] adds
    them. *)
Definition Sigma (n : nat) (f : nat -> float) : float :=
  numpy_sum (map f (seq 0 n)).

Definition steps : nat := length x - 1.

(** m0 = sum(I*dt), m1 = sum(I*t*dt)/m0, m2 = sum(I*t^2*dt)/m0 *)
Definition moment0 : float :=
  Sigma steps (fun i => ordinate i * step i).
Definition moment1 : float :=
  Sigma steps (fun i => ordinate i * abscissa i * step i) / moment0.
Definition moment2 : float :=
  Sigma steps (fun i => ordinate i * (abscissa i * abscissa i) * step i) / moment0.

(** rms = sqrt(m2 - m1^2) *)
Definition variance : float := moment2 - pow moment1 2.
Definition rms_width : float := PrimFloat.sqrt variance.

End Moments.

(** The intensity-vs-time curve and the intensity-vs-energy curve of a
    wavefront: the slice intensities (in the time domain scaled by the
    pixel area) over the evenly spaced slice positions. *)
Definition pixel_dx (m : Mesh) : float :=
  ((xMax m - xMin m) / float_of_int (nx m - 1))%float.
Definition pixel_dy (m : Mesh) : float :=
  ((yMax m - yMin m) / float_of_int (ny m - 1))%float.

Definition intensity_vs_time (w : Wavefront) : list float :=
  map (fun i => i * pixel_dx (Mesh_t w) * pixel_dy (Mesh_t w))%float (intensity_t w).
Definition slice_times (w : Wavefront) : list float :=
  linspace (sliceMin (Mesh_t w)) (sliceMax (Mesh_t w)) (length (intensity_t w)).

Definition intensity_vs_energy (w : Wavefront) : list float := intensity_f w.
Definition slice_energies (w : Wavefront) : list float :=
  linspace (sliceMin (Mesh_f w)) (sliceMax (Mesh_f w)) (length (intensity_f w)).

(** The temporal RMS width, the mean photon energy, and the relative
    bandwidth "(hbar/rms)/e divided by the mean photon energy". *)
Definition temporal_rms (pow : float -> float -> float) (w : Wavefront) : float :=
  rms_width pow (intensity_vs_time w) (slice_times w).
Definition mean_photon_energy (w : Wavefront) : float :=
  moment1 (intensity_vs_energy w) (slice_energies w).
Definition relative_bandwidth (pow : float -> float -> float) (hbar e : float)
    (w : Wavefront) : float :=
  (((hbar / temporal_rms pow w) / e) / mean_photon_energy w)%float.

(** The conditions under which the arithmetic of [propToBeamParameters]
    goes through: neither [nx - 1] nor [ny - 1] is zero as a float, no
    variance is negative (rounding can produce one), the temporal RMS
    width and the constant [e] are not zero. *)
Definition moments_defined (pow : float -> float -> float) (e : float)
    (w : Wavefront) : bool :=
  negb (float_of_int (nx (Mesh_t w) - 1) =? 0)%float
  && negb (float_of_int (ny (Mesh_t w) - 1) =? 0)%float
  && negb (variance pow (intensity_vs_time w) (slice_times w) <? 0)%float
  && negb (temporal_rms pow w =? 0)%float
  && negb (e =? 0)%float
  && negb (variance pow (intensity_vs_energy w) (slice_energies w) <? 0)%float.

(** A delta-like curve: every sample but one is zero. *)
Definition delta_like (I : list float) : bool :=
  Nat.eqb (length (List.filter (fun v => negb (v =? 0)%float) I)) 1.

(** [propToBeamParameters] on a file that holds the wavefront [w], read
    off the specification: the moments of the two curves, then the
    conversions. *)
Definition beam_parameters_of (pow : float -> float -> float) (hbar e : float)
    (w : Wavefront) : result DetectorGeometryParameters :=
  _ ← py_div (xMax (Mesh_t w) - xMin (Mesh_t w)) (float_of_int (nx (Mesh_t w) - 1));
  _ ← py_div (yMax (Mesh_t w) - yMin (Mesh_t w)) (float_of_int (ny (Mesh_t w) - 1));
  rms ← math_sqrt (variance pow (intensity_vs_time w) (slice_times w));
  spike_fwhm_J ← py_div hbar rms;
  spike_fwhm_eV ← py_div spike_fwhm_J e;
  _ ← math_sqrt (variance pow (intensity_vs_energy w) (slice_energies w));
  Ok {| photon_energy := PyFloat (mean_photon_energy w);
        photon_energy_relative_bandwidth :=
          PyFloat (spike_fwhm_eV / mean_photon_energy w)%float;
        beam_diameter_fwhm :=
          PyFloat (py_max2 (fwhm_x (calculate_fwhm_f w)) (fwhm_y (calculate_fwhm_f w)));
        pulse_energy := PyFloat (calc_pulse_energy w);
        divergence :=
          PyFloat (py_max2 (fwhm_x (calculate_fwhm_a w))
                           (fwhm_y (calculate_fwhm_a w)) / 2)%float;
        photon_energy_spectrum_type := PyStr "SASE" |}.

(** The parameters that come out when nothing fails. *)
Definition beam_parameters_value (pow : float -> float -> float) (hbar e : float)
    (w : Wavefront) : DetectorGeometryParameters :=
  {| photon_energy := PyFloat (mean_photon_energy w);
     photon_energy_relative_bandwidth := PyFloat (relative_bandwidth pow hbar e w);
     beam_diameter_fwhm :=
       PyFloat (py_max2 (fwhm_x (calculate_fwhm_f w)) (fwhm_y (calculate_fwhm_f w)));
     pulse_energy := PyFloat (calc_pulse_energy w);
     divergence :=
       PyFloat (py_max2 (fwhm_x (calculate_fwhm_a w))
                        (fwhm_y (calculate_fwhm_a w)) / 2)%float;
     photon_energy_spectrum_type := PyStr "SASE" |}.

(** [m] is the larger of [a] and [b]: it is one of them and neither
    exceeds it. *)
Definition larger_of (a b m : float) : Prop :=
  (m = a \/ m = b) /\ (m <? a)%float = false /\ (m <? b)%float = false.

(** ** Sample inputs *)

Definition sample_mesh : Mesh :=
  {| xMin := -1; xMax := 1; nx := 3; yMin := -1; yMax := 1; ny := 3;
     sliceMin := 0; sliceMax := 2; nx_int := I; ny_int := I |}.

(** Three slices at the times 0, 1, 2; a beam 2 by 1 wide in real space
    and in reciprocal space. *)
Definition sample_wavefront (slices : list float) : Wavefront :=
  {| calc_pulse_energy := 0.001;
     Mesh_t := sample_mesh; intensity_t := slices;
     Mesh_f := sample_mesh; intensity_f := [1; 2; 1]%float;
     calculate_fwhm_f := {| fwhm_x := 2; fwhm_y := 1 |};
     calculate_fwhm_a := {| fwhm_x := 2; fwhm_y := 1 |} |}.

Definition pulse : Wavefront := sample_wavefront [1; 2; 1]%float.
(** All the intensity sits in the slice at time 1. *)
Definition delta_pulse : Wavefront := sample_wavefront [0; 5; 0]%float.

Definition sample_fs : gmap string file :=
  {[ "prop.h5" := WavefrontFile pulse; "delta.h5" := WavefrontFile delta_pulse ]}.

(** The child process of a run: the command [xrs] on its own, in the
    temporary directory of the parameters. *)
Definition xrs_in (p : CalculatorParameters) : Popen :=
  {| args := ["xrs"]; cwd := _tmp_dir p |}.

(** A calculator with its parameters, an empty world, and three ways
    the external tool can behave. *)
Definition sample_parameters : CalculatorParameters :=
  {| _tmp_dir := "/tmp/xrts"; deck := "PHOTON_ENERGY 4960.0" |}.

Definition sample_base_init (parameters input_path output_path : pyobj)
  : result (string * string) :=
  Ok ("/home/user/prop", "/home/user/xrts_out.h5").

Definition sample_serialize (p : CalculatorParameters) (fs : gmap string file)
  : result (CalculatorParameters * gmap string file) :=
  Ok (p, <[os_path_join (_tmp_dir p) "input.dat" := TextFile (deck p)]> fs).

Definition sample_loadtxt (text : string) : result (list (list float)) :=
  Ok [[0; 0.5; 0.25; 0.75]%float].

(** The tool complains on its standard error. *)
Definition complaining_tool (process : Popen) (fs : gmap string file)
  : result (string * string * gmap string file) :=
  Ok ("", "xrs: cannot read input.dat", fs).

(** The tool ends quietly and leaves no [xrts_out.txt]. *)
Definition idle_tool (process : Popen) (fs : gmap string file)
  : result (string * string * gmap string file) :=
  Ok ("f(k)   = 0.873", "", fs).

(** The tool writes its table into its working directory. *)
Definition working_tool (process : Popen) (fs : gmap string file)
  : result (string * string * gmap string file) :=
  Ok ("f(k)   = 0.873", "",
      <[os_path_join (cwd process) "xrts_out.txt" := TextFile "0.0 0.5 0.25 0.75"]> fs).

Definition sample_calculator : PlasmaXRTSCalculator :=
  {| parameters := PyParameters sample_parameters;
     input_path := "/home/user/prop"; output_path := "/home/user/xrts_out.h5";
     __is_initialized := false;
     __expected_data := []; __provided_data := [];
     _input_data := ∅;
     __run_log := Some "log of an earlier run";
     __run_data := Some [[1; 2; 3; 4]%float];
     __static_data := None |}.

Definition sample_world : world :=
  {| files := ∅; getcwd := "/home/user"; processes := [] |}.

(** A log with the ten phrases. *)
Definition sample_log : string :=
  "f(k) = 1.5
q(k) = 0.25
S_ii(k) = 1.25
S_ee^0(k) = 0.5
Core_inelastic(k) = 0.125
Elastic(k) = 2.5
S_total(k) = 3.0
IP depression [eV] = 10.5
G(k) = 0.75
Debye-Waller = 0.873
".

(** * Further code: definitions *)

(** ** More sample propagation outputs *)

(** The delta pulse of [delta_pulse] on a time axis from 0 to 0.3: the
    slice positions are no longer exact in binary. *)
Definition rounding_pulse : Wavefront :=
  {| calc_pulse_energy := 0.001;
     Mesh_t := {| xMin := -1; xMax := 1; nx := 3; yMin := -1; yMax := 1; ny := 3;
                  sliceMin := 0; sliceMax := 0.3; nx_int := I; ny_int := I |};
     intensity_t := [0; 5; 0]%float;
     Mesh_f := sample_mesh; intensity_f := [1; 2; 1]%float;
     calculate_fwhm_f := {| fwhm_x := 2; fwhm_y := 1 |};
     calculate_fwhm_a := {| fwhm_x := 2; fwhm_y := 1 |} |}.

(** The slices of [pulse] but for the last one, in a brighter and wider
    beam. *)
Definition other_pulse : Wavefront :=
  {| calc_pulse_energy := 0.002;
     Mesh_t := sample_mesh; intensity_t := [1; 2; 7]%float;
     Mesh_f := sample_mesh; intensity_f := [1; 2; 9]%float;
     calculate_fwhm_f := {| fwhm_x := 3; fwhm_y := 1 |};
     calculate_fwhm_a := {| fwhm_x := 5; fwhm_y := 2 |} |}.

(** No intensity before the last slice. *)
Definition dark_pulse : Wavefront := sample_wavefront [0; 0; 1]%float.

(** A mesh of one pixel column. *)
Definition column_pulse : Wavefront :=
  {| calc_pulse_energy := 0.001;
     Mesh_t := {| xMin := 0; xMax := 0; nx := 1; yMin := -1; yMax := 1; ny := 3;
                  sliceMin := 0; sliceMax := 2; nx_int := I; ny_int := I |};
     intensity_t := [1; 2; 1]%float;
     Mesh_f := sample_mesh; intensity_f := [1; 2; 1]%float;
     calculate_fwhm_f := {| fwhm_x := 0; fwhm_y := 1 |};
     calculate_fwhm_a := {| fwhm_x := 0; fwhm_y := 1 |} |}.

(** Two wavefronts have the same slices up to the last one: the meshes
    are the same and the arrays of slice intensities, in the time and in
    the energy representation, differ at most in their last entry.
    Nothing is asked of the pulse energy and of the widths that the
    wavefront library derives from the wavefront. *)
Definition alike_but_last_slice (w w' : Wavefront) : Prop :=
  Mesh_t w = Mesh_t w' /\ Mesh_f w = Mesh_f w'
  /\ length (intensity_t w) = length (intensity_t w')
  /\ but_last (intensity_t w) = but_last (intensity_t w')
  /\ length (intensity_f w) = length (intensity_f w')
  /\ but_last (intensity_f w) = but_last (intensity_f w').

(** The six fields of a parameter object in the order of the
    constructor's arguments. *)
Definition reconstruct (bp : DetectorGeometryParameters)
  : result DetectorGeometryParameters :=
  DetectorGeometryParameters_init
    (photon_energy bp) (beam_diameter_fwhm bp) (pulse_energy bp)
    (photon_energy_relative_bandwidth bp) (divergence bp)
    (photon_energy_spectrum_type bp).

(** [val] is acceptable where an instance of [cls] or [None] is asked
    for. *)
Definition none_or (cls : pyclass) (val : pyobj) : bool :=
  match val with
  | PyNone => true
  | _ => isinstance val cls
  end.

(** A value, or the default where the value is [None]. *)
Definition or_default (default val : pyobj) : pyobj :=
  match val with
  | PyNone => default
  | _ => val
  end.

(** The class of the Debye-Waller pattern. *)
Definition debye_waller_class : atom :=
  Class [Lit "1"; Lit "|"; Digit; Lit "+"; Lit "."; Digit; Lit "+"].

(** [os.path.join] of a directory and a relative name: a prefix that
    depends on the directory alone, then the name. *)
Definition join_prefix (a : string) : string :=
  match last (list_ascii_of_string a) with
  | None => ""
  | Some "/"%char => a
  | Some _ => a +:+ "/"
  end.


(** ** More ways a run can go *)

(** The files after [sample_serialize] has written the input deck. *)
Definition deck_written : gmap string file :=
  {[ os_path_join "/tmp/xrts" "input.dat" := TextFile "PHOTON_ENERGY 4960.0" ]}.

(** The files after [working_tool] has run. *)
Definition table_written : gmap string file :=
  <[os_path_join "/tmp/xrts" "xrts_out.txt" := TextFile "0.0 0.5 0.25 0.75"]>
    deck_written.

(** [numpy.loadtxt] on a table it cannot read. *)
Definition failing_loadtxt (text : string) : result (list (list float)) :=
  raise_ ValueError "could not convert string to float".

(** There is no executable [xrs] on the path. *)
Definition missing_tool (process : Popen) (fs : gmap string file)
  : result (string * string * gmap string file) :=
  raise_ OSError "No such file or directory".

(** ** [saveH5] and [_readH5] *)

(** What an HDF5 dataset is given to hold: a number or an array of
    numbers. *)
Inductive h5value : Set :=
| H5scalar (x : float)
| H5array (a : list float).

(** The calls that [saveH5] makes to [h5py] on the file it writes, in
    the words of the source. The library is outside the sources: its
    calls are recorded in the order in which they are made, not
    interpreted. A dataset handle is the name it was created under;
    [h5[group][member]] is the name [group] followed by [member]. *)
Inductive h5call : Set :=
| File_w (path : string)
| create_group (name : string)
| create_dataset (name : string) (data : h5value)
| attrs_create (dataset : string) (attribute value : string)
| close.

(** A method that makes such calls: the calculator and the calls made
    so far survive an exception. *)
Definition h5method (A : Type) : Type :=
  PlasmaXRTSCalculator * list h5call
  -> result A * (PlasmaXRTSCalculator * list h5call).

Global Instance h5method_ret : MRet h5method := fun A a s => (Ok a, s).
Global Instance h5method_bind : MBind h5method := fun A B k m s =>
  match m s with
  | (Ok a, s') => k a s'
  | (Raise e, s') => (Raise e, s')
  end.

Definition h5 (c : h5call) : h5method unit :=
  fun s => (Ok tt, (fst s, (snd s ++ [c])%list)).

Definition h5lift {A} (r : result A) : h5method A := fun s => (r, s).

(** [self.__run_data] and [self.__run_log]: an attribute that was never
    assigned does not exist. *)
Definition get_run_data : h5method (list (list float)) :=
  fun s =>
    match __run_data (fst s) with
    | Some data => (Ok data, s)
    | None =>
        (raise_ AttributeError
           "'PlasmaXRTSCalculator' object has no attribute '_PlasmaXRTSCalculator__run_data'",
         s)
    end.

Definition get_run_log : h5method string :=
  fun s =>
    match __run_log (fst s) with
    | Some log => (Ok log, s)
    | None =>
        (raise_ AttributeError
           "'PlasmaXRTSCalculator' object has no attribute '_PlasmaXRTSCalculator__run_log'",
         s)
    end.

Definition with_static_data (d : gmap string float) (self : PlasmaXRTSCalculator) :=
  {| parameters := parameters self;
     input_path := input_path self; output_path := output_path self;
     __is_initialized := __is_initialized self;
     __expected_data := __expected_data self;
     __provided_data := __provided_data self;
     _input_data := _input_data self;
     __run_log := __run_log self; __run_data := __run_data self;
     __static_data := Some d |}.

Definition with_input_data (d : gmap string (list float)) (self : PlasmaXRTSCalculator) :=
  {| parameters := parameters self;
     input_path := input_path self; output_path := output_path self;
     __is_initialized := __is_initialized self;
     __expected_data := __expected_data self;
     __provided_data := __provided_data self;
     _input_data := d;
     __run_log := __run_log self; __run_data := __run_data self;
     __static_data := __static_data self |}.

Definition set_static_data (d : gmap string float) : h5method unit :=
  fun s => (Ok tt, (with_static_data d (fst s), snd s)).

(** [table[:,k]] for the table that [numpy.loadtxt] returned. A text of
    no line or of one line is loaded as an array of one dimension, which
    has no second index; otherwise every row has to reach the column. *)
Definition column (k : nat) (table : list (list float)) : result (list float) :=
  match table with
  | [] | [_] => raise_ IndexError "too many indices for array"
  | _ =>
      match mapM (fun row : list float => row !! k) table with
      | Some c => Ok c
      | None => raise_ IndexError "index is out of bounds for axis 1"
      end
  end.

(** The loop [for key, value in self.__static_data.items()]. *)
Fixpoint save_static (items : list (string * float)) : h5method unit :=
  match items with
  | [] => mret tt
  | (key, value) :: rest =>
      h5 (create_dataset ("/data/static/" +:+ key) (H5scalar value));;
      save_static rest
  end.

(** Method to save the data to a file. *)
Definition saveH5 : h5method unit :=
  self ← (fun s => (Ok (fst s), s));
  (* Setup h5 data groups and sets. *)
  h5 (File_w (output_path self));;
  (* Data *)
  h5 (create_group "/data/dynamic");;
  h5 (create_group "/data/static");;
  (* History *)
  h5 (create_group "/history/parent");;
  (* Info *)
  h5 (create_group "/info/units/");;
  (* Parameters *)
  h5 (create_group "/params/beam");;
  (* Create data datasets. *)
  (* Dynamic data. *)
  run_data ← get_run_data;
  energies ← h5lift (column 0 run_data);
  Skw_free ← h5lift (column 1 run_data);
  Skw_bound ← h5lift (column 2 run_data);
  Skw_total ← h5lift (column 3 run_data);
  h5 (create_dataset "data/dynamic/energy_shifts" (H5array energies));;
  h5 (attrs_create "data/dynamic/energy_shifts" "unit" "eV");;
  h5 (create_dataset "data/dynamic/Skw_free" (H5array Skw_free));;
  h5 (attrs_create "data/dynamic/Skw_free" "unit" "eV**-1");;
  h5 (create_dataset "data/dynamic/Skw_bound" (H5array Skw_bound));;
  h5 (attrs_create "data/dynamic/Skw_bound" "unit" "eV**-1");;
  h5 (create_dataset "data/dynamic/Skw_total" (H5array Skw_total));;
  h5 (attrs_create "data/dynamic/Skw_total" "unit" "eV**-1");;
  (* Static data. *)
  run_log ← get_run_log;
  static_data ← h5lift (parseStaticData run_log);
  set_static_data static_data;;
  (* Save to h5 file. *)
  save_static (map_to_list static_data);;
  (* Attach a unit to the ionization potential lowering. *)
  h5 (attrs_create ("/data/static/" +:+ "ipl") "unit" "eV");;
  (* Close the file. *)
  h5 close.

Section ReadH5.

(** [h5py.File(path, 'r')] and the value of a dataset of the file at a
    path, as an array: both may raise. *)
Variable File_r : string -> result unit.
Variable dataset_value : string -> string -> result (list float).

(** Private method for reading the hdf5 input and extracting the
    parameters and data relevant to initialize the object. *)
Definition _readH5 (self : PlasmaXRTSCalculator)
  : result unit * PlasmaXRTSCalculator :=
  (* Open the h5 file. *)
  match File_r (input_path self) with
  | Raise e => (Raise e, self)
  | Ok _ =>
      let self := with_input_data ∅ self in
      match dataset_value (input_path self) "misc/spectrum0" with
      | Raise e => (Raise e, self)
      | Ok spectrum =>
          (Ok tt, with_input_data (<["source_spectrum" := spectrum]> (_input_data self)) self)
      end
  end.

End ReadH5.

(** The calls of [saveH5] in its three stages. *)
Definition opening_calls (output_path : string) : list h5call :=
  [File_w output_path;
   create_group "/data/dynamic"; create_group "/data/static";
   create_group "/history/parent"; create_group "/info/units/";
   create_group "/params/beam"].

Definition dynamic_calls (energies Skw_free Skw_bound Skw_total : list float)
  : list h5call :=
  [create_dataset "data/dynamic/energy_shifts" (H5array energies);
   attrs_create "data/dynamic/energy_shifts" "unit" "eV";
   create_dataset "data/dynamic/Skw_free" (H5array Skw_free);
   attrs_create "data/dynamic/Skw_free" "unit" "eV**-1";
   create_dataset "data/dynamic/Skw_bound" (H5array Skw_bound);
   attrs_create "data/dynamic/Skw_bound" "unit" "eV**-1";
   create_dataset "data/dynamic/Skw_total" (H5array Skw_total);
   attrs_create "data/dynamic/Skw_total" "unit" "eV**-1"].

Definition static_calls (items : list (string * float)) : list h5call :=
  map (fun kv => create_dataset ("/data/static/" +:+ kv.1) (H5scalar kv.2)) items.

Definition closing_calls : list h5call :=
  [attrs_create "/data/static/ipl" "unit" "eV"; close].

(** A table of at least two rows that all reach the fourth column. *)
Definition four_columns (table : list (list float)) : Prop :=
  (2 <= length table)%nat
  /\ Forall (fun row : list float => (4 <= length row)%nat) table.

(** A table of two rows and four columns, and a calculator that holds
    it together with [sample_log]. *)
Definition sample_table : list (list float) :=
  [[-10; 0.5; 0.25; 0.75]; [10; 0.125; 0.5; 0.625]]%float.

Definition run_calculator : PlasmaXRTSCalculator :=
  with_run_data sample_table (with_run_log sample_log sample_calculator).

Definition table_loadtxt (text : string) : result (list (list float)) :=
  Ok sample_table.

Definition logging_tool (process : Popen) (fs : gmap string file)
  : result (string * string * gmap string file) :=
  Ok (sample_log, "",
      <[os_path_join (cwd process) "xrts_out.txt" :=
          TextFile "-10 0.5 0.25 0.75
10 0.125 0.5 0.625"]> fs).

(** The components of an HDF5 name: the pieces between slashes, empty
    pieces dropped, so that [/data/static/], [data/static] and
    [/data/static] name one object. *)
Fixpoint path_pieces (cur : list ascii) (s : list ascii) : list (list ascii) :=
  match s with
  | [] => [rev cur]
  | c :: s' =>
      if Ascii.eqb c "/" then rev cur :: path_pieces [] s'
      else path_pieces (c :: cur) s'
  end.

Definition components (name : string) : list string :=
  map string_of_list_ascii
    (List.filter (fun piece => negb (Nat.eqb (length piece) 0))
       (path_pieces [] (list_ascii_of_string name))).

(** The objects that a sequence of calls creates, and the datasets
    among them. *)
Definition created (calls : list h5call) : list (list string) :=
  omap (fun c => match c with
                 | create_group name | create_dataset name _ => Some (components name)
                 | _ => None
                 end) calls.

Definition created_datasets (calls : list h5call) : list (list string) :=
  omap (fun c => match c with
                 | create_dataset name _ => Some (components name)
                 | _ => None
                 end) calls.

(** The objects that take an attribute. *)
Definition attributed (calls : list h5call) : list (list string) :=
  omap (fun c => match c with
                 | attrs_create name _ _ => Some (components name)
                 | _ => None
                 end) calls.

(** The keys of the static data, as a list. *)
Definition static_key_list : list string :=
  ["fk"; "qk"; "Sk_ion"; "Sk_free"; "Sk_core"; "Wk"; "Sk_total";
   "ipl"; "lfc"; "debye_waller"].

(** What [parseStaticData] reads in [sample_log]. *)
Definition sample_static : gmap string float :=
  list_to_map
    [("fk", 1.5); ("qk", 0.25); ("Sk_ion", 1.25); ("Sk_free", 0.5);
     ("Sk_core", 0.125); ("Wk", 2.5); ("Sk_total", 3); ("ipl", 10.5);
     ("lfc", 0.75); ("debye_waller", 0)]%float.

(** Query for the data expected by the Diffractor. *)
Definition expectedData (self : PlasmaXRTSCalculator) : list string :=
  __expected_data self.

(** Query for the data provided by the Diffractor. *)
Definition providedData (self : PlasmaXRTSCalculator) : list string :=
  __provided_data self.

(** * Theorems *)

Local Close Scope float_scope.
Local Open Scope nat_scope.
Local Open Scope list_scope.

(** ** Arrays and sums *)

(** Python's conversions of the same integers: zero, a negative number,
    the tie at [2^53 + 1], [2^63], a number above [2^64] that rounds up,
    and the least difference of two C longs. *)
Lemma float_of_int_samples :
  Forall (fun '(z, f) => float_of_int z = f)
    [(0%Z, 0%float); ((-1)%Z, (-1)%float);
     ((2 ^ 53 + 1)%Z, 9007199254740992%float);
     ((2 ^ 63)%Z, 9223372036854775808%float);
     ((2 ^ 64 + 2 ^ 11 + 1)%Z, 18446744073709555712%float);
     ((- 2 ^ 63 - 1)%Z, (-9223372036854775808)%float)].
Proof. repeat (constructor; [vm_compute; reflexivity|]). constructor. Qed.

Lemma pairwise_sum_unfold (fuel : nat) (a : list float) :
  pairwise_sum (S fuel) a
  = if length a <? 8 then fold_left PrimFloat.add a 0%float
    else if length a <=? 128 then block_sum a
    else (pairwise_sum fuel (take (length a / 2 - (length a / 2) mod 8) a)
          + pairwise_sum fuel (drop (length a / 2 - (length a / 2) mod 8) a))%float.
Proof. reflexivity. Qed.

(** The length of the array is enough fuel: more makes no difference. *)
Lemma pairwise_sum_fuel (fuel fuel' : nat) (a : list float) :
  length a <= fuel -> length a <= fuel' ->
  pairwise_sum fuel a = pairwise_sum fuel' a.
Proof.
  revert fuel' a. induction fuel as [|fuel IH]; intros fuel' a Hf Hf'.
  - destruct a; [|simpl in Hf; lia]. by destruct fuel'.
  - destruct fuel' as [|fuel'].
    + destruct a; [|simpl in Hf'; lia]. done.
    + rewrite !pairwise_sum_unfold.
      destruct (length a <? 8) eqn:H8; [done|].
      destruct (length a <=? 128) eqn:H128; [done|].
      apply Nat.leb_gt in H128.
      set (n2 := length a / 2 - (length a / 2) mod 8).
      assert (Hn2 : 0 < n2 < length a).
      { pose proof (Nat.div_mod_eq (length a) 2).
        pose proof (Nat.mod_upper_bound (length a) 2).
        pose proof (Nat.mod_upper_bound (length a / 2) 8).
        unfold n2. lia. }
      f_equal; apply IH; rewrite ?length_take, ?length_drop; lia.
Qed.

(** Short arrays are added from the left; from eight elements on the
    order is another one and so is the rounding. *)
Lemma numpy_sum_short (a : list float) :
  length a < 8 -> numpy_sum a = (0 + fold_left PrimFloat.add a 0)%float.
Proof.
  intros Hlen. unfold numpy_sum.
  destruct (length a) as [|n] eqn:Hn.
  - by destruct a.
  - rewrite pairwise_sum_unfold, Hn.
    by destruct (Nat.ltb_spec (S n) 8); [|lia].
Qed.

Lemma numpy_sum_order_matters :
  numpy_sum [1; 1e-16; 1e-16; 1e-16; 1e-16; 1e-16; 1e-16; 1e-16]%float
  = 1.0000000000000007%float
  /\ fold_left PrimFloat.add
       [1; 1e-16; 1e-16; 1e-16; 1e-16; 1e-16; 1e-16; 1e-16]%float 0%float
     = 1%float.
Proof. split; vm_compute; reflexivity. Qed.

Lemma numpy_sum_Sigma (f : nat -> float) (n : nat) :
  numpy_sum (map f (seq 0 n)) = Sigma n f.
Proof. reflexivity. Qed.

Lemma length_but_last {A} (l : list A) : length (but_last l) = length l - 1.
Proof. unfold but_last. rewrite length_take. lia. Qed.

Lemma lookup_but_last {A} (l : list A) (i : nat) :
  i < length l - 1 -> but_last l !! i = l !! i.
Proof. intros Hi. unfold but_last. by rewrite lookup_take_lt. Qed.

Lemma lookup_from_1 {A} (l : list A) (i : nat) : from_1 l !! i = l !! S i.
Proof. unfold from_1. by rewrite lookup_drop. Qed.

(** The products of the source, [(I[:-1] g x[:-1]) * (x[1:] - x[:-1])],
    are the terms of the specification's sums. *)
Lemma weighted_terms (g : float -> float -> float) (I x : list float) :
  length I = length x ->
  np_mul (zip_with g (but_last I) (but_last x)) (np_sub (from_1 x) (but_last x))
  = map (fun i => g (ordinate I i) (abscissa x i) * step x i)%float
        (seq 0 (steps x)).
Proof.
  intros Hlen. unfold np_mul, np_sub, steps, step, ordinate, abscissa.
  apply list_eq. intros i.
  rewrite list_lookup_fmap.
  destruct (decide (i < length x - 1)) as [Hi|Hi].
  - rewrite lookup_seq_lt by done. simpl.
    rewrite !lookup_zip_with, !lookup_but_last, lookup_from_1 by lia.
    destruct (lookup_lt_is_Some_2 I i) as [a Ha]; [lia|].
    destruct (lookup_lt_is_Some_2 x i) as [b Hb]; [lia|].
    destruct (lookup_lt_is_Some_2 x (S i)) as [c Hc]; [lia|].
    rewrite Ha, Hb, Hc. simpl.
    by rewrite (nth_lookup_Some _ _ _ _ Ha), (nth_lookup_Some _ _ _ _ Hb),
               (nth_lookup_Some _ _ _ _ Hc).
  - rewrite lookup_seq_ge by lia. simpl.
    apply lookup_ge_None_2.
    rewrite !length_zip_with, !length_but_last. lia.
Qed.

Lemma weighted_terms0 (I x : list float) :
  length I = length x ->
  np_mul (but_last I) (np_sub (from_1 x) (but_last x))
  = map (fun i => ordinate I i * step x i)%float (seq 0 (steps x)).
Proof.
  intros Hlen.
  rewrite <- (weighted_terms (fun a _ => a) I x Hlen). f_equal.
  apply list_eq. intros i. rewrite lookup_zip_with.
  destruct (decide (i < length x - 1)) as [Hi|Hi].
  - destruct (lookup_lt_is_Some_2 (but_last I) i) as [a Ha];
      [rewrite length_but_last; lia|].
    destruct (lookup_lt_is_Some_2 (but_last x) i) as [b Hb];
      [rewrite length_but_last; lia|].
    by rewrite Ha, Hb.
  - rewrite (lookup_ge_None_2 (but_last I)) by (rewrite length_but_last; lia).
    done.
Qed.

Lemma length_linspace (start stop : float) (num : nat) :
  length (linspace start stop num) = num.
Proof.
  unfold linspace. destruct (1 <? num) eqn:Hnum.
  - apply Nat.ltb_lt in Hnum.
    rewrite length_app, length_but_last, length_map.
    destruct (_ =? 0)%float; rewrite !length_map, length_seq; simpl; lia.
  - by rewrite !length_map, length_seq.
Qed.

Lemma curve_lengths_t (w : Wavefront) :
  length (intensity_vs_time w) = length (slice_times w).
Proof.
  unfold intensity_vs_time, slice_times.
  by rewrite length_map, length_linspace.
Qed.

Lemma curve_lengths_f (w : Wavefront) :
  length (intensity_vs_energy w) = length (slice_energies w).
Proof. unfold intensity_vs_energy, slice_energies. by rewrite length_linspace. Qed.

(** The three sums of the source are the three sums of the
    specification. *)
Lemma source_moment0 (I x : list float) :
  length I = length x ->
  numpy_sum (np_mul (but_last I) (np_sub (from_1 x) (but_last x))) = moment0 I x.
Proof.
  intros Hlen. by rewrite (weighted_terms0 I x Hlen), numpy_sum_Sigma.
Qed.

Lemma source_moment1 (I x : list float) :
  length I = length x ->
  (numpy_sum (np_mul (np_mul (but_last I) (but_last x))
                     (np_sub (from_1 x) (but_last x)))
   / numpy_sum (np_mul (but_last I) (np_sub (from_1 x) (but_last x))))%float
  = moment1 I x.
Proof.
  intros Hlen. unfold moment1. rewrite (source_moment0 I x Hlen). f_equal.
  unfold np_mul at 2.
  by rewrite (weighted_terms PrimFloat.mul I x Hlen), numpy_sum_Sigma.
Qed.

Lemma source_moment2 (I x : list float) :
  length I = length x ->
  (numpy_sum (np_mul (np_mul (but_last I) (np_sq (but_last x)))
                     (np_sub (from_1 x) (but_last x)))
   / numpy_sum (np_mul (but_last I) (np_sub (from_1 x) (but_last x))))%float
  = moment2 I x.
Proof.
  intros Hlen. unfold moment2. rewrite (source_moment0 I x Hlen). f_equal.
  unfold np_mul at 2, np_sq. rewrite zip_with_fmap_r.
  by rewrite (weighted_terms (fun a b => a * (b * b))%float I x Hlen), numpy_sum_Sigma.
Qed.

Lemma py_div_Ok (x y q : float) : py_div x y = Ok q -> q = (x / y)%float.
Proof. unfold py_div. destruct (y =? 0)%float; [done|]. by intros [= <-]. Qed.

Lemma propToBeamParameters_moments (pow : float -> float -> float)
    (hbar e : float) (fs : gmap string file)
    (path : string) (w : Wavefront) :
  fs !! path = Some (WavefrontFile w) ->
  propToBeamParameters pow hbar e fs path = beam_parameters_of pow hbar e w.
Proof.
  intros Hfile. unfold propToBeamParameters, beam_parameters_of, isfile, load_hdf5.
  rewrite Hfile. simpl.
  destruct (py_div (xMax (Mesh_t w) - xMin (Mesh_t w)) _) as [dx|] eqn:Hdx; [|done].
  apply py_div_Ok in Hdx. simpl.
  destruct (py_div (yMax (Mesh_t w) - yMin (Mesh_t w)) _) as [dy|] eqn:Hdy; [|done].
  apply py_div_Ok in Hdy. simpl.
  fold (pixel_dx (Mesh_t w)) in Hdx. fold (pixel_dy (Mesh_t w)) in Hdy. subst dx dy.
  unfold nSlices.
  fold (intensity_vs_time w) (slice_times w).
  fold (slice_energies w). fold (intensity_vs_energy w).
  rewrite (source_moment1 _ _ (curve_lengths_t w)).
  rewrite (source_moment2 _ _ (curve_lengths_t w)).
  rewrite (source_moment1 _ _ (curve_lengths_f w)).
  rewrite (source_moment2 _ _ (curve_lengths_f w)).
  fold (variance pow (intensity_vs_time w) (slice_times w)).
  fold (variance pow (intensity_vs_energy w) (slice_energies w)).
  fold (mean_photon_energy w).
  destruct (math_sqrt (variance pow (intensity_vs_time w) (slice_times w))) as [rms|]; [|done].
  simpl. destruct (py_div hbar rms) as [J|]; [|done].
  simpl. destruct (py_div J e) as [eV|]; [|done].
  simpl.
  destruct (math_sqrt (variance pow (intensity_vs_energy w) (slice_energies w))); [|done].
  reflexivity.
Qed.

(** ** Order on floats *)

Lemma SFcompare_antisym (x y : spec_float) :
  SFcompare y x = option_map CompOpp (SFcompare x y).
Proof.
  destruct x as [[]| [] | |[] mx ex], y as [[]| [] | |[] my ey]; simpl; try reflexivity.
  - rewrite (Z.compare_antisym ex ey).
    destruct (ex ?= ey)%Z eqn:E; simpl; try reflexivity.
    change (Pos.compare_cont Eq my mx) with (Pos.compare_cont (CompOpp Eq) my mx).
    by rewrite <- Pos.compare_cont_antisym.
  - rewrite (Z.compare_antisym ex ey).
    destruct (ex ?= ey)%Z eqn:E; simpl; try reflexivity.
    change (Pos.compare_cont Eq my mx) with (Pos.compare_cont (CompOpp Eq) my mx).
    by rewrite <- Pos.compare_cont_antisym.
Qed.

Lemma ltb_asym (a b : float) : (a <? b)%float = true -> (b <? a)%float = false.
Proof.
  rewrite !ltb_spec. unfold SFltb.
  rewrite (SFcompare_antisym (Prim2SF a) (Prim2SF b)).
  by destruct (SFcompare (Prim2SF a) (Prim2SF b)) as [[]|].
Qed.

Lemma ltb_irrefl (a : float) : (a <? a)%float = false.
Proof.
  destruct (a <? a)%float eqn:E; [|done].
  by rewrite (ltb_asym a a E) in E.
Qed.

Lemma py_max2_larger (a b : float) : larger_of a b (py_max2 a b).
Proof.
  unfold larger_of, py_max2.
  destruct (a <? b)%float eqn:E.
  - split; [by right|]. split; [by apply ltb_asym | apply ltb_irrefl].
  - split; [by left|]. split; [apply ltb_irrefl | done].
Qed.

(** ** [propToBeamParameters] *)

Lemma beam_parameters_of_defined (pow : float -> float -> float)
    (hbar e : float) (w : Wavefront) :
  moments_defined pow e w = true ->
  beam_parameters_of pow hbar e w = Ok (beam_parameters_value pow hbar e w).
Proof.
  unfold moments_defined, beam_parameters_of, py_div, math_sqrt.
  unfold temporal_rms, rms_width.
  intros H. repeat (apply andb_prop in H as [H ?]).
  repeat match goal with
         | H : negb ?b = true |- _ => apply negb_true_iff in H; rewrite H; simpl
         end.
  reflexivity.
Qed.

Lemma beam_parameters_of_Ok (pow : float -> float -> float)
    (hbar e : float) (w : Wavefront)
    (bp : DetectorGeometryParameters) :
  beam_parameters_of pow hbar e w = Ok bp ->
  moments_defined pow e w = true /\ bp = beam_parameters_value pow hbar e w.
Proof.
  intros H.
  destruct (moments_defined pow e w) eqn:Hdef.
  - rewrite (beam_parameters_of_defined pow hbar e w Hdef) in H. by injection H as <-.
  - exfalso. revert H Hdef.
    unfold moments_defined, beam_parameters_of, py_div, math_sqrt.
    unfold temporal_rms, rms_width.
    repeat match goal with
           | |- context [if ?b then _ else _] => destruct b; simpl; try done
           end.
Qed.

(** C1: on every propagation output, [propToBeamParameters] returns as
    photon energy the first moment of the intensity-vs-energy curve and
    as relative bandwidth (hbar/rms)/e divided by that photon energy,
    where rms = sqrt(m2 - m1^2) comes from the zeroth, first and second
    moment of the intensity-vs-time curve; and it does return whenever
    these moments are defined. The sums are added up as [numpy.sum]
    adds them and the square is the [pow] of the platform, whatever its
    rounding is. *)
Theorem propToBeamParameters_bandwidth_from_moments
    (pow : float -> float -> float) (hbar e : float)
    (fs : gmap string file) (path : string) (w : Wavefront) :
  fs !! path = Some (WavefrontFile w) ->
  (forall bp, propToBeamParameters pow hbar e fs path = Ok bp ->
     photon_energy bp = PyFloat (moment1 (intensity_vs_energy w) (slice_energies w))
     /\ photon_energy_relative_bandwidth bp
        = PyFloat (((hbar / rms_width pow (intensity_vs_time w) (slice_times w)) / e)
                   / moment1 (intensity_vs_energy w) (slice_energies w))%float)
  /\ (moments_defined pow e w = true ->
      exists bp, propToBeamParameters pow hbar e fs path = Ok bp).
Proof.
  intros Hfile. rewrite (propToBeamParameters_moments pow hbar e fs path w Hfile).
  split.
  - intros bp Hbp. apply beam_parameters_of_Ok in Hbp as [_ ->]. by split.
  - intros Hdef. eexists. by apply beam_parameters_of_defined.
Qed.

Lemma propToBeamParameters_bandwidth_from_moments_witness :
  exists bp,
    propToBeamParameters pow_rounded hbar_2014 e_2014 sample_fs "prop.h5" = Ok bp
    /\ photon_energy_relative_bandwidth bp
       = PyFloat (relative_bandwidth pow_rounded hbar_2014 e_2014 pulse).
Proof.
  destruct (propToBeamParameters_bandwidth_from_moments pow_rounded hbar_2014 e_2014 sample_fs "prop.h5" pulse eq_refl) as [Hval Hdef].
  destruct (Hdef eq_refl) as [bp Hbp].
  exists bp. split; [exact Hbp | exact (proj2 (Hval bp Hbp))].
Defined.

(** C2 (as stated, refuted): with a reciprocal-space FWHM of 2 by 1 the
    divergence comes out as 1, not as the larger value 2; and it is 1
    whenever the function returns on this file, whatever the [pow] of
    the platform makes of the moments. *)
Lemma divergence_is_not_the_larger_fwhm :
  (exists bp,
     propToBeamParameters pow_rounded hbar_2014 e_2014 sample_fs "prop.h5" = Ok bp
     /\ py_max2 (fwhm_x (calculate_fwhm_a pulse)) (fwhm_y (calculate_fwhm_a pulse))
        = 2%float
     /\ divergence bp = PyFloat 1
     /\ divergence bp
        <> PyFloat (py_max2 (fwhm_x (calculate_fwhm_a pulse))
                            (fwhm_y (calculate_fwhm_a pulse))))
  /\ (forall (pow : float -> float -> float) (bp : DetectorGeometryParameters),
        propToBeamParameters pow hbar_2014 e_2014 sample_fs "prop.h5" = Ok bp ->
        divergence bp = PyFloat 1).
Proof.
  split.
  - eexists. split; [vm_compute; reflexivity|].
    split; [reflexivity|]. split; [reflexivity|].
    vm_compute. discriminate.
  - intros pow bp Hbp.
    rewrite (propToBeamParameters_moments pow hbar_2014 e_2014 sample_fs "prop.h5"
               pulse eq_refl) in Hbp.
    apply beam_parameters_of_Ok in Hbp as [_ ->]. reflexivity.
Qed.

(** C2 (amended): whenever [propToBeamParameters] returns, the beam
    diameter is the larger of the x and y FWHM in real space, and the
    divergence is HALF the larger of the x and y FWHM in reciprocal
    space. *)
Theorem propToBeamParameters_diameter_and_divergence
    (pow : float -> float -> float) (hbar e : float)
    (fs : gmap string file) (path : string) (w : Wavefront)
    (bp : DetectorGeometryParameters) :
  fs !! path = Some (WavefrontFile w) ->
  propToBeamParameters pow hbar e fs path = Ok bp ->
  exists d q,
    larger_of (fwhm_x (calculate_fwhm_f w)) (fwhm_y (calculate_fwhm_f w)) d
    /\ d = py_max2 (fwhm_x (calculate_fwhm_f w)) (fwhm_y (calculate_fwhm_f w))
    /\ beam_diameter_fwhm bp = PyFloat d
    /\ larger_of (fwhm_x (calculate_fwhm_a w)) (fwhm_y (calculate_fwhm_a w)) q
    /\ q = py_max2 (fwhm_x (calculate_fwhm_a w)) (fwhm_y (calculate_fwhm_a w))
    /\ divergence bp = PyFloat (q / 2)%float.
Proof.
  intros Hfile Hbp.
  rewrite (propToBeamParameters_moments pow hbar e fs path w Hfile) in Hbp.
  apply beam_parameters_of_Ok in Hbp as [_ ->].
  eexists _, _. repeat split; try reflexivity; apply py_max2_larger.
Qed.

Lemma propToBeamParameters_diameter_and_divergence_witness :
  exists d q,
    larger_of 2%float 1%float d /\ d = 2%float
    /\ beam_diameter_fwhm (beam_parameters_value pow_rounded hbar_2014 e_2014 pulse) = PyFloat d
    /\ larger_of 2%float 1%float q /\ q = 2%float
    /\ divergence (beam_parameters_value pow_rounded hbar_2014 e_2014 pulse) = PyFloat (q / 2)%float.
Proof.
  apply (propToBeamParameters_diameter_and_divergence pow_rounded hbar_2014 e_2014 sample_fs "prop.h5" pulse
           (beam_parameters_value pow_rounded hbar_2014 e_2014 pulse)).
  - reflexivity.
  - vm_compute. reflexivity.
Defined.

(** C5 (as stated, refuted): for a pulse whose intensity sits in one
    time slice the derived RMS width is zero, and [propToBeamParameters]
    then returns no bandwidth at all, zero or other: the division of
    hbar by the width raises. With the slices at the times 0, 1, 2 the
    first moment is 1, so this is so on every platform whose
    [pow(1, 2.0)] is 1, as the C standard asks. *)
Lemma delta_pulse_has_no_bandwidth :
  delta_like (intensity_t delta_pulse) = true
  /\ (temporal_rms pow_rounded delta_pulse =? 0)%float = true
  /\ propToBeamParameters pow_rounded hbar_2014 e_2014 sample_fs "delta.h5"
     = Raise (Exc ZeroDivisionError (Some "float division by zero"))
  /\ ~ (exists bp,
          propToBeamParameters pow_rounded hbar_2014 e_2014 sample_fs "delta.h5" = Ok bp
          /\ photon_energy_relative_bandwidth bp = PyFloat 0)
  /\ (forall pow : float -> float -> float,
        pow 1%float 2%float = 1%float ->
        propToBeamParameters pow hbar_2014 e_2014 sample_fs "delta.h5"
        = Raise (Exc ZeroDivisionError (Some "float division by zero"))).
Proof.
  assert (H : propToBeamParameters pow_rounded hbar_2014 e_2014 sample_fs "delta.h5"
              = Raise (Exc ZeroDivisionError (Some "float division by zero")))
    by (vm_compute; reflexivity).
  split; [reflexivity|]. split; [reflexivity|]. split; [exact H|].
  split.
  - intros (bp & Hbp & _). rewrite H in Hbp. discriminate.
  - intros pow Hpow.
    rewrite (propToBeamParameters_moments pow hbar_2014 e_2014 sample_fs "delta.h5"
               delta_pulse eq_refl).
    unfold beam_parameters_of, variance.
    assert (H1 : moment1 (intensity_vs_time delta_pulse) (slice_times delta_pulse)
                 = 1%float) by (vm_compute; reflexivity).
    assert (H2 : moment2 (intensity_vs_time delta_pulse) (slice_times delta_pulse)
                 = 1%float) by (vm_compute; reflexivity).
    rewrite H1, H2, Hpow. vm_compute. reflexivity.
Qed.

(** C5 (amended): when the RMS width that the function derives from
    the intensity-vs-time curve is zero, as it is for a delta-like curve
    in exact arithmetic, [propToBeamParameters] raises a
    ZeroDivisionError and produces no bandwidth. The width is the one of
    the code: the sums of [numpy.sum] and the [pow] of the platform. *)
Theorem zero_rms_raises_ZeroDivisionError
    (pow : float -> float -> float) (hbar e : float)
    (fs : gmap string file) (path : string) (w : Wavefront) :
  fs !! path = Some (WavefrontFile w) ->
  (float_of_int (nx (Mesh_t w) - 1) =? 0)%float = false ->
  (float_of_int (ny (Mesh_t w) - 1) =? 0)%float = false ->
  (variance pow (intensity_vs_time w) (slice_times w) <? 0)%float = false ->
  (temporal_rms pow w =? 0)%float = true ->
  propToBeamParameters pow hbar e fs path
  = Raise (Exc ZeroDivisionError (Some "float division by zero")).
Proof.
  intros Hfile Hnx Hny Hvar Hrms.
  rewrite (propToBeamParameters_moments pow hbar e fs path w Hfile).
  unfold beam_parameters_of, py_div, math_sqrt.
  rewrite Hnx, Hny, Hvar. simpl.
  unfold temporal_rms, rms_width in Hrms. by rewrite Hrms.
Qed.

Lemma zero_rms_raises_ZeroDivisionError_witness :
  propToBeamParameters pow_rounded hbar_2014 e_2014 sample_fs "delta.h5"
  = Raise (Exc ZeroDivisionError (Some "float division by zero")).
Proof.
  apply (zero_rms_raises_ZeroDivisionError pow_rounded hbar_2014 e_2014 sample_fs "delta.h5" delta_pulse);
    reflexivity.
Defined.

(** ** The setters of [DetectorGeometryParameters] *)

(** C6 (as stated, refuted): a spectrum type outside "SASE", "tophat",
    "twocolour" is assigned without complaint. *)
Lemma spectrum_type_accepts_other_strings :
  ~ In "gaussian" ["SASE"; "tophat"; "twocolour"]
  /\ exists self,
       set_photon_energy_spectrum_type blank (PyStr "gaussian") = Ok self
       /\ photon_energy_spectrum_type self = PyStr "gaussian".
Proof.
  split.
  - simpl. intros [H|[H|[H|[]]]]; discriminate H.
  - eexists. split; reflexivity.
Qed.

(** C6 (amended): the spectrum type is checked to be a string, nothing
    more: [None] gives the default "SASE", every string is stored as it
    is, and any other value fails at once. *)
Theorem spectrum_type_checks_str_only (self : DetectorGeometryParameters) (val : pyobj) :
  match val with
  | PyNone =>
      exists self', set_photon_energy_spectrum_type self val = Ok self'
                    /\ photon_energy_spectrum_type self' = PyStr "SASE"
  | PyStr s =>
      exists self', set_photon_energy_spectrum_type self val = Ok self'
                    /\ photon_energy_spectrum_type self' = PyStr s
  | _ => raises (set_photon_energy_spectrum_type self val)
  end.
Proof.
  destruct val; simpl; try (eexists; split; reflexivity);
    unfold raises; eexists; reflexivity.
Qed.

(** C7 (as stated, refuted): a divergence above 2*pi, and a negative
    one, are assigned without complaint. *)
Lemma divergence_accepts_out_of_range :
  (6.283185307179586 <? 7)%float = true /\ (-1 <? 0)%float = true
  /\ (exists self, set_divergence blank (PyFloat 7) = Ok self
                   /\ divergence self = PyFloat 7)
  /\ (exists self, set_divergence blank (PyFloat (-1)) = Ok self
                   /\ divergence self = PyFloat (-1)).
Proof.
  split; [reflexivity|]. split; [reflexivity|].
  split; eexists; split; reflexivity.
Qed.

(** C7 (amended): the divergence is checked to be a float, nothing
    more: [None] gives the default 0.0, every float is stored whatever
    its value, and any other value fails at once. *)
Theorem divergence_checks_float_only (self : DetectorGeometryParameters) (val : pyobj) :
  match val with
  | PyNone =>
      exists self', set_divergence self val = Ok self'
                    /\ divergence self' = PyFloat 0
  | PyFloat f =>
      exists self', set_divergence self val = Ok self'
                    /\ divergence self' = PyFloat f
  | _ => raises (set_divergence self val)
  end.
Proof.
  destruct val; simpl; try (eexists; split; reflexivity);
    unfold raises; eexists; reflexivity.
Qed.

(** ** [PlasmaXRTSCalculator] *)

Section CalculatorFacts.

Variable _serialize :
  CalculatorParameters -> gmap string file ->
  result (CalculatorParameters * gmap string file).
Variable communicate :
  Popen -> gmap string file -> result (string * string * gmap string file).
Variable loadtxt : string -> result (list (list float)).

Abbreviation backengine := (backengine _serialize communicate loadtxt).

(** [backengine] up to the moment the child process has ended. *)
Lemma backengine_until_exit (self : PlasmaXRTSCalculator) (w : world)
    (p p' : CalculatorParameters) (fs' fs'' : gmap string file) (out err : string) :
  parameters self = PyParameters p ->
  _serialize p (files w) = Ok (p', fs') ->
  communicate (xrs_in p') fs' = Ok (out, err, fs'') ->
  let self' := with_parameters (PyParameters p') self in
  let w' := with_files fs'' (with_process (xrs_in p') (with_files fs' w)) in
  backengine (self, w) =
    if negb (String.eqb err "") then (Raise (Exc RuntimeError None), (self', w'))
    else if negb (isfile fs'' (os_path_join (_tmp_dir p') "xrts_out.txt"))
    then (Raise (Exc IOError None), (self', w'))
    else
      let w'' := with_files
                   (<[os_path_join (_tmp_dir p') "xrts.log" := TextFile out]> fs'') w' in
      match read_text (os_path_join (_tmp_dir p') "xrts_out.txt")
              (with_run_log out self', w'') with
      | (Ok text, s) =>
          match loadtxt text with
          | Ok data => (Ok tt, (with_run_data data (with_run_log out self'),
                                chdir (getcwd w) w''))
          | Raise e => (Raise e, s)
          end
      | (Raise e, s) => (Raise e, s)
      end.
Proof.
  intros Hp Hs Hc. unfold xrs_in in *.
  unfold backengine, parameters_serialize, parameters_tmp_dir, Popen_communicate.
  unfold mbind, method_bind, get_self, get_world, lift, set_self, set_world,
    mret, method_ret.
  simpl. rewrite Hp. simpl. rewrite Hs. simpl. rewrite Hc. simpl.
  destruct (negb (String.eqb err "")); [reflexivity|].
  cbn [snd files with_files].
  destruct (negb (isfile fs'' _)); [reflexivity|].
  unfold read_text, mbind, method_bind, get_world, lift, mret, method_ret. simpl.
  destruct (_ !! _) as [[|text]|]; reflexivity.
Qed.

End CalculatorFacts.

(** C3 (as stated, refuted): the command that [backengine] starts is
    [xrs], not [xrts]. *)
Lemma backengine_command_is_not_xrts :
  processes (snd (snd (backengine sample_serialize working_tool sample_loadtxt
                         (sample_calculator, sample_world))))
  = [{| args := ["xrs"]; cwd := "/tmp/xrts" |}]
  /\ ["xrs"] <> ["xrts"].
Proof. split; [vm_compute; reflexivity | discriminate]. Qed.

(** C3 (amended): once the parameters are serialized, [backengine]
    starts exactly one child process, whatever happens afterwards: the
    command [xrs] without arguments, in the temporary directory of the
    parameters. *)
Theorem backengine_starts_xrs_once
    (_serialize : CalculatorParameters -> gmap string file ->
                  result (CalculatorParameters * gmap string file))
    (communicate : Popen -> gmap string file ->
                   result (string * string * gmap string file))
    (loadtxt : string -> result (list (list float)))
    (self : PlasmaXRTSCalculator) (w : world)
    (p p' : CalculatorParameters) (fs' : gmap string file) :
  parameters self = PyParameters p ->
  _serialize p (files w) = Ok (p', fs') ->
  processes (snd (snd (backengine _serialize communicate loadtxt (self, w))))
  = processes w ++ [{| args := ["xrs"]; cwd := _tmp_dir p' |}].
Proof.
  intros Hp Hs.
  destruct (communicate (xrs_in p') fs') as [[[out err] fs'']|e] eqn:Hc.
  - rewrite (backengine_until_exit _ _ _ self w p p' fs' fs'' out err Hp Hs Hc).
    destruct (negb (String.eqb err "")); [reflexivity|].
    destruct (negb (isfile fs'' _)); [reflexivity|].
    unfold read_text, mbind, method_bind, get_world, lift, mret, method_ret.
    cbn [snd files with_files].
    destruct (_ !! _) as [[|text]|]; try reflexivity.
    by destruct (loadtxt text).
  - unfold xrs_in in Hc.
    unfold backengine, parameters_serialize, parameters_tmp_dir, Popen_communicate.
    unfold mbind, method_bind, get_self, get_world, lift, set_self, set_world,
      mret, method_ret.
    simpl. rewrite Hp. simpl. rewrite Hs. simpl. by rewrite Hc.
Qed.

Lemma backengine_starts_xrs_once_witness :
  processes (snd (snd (backengine sample_serialize working_tool sample_loadtxt
                         (sample_calculator, sample_world))))
  = processes sample_world ++ [{| args := ["xrs"]; cwd := "/tmp/xrts" |}].
Proof.
  apply (backengine_starts_xrs_once sample_serialize working_tool sample_loadtxt
           sample_calculator sample_world sample_parameters sample_parameters
           (<[os_path_join "/tmp/xrts" "input.dat" := TextFile "PHOTON_ENERGY 4960.0"]> ∅));
    reflexivity.
Defined.

(** C4: each of the four conditions raises at once. A missing
    propagation file makes [propToBeamParameters] raise an IOError; a
    [parameters] argument that is no [AbstractCalculatorParameters]
    makes the constructor raise a RuntimeError; a non-empty standard
    error of the child makes [backengine] raise; a missing
    [xrts_out.txt] makes [backengine] raise. In the last two cases the
    child was started once and not again. *)
Theorem errors_raise_immediately :
  (forall (pow : float -> float -> float) (hbar e : float)
          (fs : gmap string file) (path : string),
     isfile fs path = false ->
     raises_class (propToBeamParameters pow hbar e fs path) IOError)
  /\ (forall (base_init : pyobj -> pyobj -> pyobj -> result (string * string))
             (parameters input_path output_path : pyobj),
        isinstance parameters cls_AbstractCalculatorParameters = false ->
        raises_class
          (PlasmaXRTSCalculator_init base_init parameters input_path output_path)
          RuntimeError)
  /\ (forall _serialize communicate loadtxt
             (self : PlasmaXRTSCalculator) (w : world)
             (p p' : CalculatorParameters) (fs' fs'' : gmap string file)
             (out err : string),
        parameters self = PyParameters p ->
        _serialize p (files w) = Ok (p', fs') ->
        communicate (xrs_in p') fs' = Ok (out, err, fs'') ->
        err <> "" ->
        let '(r, (_, w')) := backengine _serialize communicate loadtxt (self, w) in
        raises r
        /\ processes w' = processes w ++ [xrs_in p'])
  /\ (forall _serialize communicate loadtxt
             (self : PlasmaXRTSCalculator) (w : world)
             (p p' : CalculatorParameters) (fs' fs'' : gmap string file)
             (out : string),
        parameters self = PyParameters p ->
        _serialize p (files w) = Ok (p', fs') ->
        communicate (xrs_in p') fs' = Ok (out, "", fs'') ->
        isfile fs'' (os_path_join (_tmp_dir p') "xrts_out.txt") = false ->
        let '(r, (_, w')) := backengine _serialize communicate loadtxt (self, w) in
        raises r
        /\ processes w' = processes w ++ [xrs_in p']).
Proof.
  split; [|split; [|split]].
  - intros pow hbar e fs path Hmissing.
    unfold propToBeamParameters. rewrite Hmissing. simpl. by eexists.
  - intros base_init parameters input_path output_path Hclass.
    unfold PlasmaXRTSCalculator_init, checkAndSetParameters. rewrite Hclass.
    simpl. by eexists.
  - intros _serialize communicate loadtxt self w p p' fs' fs'' out err Hp Hs Hc Herr.
    rewrite (backengine_until_exit _ _ _ self w p p' fs' fs'' out err Hp Hs Hc).
    apply String.eqb_neq in Herr. rewrite Herr. simpl. split; [by eexists | done].
  - intros _serialize communicate loadtxt self w p p' fs' fs'' out Hp Hs Hc Hmissing.
    rewrite (backengine_until_exit _ _ _ self w p p' fs' fs'' out "" Hp Hs Hc).
    simpl. rewrite Hmissing. simpl. split; [by eexists | done].
Qed.

Lemma errors_raise_immediately_witness :
  raises_class
    (propToBeamParameters pow_rounded hbar_2014 e_2014 sample_fs "missing.h5") IOError
  /\ raises_class (PlasmaXRTSCalculator_init sample_base_init PyNone PyNone PyNone)
       RuntimeError
  /\ (let '(r, (_, w')) :=
        backengine sample_serialize complaining_tool sample_loadtxt
          (sample_calculator, sample_world) in
      raises r
      /\ processes w' = processes sample_world ++ [xrs_in sample_parameters])
  /\ (let '(r, (_, w')) :=
        backengine sample_serialize idle_tool sample_loadtxt
          (sample_calculator, sample_world) in
      raises r
      /\ processes w' = processes sample_world ++ [xrs_in sample_parameters]).
Proof.
  destruct errors_raise_immediately as (Hfile & Hinit & Hstderr & Hdata).
  split; [|split; [|split]].
  - apply Hfile. reflexivity.
  - apply Hinit. reflexivity.
  - apply (Hstderr sample_serialize complaining_tool sample_loadtxt
             sample_calculator sample_world sample_parameters sample_parameters
             (<[os_path_join "/tmp/xrts" "input.dat" := TextFile "PHOTON_ENERGY 4960.0"]> ∅)
             (<[os_path_join "/tmp/xrts" "input.dat" := TextFile "PHOTON_ENERGY 4960.0"]> ∅)
             "" "xrs: cannot read input.dat");
      [reflexivity | reflexivity | reflexivity | discriminate].
  - apply (Hdata sample_serialize idle_tool sample_loadtxt
             sample_calculator sample_world sample_parameters sample_parameters
             (<[os_path_join "/tmp/xrts" "input.dat" := TextFile "PHOTON_ENERGY 4960.0"]> ∅)
             (<[os_path_join "/tmp/xrts" "input.dat" := TextFile "PHOTON_ENERGY 4960.0"]> ∅)
             "f(k)   = 0.873");
      reflexivity.
Defined.

(** C10: when the child has written to its standard error,
    [backengine] raises before it assigns the run log or the run data:
    both are afterwards what they were before the call. *)
Theorem backengine_stderr_keeps_run_state
    (_serialize : CalculatorParameters -> gmap string file ->
                  result (CalculatorParameters * gmap string file))
    (communicate : Popen -> gmap string file ->
                   result (string * string * gmap string file))
    (loadtxt : string -> result (list (list float)))
    (self : PlasmaXRTSCalculator) (w : world)
    (p p' : CalculatorParameters) (fs' fs'' : gmap string file)
    (out err : string) :
  parameters self = PyParameters p ->
  _serialize p (files w) = Ok (p', fs') ->
  communicate (xrs_in p') fs' = Ok (out, err, fs'') ->
  err <> "" ->
  let '(r, (self', _)) := backengine _serialize communicate loadtxt (self, w) in
  raises r
  /\ __run_log self' = __run_log self
  /\ __run_data self' = __run_data self.
Proof.
  intros Hp Hs Hc Herr.
  rewrite (backengine_until_exit _ _ _ self w p p' fs' fs'' out err Hp Hs Hc).
  apply String.eqb_neq in Herr. rewrite Herr. simpl.
  split; [by eexists | by split].
Qed.

Lemma backengine_stderr_keeps_run_state_witness :
  let '(r, (self', _)) :=
    backengine sample_serialize complaining_tool sample_loadtxt
      (sample_calculator, sample_world) in
  raises r
  /\ __run_log self' = Some "log of an earlier run"
  /\ __run_data self' = Some [[1; 2; 3; 4]%float].
Proof.
  apply (backengine_stderr_keeps_run_state
           sample_serialize complaining_tool sample_loadtxt
           sample_calculator sample_world sample_parameters sample_parameters
           (<[os_path_join "/tmp/xrts" "input.dat" := TextFile "PHOTON_ENERGY 4960.0"]> ∅)
           (<[os_path_join "/tmp/xrts" "input.dat" := TextFile "PHOTON_ENERGY 4960.0"]> ∅)
           "" "xrs: cannot read input.dat");
    [reflexivity | reflexivity | reflexivity | discriminate].
Defined.

(** ** [parseStaticData] *)

Lemma parseStaticData_collect (data_string : string) :
  parseStaticData data_string = collect data_string static_patterns (Ok ∅).
Proof.
  unfold parseStaticData, collect, static_patterns.
  cbn [fold_left fst snd].
  repeat match goal with
         | |- context [extractDate ?p data_string] =>
             destruct (extractDate p data_string);
             cbn [mbind result_bind]; try reflexivity
         end.
Qed.

Lemma collect_Raise (text : string) (l : list (string * string)) (e : exception) :
  collect text l (Raise e) = Raise e.
Proof. induction l as [|kp l IH]; [done|]. simpl. apply IH. Qed.

Lemma collect_cons (text : string) (kp : string * string)
    (l : list (string * string)) (d : gmap string float) :
  collect text (kp :: l) (Ok d)
  = match extractDate kp.2 text with
    | Ok v => collect text l (Ok (<[kp.1 := v]> d))
    | Raise e => Raise e
    end.
Proof.
  unfold collect at 1. simpl. fold (collect text l).
  destruct (extractDate kp.2 text); simpl; [done|apply collect_Raise].
Qed.

(** A pattern that fails makes the whole loop fail. *)
Lemma collect_raises (text : string) (l : list (string * string))
    (d : gmap string float) (kp : string * string) :
  kp ∈ l -> raises (extractDate kp.2 text) -> raises (collect text l (Ok d)).
Proof.
  revert d. induction l as [|kp' l IH]; intros d Hin Hraise.
  - by apply elem_of_nil in Hin.
  - rewrite collect_cons.
    destruct (extractDate kp'.2 text) as [v|e] eqn:Hkp'; [|by eexists].
    apply elem_of_cons in Hin as [->|Hin]; [|by apply IH].
    destruct Hraise as [e He]. congruence.
Qed.

(** A loop that succeeds has stored every key, and under a key that
    occurs once the value of its pattern. *)
Lemma collect_Ok (text : string) (l : list (string * string))
    (d0 d : gmap string float) :
  collect text l (Ok d0) = Ok d ->
  dom d = dom d0 ∪ list_to_set l.*1
  /\ (forall k, k ∉ l.*1 -> d !! k = d0 !! k)
  /\ (NoDup l.*1 ->
      forall kp, kp ∈ l -> exists v, extractDate kp.2 text = Ok v /\ d !! kp.1 = Some v).
Proof.
  revert d0. induction l as [|kp l IH]; intros d0 Hd.
  - injection Hd as <-. split; [simpl; by rewrite union_empty_r_L|]. split; [done|].
    intros _ kp Hin. by apply elem_of_nil in Hin.
  - rewrite collect_cons in Hd.
    destruct (extractDate kp.2 text) as [v|e] eqn:Hkp; [|done].
    destruct (IH _ Hd) as (Hdom & Hout & Hin).
    split; [|split].
    + rewrite Hdom, dom_insert_L. simpl.
      by rewrite (comm_L (∪) {[kp.1]} (dom d0)), <- (assoc_L (∪)).
    + intros k Hk. simpl in Hk. apply not_elem_of_cons in Hk as [Hne Hk].
      rewrite (Hout k Hk). by rewrite lookup_insert_ne.
    + intros Hnodup kp' Hkp'. simpl in Hnodup. apply NoDup_cons in Hnodup as [Hfresh Hnodup].
      apply elem_of_cons in Hkp' as [->|Hkp']; [|by apply Hin].
      exists v. split; [done|].
      rewrite (Hout _ Hfresh). apply lookup_insert_eq.
Qed.

Lemma static_patterns_keys : list_to_set static_patterns.*1 = static_keys.
Proof. reflexivity. Qed.

Lemma static_patterns_NoDup : NoDup static_patterns.*1.
Proof. apply (bool_decide_unpack (NoDup static_patterns.*1)). by vm_compute. Qed.

Lemma extractDate_no_match (pattern_string text : string) (r : regex) :
  re_compile pattern_string = Some r ->
  findall r text = [] ->
  raises_class (extractDate pattern_string text) IndexError.
Proof.
  intros Hr Hnone. unfold extractDate, compile. rewrite Hr. simpl.
  rewrite Hnone. simpl. by eexists.
Qed.

(** C9: on every input string [parseStaticData] either raises or
    returns a dictionary from strings to floats whose keys are exactly
    fk, qk, Sk_ion, Sk_free, Sk_core, Wk, Sk_total, ipl, lfc and
    debye_waller, each with the value extracted by its pattern; and it
    raises whenever one of its ten patterns finds nothing in the
    string. *)
Theorem parseStaticData_ten_keys_or_raises (data_string : string) :
  (raises (parseStaticData data_string)
   \/ exists d : gmap string float,
        parseStaticData data_string = Ok d
        /\ dom d = static_keys
        /\ forall key pattern, (key, pattern) ∈ static_patterns ->
             exists v, extractDate pattern data_string = Ok v /\ d !! key = Some v)
  /\ (forall key pattern r,
        (key, pattern) ∈ static_patterns ->
        re_compile pattern = Some r ->
        findall r data_string = [] ->
        raises (parseStaticData data_string)).
Proof.
  rewrite parseStaticData_collect. split.
  - destruct (collect data_string static_patterns (Ok ∅)) as [d|e] eqn:Hd;
      [right | left; by eexists].
    destruct (collect_Ok _ _ _ _ Hd) as (Hdom & _ & Hval).
    exists d. split; [done|]. split.
    + by rewrite Hdom, static_patterns_keys, dom_empty_L, union_empty_l_L.
    + intros key pattern Hin. apply (Hval static_patterns_NoDup (key, pattern) Hin).
  - intros key pattern r Hin Hr Hnone.
    apply (collect_raises _ _ _ (key, pattern) Hin).
    destruct (extractDate_no_match _ _ _ Hr Hnone) as (e & He & _). by exists e.
Qed.

Lemma parseStaticData_ten_keys_or_raises_witness :
  raises (parseStaticData "S_total(k) = 3.0").
Proof.
  apply (proj2 (parseStaticData_ten_keys_or_raises "S_total(k) = 3.0")
           "fk" pattern_fk (default [] (re_compile pattern_fk))).
  - apply list_elem_of_here.
  - reflexivity.
  - reflexivity.
Defined.

(** ** Compiling: the length of the pattern is fuel enough *)

Lemma parse_class_shorter (s : list ascii) (acc members : list charset)
    (rest : list ascii) :
  parse_class s acc = Some (members, rest) -> length rest < length s.
Proof.
  remember (length s) as n eqn:Hn. assert (Hle : length s <= n) by lia. clear Hn.
  revert s acc Hle. induction n as [|n IH]; intros s acc Hle H.
  { destruct s; [done|simpl in Hle; lia]. }
  destruct s as [|c s]; [done|]. simpl in Hle.
  destruct (Ascii.eqb_spec c "]") as [->|Hc1].
  { simpl in H. destruct acc; [done|]. injection H as _ <-. lia. }
  destruct (Ascii.eqb_spec c "\") as [->|Hc2].
  { destruct s as [|c' s]; [done|]. simpl in H, Hle.
    destruct (parse_escape c'); [|done].
    apply IH in H; lia. }
  destruct (Ascii.eqb_spec c "-") as [->|Hc3]; [done|].
  destruct (Ascii.eqb_spec c "[") as [->|Hc4]; [done|].
  destruct (Ascii.eqb_spec c "^") as [->|Hc5].
  { simpl in H. destruct acc; [done|]. apply IH in H; lia. }
  assert (H' : parse_class s (Lit c :: acc) = Some (members, rest)).
  { revert H. clear IH.
    destruct c as [[] [] [] [] [] [] [] []]; try done. }
  apply IH in H'; lia.
Qed.

Lemma parse_atom_shorter (s : list ascii) (a : atom) (rest : list ascii) :
  parse_atom s = Some (a, rest) -> length rest < length s.
Proof.
  intros H. destruct s as [|c s]; [done|].
  destruct (Ascii.eqb_spec c "\") as [->|Hc1].
  { destruct s as [|c' s]; [done|]. simpl in H.
    destruct (parse_escape c'); [|done]. injection H as _ <-. simpl. lia. }
  destruct (Ascii.eqb_spec c "[") as [->|Hc2].
  { simpl in H. destruct (parse_class s []) as [[members rest']|] eqn:Hclass; [|done].
    injection H as _ <-. apply parse_class_shorter in Hclass. simpl. lia. }
  assert (H' : (if is_special c then None else Some (Single (Lit c), s))
               = Some (a, rest)).
  { revert H. destruct c as [[] [] [] [] [] [] [] []]; try done. }
  destruct (is_special c); [done|]. injection H' as _ <-. simpl. lia.
Qed.

(** More fuel than the length of the pattern changes nothing. *)
Lemma parse_regex_fuel (n m : nat) (s : list ascii) :
  length s <= n -> length s <= m -> parse_regex n s = parse_regex m s.
Proof.
  revert m s. induction n as [|n IH]; intros m s Hn Hm.
  { destruct s; [|simpl in Hn; lia]. by destruct m. }
  destruct s as [|c s]; [by destruct m|].
  destruct m as [|m]; [simpl in Hm; lia|].
  cbn [parse_regex].
  destruct (parse_atom (c :: s)) as [[a rest]|] eqn:Hatom; [|done].
  apply parse_atom_shorter in Hatom. simpl in Hatom, Hn, Hm.
  assert (Hplus : forall rest', length rest' <= length rest ->
                    parse_regex n rest' = parse_regex m rest')
    by (intros rest' Hr; apply IH; lia).
  destruct rest as [|c' rest']; [by rewrite (Hplus [])|].
  simpl in Hatom.
  rewrite (Hplus (c' :: rest')) by done.
  rewrite (Hplus rest') by (simpl; lia). done.
Qed.

(** The ten patterns of [parseStaticData] and the pattern of
    [extractDate] lie in the fragment. *)
Lemma patterns_compile :
  Forall (fun kp => is_Some (re_compile kp.2)) static_patterns
  /\ is_Some (re_compile "=\s").
Proof.
  split; [|by eexists].
  repeat (constructor; [eexists; vm_compute; reflexivity|]). constructor.
Qed.

(** ** Matching a line of the report *)

Lemma value_phrases_compile (phrase pattern : string) :
  (phrase, pattern) ∈ value_phrases ->
  re_compile pattern = Some (literal phrase ++ value_tail).
Proof.
  unfold value_phrases. intros Hin.
  repeat (apply elem_of_cons in Hin as [[= -> ->]|Hin]; [by vm_compute|]).
  by apply elem_of_nil in Hin.
Qed.

Lemma match_here_literal (phrase : list ascii) (r : regex) (s : list ascii) :
  match_here (map (fun c => (Single (Lit c), Once)) phrase ++ r) (phrase ++ s)
  = (fun n => length phrase + n) <$> match_here r s.
Proof.
  induction phrase as [|c phrase IH]; simpl.
  - by destruct (match_here r s).
  - rewrite Ascii.eqb_refl, IH. by destruct (match_here r s).
Qed.

(** The star takes a whole run of accepted characters when the rest of
    the pattern matches behind it. *)
Lemma match_star_run (a : atom) (k : list ascii -> option nat)
    (run rest : list ascii) (n : nat) :
  forallb (atom_accepts a) run = true ->
  stops a rest ->
  k rest = Some n ->
  match_star a k (run ++ rest) = Some (length run + n).
Proof.
  intros Hrun Hstop Hk. induction run as [|c run IH]; simpl.
  - destruct rest as [|c rest]; simpl; [done|].
    simpl in Hstop. by rewrite Hstop.
  - simpl in Hrun. apply andb_prop in Hrun as [Hc Hrun].
    by rewrite Hc, (IH Hrun).
Qed.

Lemma is_digit_cases (c : ascii) :
  is_digit c = true ->
  c ∈ ["0"; "1"; "2"; "3"; "4"; "5"; "6"; "7"; "8"; "9"]%char.
Proof.
  destruct c as [[] [] [] [] [] [] [] []]; intros H; try discriminate H;
    set_solver.
Qed.

Lemma is_space_cases (c : ascii) :
  is_space c = true ->
  c ∈ [" "; "009"; "010"; "011"; "012"; "013"]%char.
Proof.
  destruct c as [[] [] [] [] [] [] [] []]; intros H; try discriminate H;
    set_solver.
Qed.

Ltac digit_cases H :=
  apply is_digit_cases in H;
  repeat (apply elem_of_cons in H as [->|H]); [..|by apply elem_of_nil in H].
Ltac space_cases H :=
  apply is_space_cases in H;
  repeat (apply elem_of_cons in H as [->|H]); [..|by apply elem_of_nil in H].

Lemma digit_not_space (c : ascii) : is_digit c = true -> is_space c = false.
Proof. intros H. digit_cases H; reflexivity. Qed.

Lemma digit_not_equals (c : ascii) : is_digit c = true -> Ascii.eqb "=" c = false.
Proof. intros H. digit_cases H; reflexivity. Qed.

Lemma space_not_equals (c : ascii) : is_space c = true -> Ascii.eqb "=" c = false.
Proof. intros H. space_cases H; reflexivity. Qed.

(** The value part of a line, [\s+=\s\d+\.\d+], matches all of it. *)
Lemma match_here_value_tail (ws : list ascii) (w : ascii)
    (d1 d2 after : list ascii) :
  ws <> [] -> forallb is_space ws = true -> is_space w = true ->
  d1 <> [] -> forallb is_digit d1 = true ->
  d2 <> [] -> forallb is_digit d2 = true ->
  stops (Single Digit) after ->
  match_here value_tail (ws ++ "="%char :: w :: d1 ++ "."%char :: d2 ++ after)
  = Some (length (ws ++ "="%char :: w :: d1 ++ "."%char :: d2)).
Proof.
  intros Hws Hspaces Hw Hd1 Hdigits1 Hd2 Hdigits2 Hafter.
  destruct ws as [|s0 ws]; [done|]. destruct d1 as [|c1 d1]; [done|].
  destruct d2 as [|c2 d2]; [done|].
  simpl in Hspaces, Hdigits1, Hdigits2.
  apply andb_prop in Hspaces as [Hs0 Hspaces].
  apply andb_prop in Hdigits1 as [Hc1 Hdigits1].
  apply andb_prop in Hdigits2 as [Hc2 Hdigits2].
  unfold value_tail.
  cbn [match_here app atom_accepts charset_accepts]. rewrite Hs0.
  rewrite (match_star_run (Single Space) _ ws _
             (S (S (S (length d1 + S (S (length d2)))))) Hspaces); [| done |].
  - simpl. f_equal. f_equal. rewrite !length_app. simpl. rewrite !length_app. simpl.
    lia.
  - cbn [atom_accepts charset_accepts fmap option_fmap option_map]. 
    rewrite Ascii.eqb_refl, Hw, Hc1.
    rewrite (match_star_run (Single Digit) _ d1 _ (S (S (length d2))) Hdigits1);
      [done | done |].
    cbn [atom_accepts charset_accepts fmap option_fmap option_map app].
    rewrite Ascii.eqb_refl, Hc2.
    by rewrite (match_star_run (Single Digit) _ d2 _ 0 Hdigits2), Nat.add_0_r.
Qed.

(** *** [findall] *)

Lemma findall_from_no_match (r : regex) (before s : list ascii) :
  (forall i, i < length before -> match_here r (drop i (before ++ s)) = None) ->
  findall_from r 0 (before ++ s) = findall_from r 0 s.
Proof.
  induction before as [|b before IH]; intros Hnone; [done|].
  simpl. specialize (Hnone 0 ltac:(simpl; lia)) as H0. simpl in H0. rewrite H0.
  apply IH. intros i Hi. apply (Hnone (S i)). simpl. lia.
Qed.

Lemma findall_from_match (r : regex) (s : list ascii) (n : nat) :
  match_here r s = Some n ->
  exists more, findall_from r 0 s = take n s :: more.
Proof. intros H. destruct s; simpl; rewrite H; by eexists. Qed.

(** *** [split] on the equals sign *)

Lemma split_from_run (run cur rest : list ascii) :
  forallb (fun c => negb (Ascii.eqb "=" c)) run = true ->
  split_from equals_space 0 cur (run ++ rest)
  = split_from equals_space 0 (rev run ++ cur) rest.
Proof.
  revert cur. induction run as [|c run IH]; intros cur Hrun; [done|].
  cbn [forallb] in Hrun. apply andb_prop in Hrun as [Hc Hrun].
  apply negb_true_iff in Hc.
  cbn [app split_from match_here equals_space atom_accepts charset_accepts].
  rewrite Hc, (IH _ Hrun). simpl. by rewrite <- app_assoc.
Qed.

Lemma split_from_equals (cur rest : list ascii) (w : ascii) :
  is_space w = true ->
  split_from equals_space 0 cur ("="%char :: w :: rest)
  = rev cur :: split_from equals_space 0 [] rest.
Proof.
  intros Hw.
  cbn [split_from match_here equals_space atom_accepts charset_accepts
       fmap option_fmap option_map].
  by rewrite Ascii.eqb_refl, Hw.
Qed.

Lemma split_line (phrase ws : list ascii) (w : ascii) (number : list ascii) :
  forallb (fun c => negb (Ascii.eqb "=" c)) (phrase ++ ws) = true ->
  is_space w = true ->
  forallb (fun c => negb (Ascii.eqb "=" c)) number = true ->
  split_from equals_space 0 [] ((phrase ++ ws) ++ "="%char :: w :: number)
  = [phrase ++ ws; number].
Proof.
  intros Hhead Hw Hnumber.
  rewrite (split_from_run _ _ _ Hhead), (split_from_equals _ _ _ Hw).
  rewrite app_nil_r, rev_involutive. f_equal.
  rewrite <- (app_nil_r number) at 1.
  rewrite (split_from_run _ _ _ Hnumber). simpl.
  by rewrite app_nil_r, rev_involutive.
Qed.

(** *** [float] of a decimal numeral *)

Lemma forallb_rev {A} (p : A -> bool) (l : list A) :
  forallb p (rev l) = forallb p l.
Proof.
  induction l as [|x l IH]; [done|]. simpl.
  rewrite forallb_app, IH. simpl. rewrite andb_true_r. apply andb_comm.
Qed.

Lemma take_while_run {A} (p : A -> bool) (run rest : list A) :
  forallb p run = true ->
  match rest with x :: _ => p x = false | [] => True end ->
  take_while p (run ++ rest) = run /\ drop_while p (run ++ rest) = rest.
Proof.
  intros Hrun Hrest. induction run as [|x run IH]; simpl.
  - destruct rest as [|x rest]; [done|]. simpl. by rewrite Hrest.
  - simpl in Hrun. apply andb_prop in Hrun as [Hx Hrun]. rewrite Hx.
    destruct (IH Hrun) as [-> ->]. done.
Qed.

Lemma drop_while_stops {A} (p : A -> bool) (x : A) (l : list A) :
  p x = false -> drop_while p (x :: l) = x :: l.
Proof. intros H. simpl. by rewrite H. Qed.

(** A numeral that starts and ends with a digit has no whitespace to
    lose. *)
Lemma strip_numeral (c : ascii) (mid : list ascii) (d2 : list ascii) :
  is_digit c = true -> d2 <> [] -> forallb is_digit d2 = true ->
  strip (c :: mid ++ d2) = c :: mid ++ d2.
Proof.
  intros Hc Hd2 Hdigits. unfold strip.
  rewrite (drop_while_stops _ _ _ (digit_not_space c Hc)).
  change (c :: mid ++ d2) with ((c :: mid) ++ d2) at 1. rewrite rev_app_distr.
  destruct (rev d2) as [|z zs] eqn:Hrev.
  - apply (f_equal (@rev ascii)) in Hrev. rewrite rev_involutive in Hrev. done.
  - assert (Hz : is_digit z = true).
    { rewrite <- forallb_rev, Hrev in Hdigits. simpl in Hdigits.
      by apply andb_prop in Hdigits as [? _]. }
    change ((z :: zs) ++ rev (c :: mid)) with (z :: (zs ++ rev (c :: mid))).
    rewrite (drop_while_stops _ _ _ (digit_not_space z Hz)).
    change (z :: zs ++ rev (c :: mid)) with ((z :: zs) ++ rev (c :: mid)).
    by rewrite <- Hrev, <- rev_app_distr, rev_involutive.
Qed.

Lemma split_sign_digit (c : ascii) (l : list ascii) :
  is_digit c = true -> split_sign (c :: l) = (false, c :: l).
Proof. intros H. digit_cases H; reflexivity. Qed.

Lemma not_a_word (c : ascii) (l : list ascii) (word : string) :
  is_digit c = true ->
  word ∈ ["inf"; "infinity"; "nan"]%string ->
  String.eqb (string_of_list_ascii (map lower (c :: l))) word = false.
Proof.
  intros H Hword.
  repeat (apply elem_of_cons in Hword as [->|Hword]);
    [..|by apply elem_of_nil in Hword];
    digit_cases H; reflexivity.
Qed.

Lemma py_float_decimal (d1 d2 : list ascii) :
  d1 <> [] -> forallb is_digit d1 = true ->
  d2 <> [] -> forallb is_digit d2 = true ->
  py_float (string_of_list_ascii (d1 ++ "."%char :: d2))
  = Ok (float_of_decimal (digits_value (d1 ++ d2)) (- Z.of_nat (length d2))).
Proof.
  intros Hd1 Hdigits1 Hd2 Hdigits2. unfold py_float.
  rewrite list_ascii_of_string_of_list_ascii.
  destruct d1 as [|c d1]; [done|]. clear Hd1.
  cbn [forallb] in Hdigits1. apply andb_prop in Hdigits1 as [Hc Hdigits1].
  cbn [app].
  replace (d1 ++ "."%char :: d2) with ((d1 ++ ["."%char]) ++ d2)
    by (by rewrite <- app_assoc).
  rewrite (strip_numeral c _ d2 Hc Hd2 Hdigits2).
  rewrite <- app_assoc. cbn [app].
  rewrite (split_sign_digit c _ Hc). unfold parse_unsigned.
  rewrite !(not_a_word c _ _ Hc) by set_solver.
  cbn [orb]. unfold span_digits.
  change (c :: d1 ++ "."%char :: d2) with ((c :: d1) ++ "."%char :: d2).
  destruct (take_while_run is_digit (c :: d1) ("."%char :: d2)) as [-> ->];
    [by cbn [forallb]; rewrite Hc | reflexivity |].
  destruct (take_while_run is_digit d2 [] Hdigits2 I) as [Htake Hdrop].
  rewrite app_nil_r in Htake, Hdrop. rewrite Htake, Hdrop.
  cbn [app parse_exponent]. by rewrite Z.sub_0_l.
Qed.

(** [float] rounds a decimal numeral to the nearest double, where Rocq's
    own reading of float literals puts it. *)
Lemma py_float_samples :
  Forall (fun '(s, f) => py_float s = Ok f)
    [("0.873", 0.873%float); ("0.1", 0.1%float); (" 10.5 ", 10.5%float);
     ("-12.5e-3", (-0.0125)%float); ("1.0545718e-34", 1.0545718e-34%float);
     ("6.02214076E23", 6.02214076e23%float);
     ("9007199254740993", 9007199254740992%float);
     ("2.2250738585072011e-308", 2.2250738585072011e-308%float);
     ("4.9e-324", 4.9406564584124654e-324%float); ("2.4e-324", 0%float);
     ("1.7976931348623157e308", 1.7976931348623157e308%float);
     ("1.7976931348623159e308", infinity); ("1e400", infinity);
     ("inf", infinity); ("-Infinity", neg_infinity); (".5", 0.5%float);
     ("1.", 1%float)].
Proof. repeat (constructor; [vm_compute; reflexivity|]). constructor. Qed.

Lemma py_float_rejects :
  Forall (fun s => raises_class (py_float s) ValueError)
    [""; "."; "+"; "|"; "1e"; "e5"; "1 e5"; "0x10"; "1,5"; "--1"].
Proof.
  repeat (constructor; [eexists; split; vm_compute; reflexivity|]). constructor.
Qed.

(** *** [extractDate] on a line of the report *)

Lemma equals_space_compile : re_compile "=\s" = Some equals_space.
Proof. reflexivity. Qed.

Lemma value_phrases_no_equals (phrase pattern : string) :
  (phrase, pattern) ∈ value_phrases ->
  forallb (fun c => negb (Ascii.eqb "=" c)) (list_ascii_of_string phrase) = true.
Proof.
  unfold value_phrases. intros Hin.
  repeat (apply elem_of_cons in Hin as [[= -> ->]|Hin]; [reflexivity|]).
  by apply elem_of_nil in Hin.
Qed.

Lemma spaces_no_equals (ws : list ascii) :
  forallb is_space ws = true ->
  forallb (fun c => negb (Ascii.eqb "=" c)) ws = true.
Proof.
  induction ws as [|c ws IH]; [done|]. cbn [forallb]. intros H.
  apply andb_prop in H as [Hc H]. by rewrite (space_not_equals c Hc), (IH H).
Qed.

Lemma numeral_no_equals (d1 d2 : list ascii) :
  forallb is_digit d1 = true -> forallb is_digit d2 = true ->
  forallb (fun c => negb (Ascii.eqb "=" c)) (d1 ++ "."%char :: d2) = true.
Proof.
  intros H1 H2.
  assert (Hdigits : forall d, forallb is_digit d = true ->
                      forallb (fun c => negb (Ascii.eqb "=" c)) d = true).
  { induction d as [|c d IH]; [done|]. cbn [forallb]. intros H.
    apply andb_prop in H as [Hc H]. by rewrite (digit_not_equals c Hc), (IH H). }
  rewrite forallb_app. cbn [forallb]. by rewrite (Hdigits d1 H1), (Hdigits d2 H2).
Qed.

(** X8: the nine patterns of that shape, on every text that holds a line
    in the phrasing of the report before any other match of the
    pattern: [extractDate] returns the number behind the equals sign. *)
Theorem extractDate_report_line (phrase pattern : string)
    (before ws : list ascii) (w : ascii) (d1 d2 after : list ascii) :
  (phrase, pattern) ∈ value_phrases ->
  ws <> [] -> forallb is_space ws = true -> is_space w = true ->
  d1 <> [] -> forallb is_digit d1 = true ->
  d2 <> [] -> forallb is_digit d2 = true ->
  stops (Single Digit) after ->
  (forall i, i < length before ->
     match_here (literal phrase ++ value_tail)
       (drop i (before ++ report_line phrase ws w d1 d2 ++ after)) = None) ->
  extractDate pattern
    (string_of_list_ascii (before ++ report_line phrase ws w d1 d2 ++ after))
  = Ok (float_of_decimal (digits_value (d1 ++ d2)) (- Z.of_nat (length d2))).
Proof.
  intros Hin Hws Hspaces Hw Hd1 Hdigits1 Hd2 Hdigits2 Hafter Hfirst.
  unfold extractDate, compile.
  rewrite (value_phrases_compile _ _ Hin), equals_space_compile.
  cbn [mbind result_bind].
  unfold findall. rewrite list_ascii_of_string_of_list_ascii.
  rewrite (findall_from_no_match _ _ _ Hfirst).
  assert (Hmatch : match_here (literal phrase ++ value_tail)
                     (report_line phrase ws w d1 d2 ++ after)
                   = Some (length (report_line phrase ws w d1 d2))).
  { unfold report_line, literal. rewrite <- !app_assoc.
    rewrite match_here_literal.
    change (("="%char :: w :: d1 ++ "."%char :: d2) ++ after)
      with ("="%char :: w :: (d1 ++ "."%char :: d2) ++ after).
    rewrite <- (app_assoc d1). cbn [app].
    rewrite (match_here_value_tail ws w d1 d2 after) by done.
    cbn [fmap option_fmap option_map]. f_equal. by rewrite !length_app. }
  destruct (findall_from_match _ _ _ Hmatch) as [more ->].
  rewrite take_app_length. cbn [map first_item mbind result_bind].
  unfold split. rewrite list_ascii_of_string_of_list_ascii.
  unfold report_line. rewrite app_assoc.
  rewrite (split_line (list_ascii_of_string phrase) ws w (d1 ++ "."%char :: d2)).
  - cbn [map last_item last mbind result_bind]. by apply py_float_decimal.
  - rewrite forallb_app, (value_phrases_no_equals _ _ Hin).
    by rewrite (spaces_no_equals ws Hspaces).
  - done.
  - by apply numeral_no_equals.
Qed.

Lemma extractDate_report_line_witness :
  extractDate pattern_fk "f(k)   = 0.873" = Ok 0.873%float.
Proof.
  apply (extractDate_report_line "f(k)" pattern_fk
           [] [" "; " "; " "]%char " "%char ["0"]%char ["8"; "7"; "3"]%char []).
  - apply list_elem_of_here.
  - discriminate.
  - reflexivity.
  - reflexivity.
  - discriminate.
  - reflexivity.
  - discriminate.
  - reflexivity.
  - exact I.
  - intros i Hi. simpl in Hi. lia.
Defined.

(** *** The Debye-Waller pattern *)

Lemma debye_waller_compile :
  re_compile pattern_debye_waller = Some (literal "Debye-Waller" ++ debye_waller_tail).
Proof. by vm_compute. Qed.

Lemma match_here_debye_waller_tail (ws1 ws2 : list ascii) (c : ascii)
    (after : list ascii) :
  ws1 <> [] -> forallb is_space ws1 = true ->
  ws2 <> [] -> forallb is_space ws2 = true ->
  is_digit c = true ->
  match_here debye_waller_tail (ws1 ++ "="%char :: ws2 ++ c :: after)
  = Some (length (ws1 ++ "="%char :: ws2 ++ [c])).
Proof.
  intros Hws1 Hspaces1 Hws2 Hspaces2 Hc.
  destruct ws1 as [|s1 ws1]; [done|]. destruct ws2 as [|s2 ws2]; [done|].
  cbn [forallb] in Hspaces1, Hspaces2.
  apply andb_prop in Hspaces1 as [Hs1 Hspaces1].
  apply andb_prop in Hspaces2 as [Hs2 Hspaces2].
  assert (Hclass : atom_accepts
            (Class [Lit "1"; Lit "|"; Digit; Lit "+"; Lit "."; Digit; Lit "+"]) c = true).
  { cbn [atom_accepts existsb charset_accepts]. rewrite Hc.
    by rewrite !orb_true_r. }
  unfold debye_waller_tail.
  cbn [match_here app atom_accepts charset_accepts]. rewrite Hs1.
  rewrite (match_star_run (Single Space) _ ws1 _ (S (S (length ws2 + 1))) Hspaces1);
    [| done |].
  - cbn [fmap option_fmap option_map]. f_equal.
    cbn [length]. rewrite !length_app. cbn [length]. rewrite !length_app.
    cbn [length]. lia.
  - cbn [atom_accepts charset_accepts fmap option_fmap option_map app].
    rewrite Ascii.eqb_refl, Hs2.
    rewrite (match_star_run (Single Space) _ ws2 (c :: after) 1 Hspaces2); [done| |].
    + cbn [stops atom_accepts charset_accepts]. by apply digit_not_space.
    + cbn [match_here]. unfold atom_accepts in Hclass. by rewrite Hclass.
Qed.

Lemma py_float_one_digit (ws : list ascii) (c : ascii) :
  forallb is_space ws = true -> is_digit c = true ->
  py_float (string_of_list_ascii (ws ++ [c])) = Ok (float_of_decimal (digit_value c) 0).
Proof.
  intros Hspaces Hc. unfold py_float, strip.
  rewrite list_ascii_of_string_of_list_ascii.
  destruct (take_while_run is_space ws [c] Hspaces (digit_not_space c Hc)) as [_ ->].
  cbn [rev app]. rewrite (drop_while_stops _ _ _ (digit_not_space c Hc)).
  cbn [rev app]. rewrite (split_sign_digit c [] Hc). unfold parse_unsigned.
  rewrite !(not_a_word c [] _ Hc) by set_solver.
  cbn [orb]. unfold span_digits. cbn [take_while drop_while]. rewrite Hc.
  cbn [app parse_exponent length]. unfold digits_value. cbn [fold_left].
  by rewrite Z.mul_0_r, Z.add_0_l.
Qed.

(** X9: on every text that holds a Debye-Waller line before any other match
    of the pattern, [extractDate] returns the FIRST DIGIT of the number
    behind the equals sign, whatever comes after that digit. *)
Theorem extractDate_debye_waller_first_digit
    (before ws1 ws2 : list ascii) (c : ascii) (after : list ascii) :
  ws1 <> [] -> forallb is_space ws1 = true ->
  ws2 <> [] -> forallb is_space ws2 = true ->
  is_digit c = true ->
  (forall i, i < length before ->
     match_here (literal "Debye-Waller" ++ debye_waller_tail)
       (drop i (before ++ debye_waller_line ws1 ws2 c ++ after)) = None) ->
  extractDate pattern_debye_waller
    (string_of_list_ascii (before ++ debye_waller_line ws1 ws2 c ++ after))
  = Ok (float_of_decimal (digit_value c) 0).
Proof.
  intros Hws1 Hspaces1 Hws2 Hspaces2 Hc Hfirst.
  unfold extractDate, compile.
  rewrite debye_waller_compile, equals_space_compile.
  cbn [mbind result_bind].
  unfold findall. rewrite list_ascii_of_string_of_list_ascii.
  rewrite (findall_from_no_match _ _ _ Hfirst).
  assert (Hmatch : match_here (literal "Debye-Waller" ++ debye_waller_tail)
                     (debye_waller_line ws1 ws2 c ++ after)
                   = Some (length (debye_waller_line ws1 ws2 c))).
  { unfold debye_waller_line, literal. rewrite <- !app_assoc.
    rewrite match_here_literal.
    change (("="%char :: ws2 ++ [c]) ++ after)
      with ("="%char :: (ws2 ++ [c]) ++ after).
    rewrite <- (app_assoc ws2). cbn [app].
    rewrite (match_here_debye_waller_tail ws1 ws2 c after) by done.
    reflexivity. }
  destruct (findall_from_match _ _ _ Hmatch) as [more ->].
  rewrite take_app_length. cbn [map first_item mbind result_bind].
  unfold split. rewrite list_ascii_of_string_of_list_ascii.
  unfold debye_waller_line. rewrite app_assoc.
  destruct ws2 as [|s2 ws2]; [done|].
  cbn [forallb] in Hspaces2. apply andb_prop in Hspaces2 as [Hs2 Hspaces2].
  cbn [app].
  rewrite (split_line (list_ascii_of_string "Debye-Waller") ws1 s2 (ws2 ++ [c])).
  - cbn [map last_item last mbind result_bind]. by apply py_float_one_digit.
  - rewrite forallb_app. by rewrite (spaces_no_equals ws1 Hspaces1).
  - done.
  - rewrite forallb_app, (spaces_no_equals ws2 Hspaces2). cbn [forallb].
    by rewrite (digit_not_equals c Hc).
Qed.

Lemma extractDate_debye_waller_first_digit_witness :
  extractDate pattern_debye_waller "Debye-Waller = 0.873" = Ok 0%float.
Proof.
  apply (extractDate_debye_waller_first_digit
           [] [" "]%char [" "]%char "0"%char ["."; "8"; "7"; "3"]%char).
  - discriminate.
  - reflexivity.
  - discriminate.
  - reflexivity.
  - reflexivity.
  - intros i Hi. simpl in Hi. lia.
Defined.

(** C8: the extraction at the sample lines. On the sample line of the
    form factor, [extractDate] returns the number behind the equals
    sign, 0.873. On a line of the same phrasing for the Debye-Waller
    factor it returns 0.0: the bracket in that pattern is a character
    class that matches one character, so the match ends after the first
    digit of the number. *)
Theorem extractDate_sample_lines :
  extractDate pattern_fk "f(k)   = 0.873" = Ok 0.873%float
  /\ findall (default [] (re_compile pattern_debye_waller)) "Debye-Waller = 0.873"
     = ["Debye-Waller = 0"]
  /\ extractDate pattern_debye_waller "Debye-Waller = 0.873" = Ok 0%float
  /\ (d ← parseStaticData sample_log; Ok (d !! "fk", d !! "debye_waller"))
     = Ok (Some 1.5%float, Some 0%float).
Proof.
  split; [vm_compute; reflexivity|]. split; [vm_compute; reflexivity|].
  split; vm_compute; reflexivity.
Qed.

(** * Further code: theorems *)

(** ** [propToBeamParameters]: when it returns and how it fails *)

(** X1: on a file that holds a wavefront, [propToBeamParameters] returns
    exactly when the moments are defined: neither [nx - 1] nor [ny - 1]
    is zero as a float, neither variance [m2 - m1**2] is negative as the
    code computes it, the temporal RMS width and [e] are not zero.
    Otherwise it raises a ZeroDivisionError or a ValueError and nothing
    else. *)
Theorem propToBeamParameters_returns_iff
    (pow : float -> float -> float) (hbar e : float)
    (fs : gmap string file) (path : string) (w : Wavefront) :
  fs !! path = Some (WavefrontFile w) ->
  (moments_defined pow e w = true
   /\ propToBeamParameters pow hbar e fs path = Ok (beam_parameters_value pow hbar e w))
  \/ (moments_defined pow e w = false
      /\ (raises_class (propToBeamParameters pow hbar e fs path) ZeroDivisionError
          \/ raises_class (propToBeamParameters pow hbar e fs path) ValueError)).
Proof.
  intros Hfile. rewrite (propToBeamParameters_moments pow hbar e fs path w Hfile).
  destruct (moments_defined pow e w) eqn:Hdef.
  - left. split; [done|]. by apply beam_parameters_of_defined.
  - right. split; [done|]. revert Hdef.
    unfold moments_defined, beam_parameters_of, py_div, math_sqrt.
    unfold temporal_rms, rms_width.
    repeat match goal with
           | |- context [if ?b then _ else _] => destruct b; cbn -[variance]
           end;
      try discriminate; intros _;
      ((left; eexists; split; reflexivity) || (right; eexists; split; reflexivity)).
Qed.

Lemma propToBeamParameters_returns_iff_witness :
  (moments_defined pow_rounded e_2014 pulse = true
   /\ propToBeamParameters pow_rounded hbar_2014 e_2014 sample_fs "prop.h5"
      = Ok (beam_parameters_value pow_rounded hbar_2014 e_2014 pulse))
  \/ (moments_defined pow_rounded e_2014 pulse = false
      /\ (raises_class (propToBeamParameters pow_rounded hbar_2014 e_2014 sample_fs "prop.h5")
            ZeroDivisionError
          \/ raises_class (propToBeamParameters pow_rounded hbar_2014 e_2014 sample_fs "prop.h5")
               ValueError)).
Proof.
  apply (propToBeamParameters_returns_iff pow_rounded hbar_2014 e_2014 sample_fs "prop.h5" pulse).
  reflexivity.
Defined.

Lemma but_last_map {A B} (f : A -> B) (l : list A) :
  but_last (map f l) = map f (but_last l).
Proof. unfold but_last. by rewrite length_map, fmap_take. Qed.

(** The moments of a curve do not see its last ordinate. *)
Lemma moments_but_last (I I' x : list float) :
  length I = length x -> length I' = length x -> but_last I' = but_last I ->
  moment0 I' x = moment0 I x /\ moment1 I' x = moment1 I x
  /\ moment2 I' x = moment2 I x.
Proof.
  intros HI HI' Hlast.
  rewrite <- (source_moment0 I x HI), <- (source_moment0 I' x HI').
  rewrite <- (source_moment1 I x HI), <- (source_moment1 I' x HI').
  rewrite <- (source_moment2 I x HI), <- (source_moment2 I' x HI').
  by rewrite Hlast.
Qed.

(** X2: the last slice does not count in the moments. For two
    propagation outputs whose slice intensities differ at most in the
    last slice (in time, in energy, or both), whatever their pulse
    energies and widths are, [propToBeamParameters] raises the same
    exception or returns the same photon energy and the same relative
    bandwidth. *)
Theorem propToBeamParameters_ignores_last_slice
    (pow : float -> float -> float) (hbar e : float)
    (fs fs' : gmap string file) (path path' : string) (w w' : Wavefront) :
  fs !! path = Some (WavefrontFile w) ->
  fs' !! path' = Some (WavefrontFile w') ->
  alike_but_last_slice w w' ->
  match propToBeamParameters pow hbar e fs path,
        propToBeamParameters pow hbar e fs' path' with
  | Ok bp, Ok bp' =>
      photon_energy bp' = photon_energy bp
      /\ photon_energy_relative_bandwidth bp' = photon_energy_relative_bandwidth bp
  | Raise ex, Raise ex' => ex' = ex
  | _, _ => False
  end.
Proof.
  intros Hfile Hfile' (Hmt & Hmf & Hlt & Ht & Hlf & Hf).
  rewrite (propToBeamParameters_moments pow hbar e fs path w Hfile).
  rewrite (propToBeamParameters_moments pow hbar e fs' path' w' Hfile').
  assert (Htimes : slice_times w' = slice_times w)
    by (unfold slice_times; by rewrite Hmt, Hlt).
  assert (Henergies : slice_energies w' = slice_energies w)
    by (unfold slice_energies; by rewrite Hmf, Hlf).
  destruct (moments_but_last (intensity_vs_time w) (intensity_vs_time w') (slice_times w))
    as (_ & Ht1 & Ht2).
  { apply curve_lengths_t. }
  { rewrite <- Htimes. apply curve_lengths_t. }
  { unfold intensity_vs_time. by rewrite !but_last_map, Hmt, Ht. }
  destruct (moments_but_last (intensity_vs_energy w) (intensity_vs_energy w')
              (slice_energies w)) as (_ & Hf1 & Hf2).
  { apply curve_lengths_f. }
  { rewrite <- Henergies. apply curve_lengths_f. }
  { unfold intensity_vs_energy. by rewrite Hf. }
  unfold beam_parameters_of, mean_photon_energy, variance.
  rewrite Htimes, Henergies, Ht1, Ht2, Hf1, Hf2, <- Hmt.
  destruct (py_div _ (float_of_int (nx _ - 1))) as [dx|];
    cbn [mbind result_bind]; [|done].
  destruct (py_div _ (float_of_int (ny _ - 1))) as [dy|];
    cbn [mbind result_bind]; [|done].
  destruct (math_sqrt (moment2 (intensity_vs_time w) _ - _)) as [rms|];
    cbn [mbind result_bind]; [|done].
  destruct (py_div hbar rms) as [J|]; cbn [mbind result_bind]; [|done].
  destruct (py_div J e) as [eV|]; cbn [mbind result_bind]; [|done].
  destruct (math_sqrt _) as [rms'|]; cbn [mbind result_bind]; [|done].
  by cbn.
Qed.

Lemma propToBeamParameters_ignores_last_slice_witness :
  match propToBeamParameters pow_rounded hbar_2014 e_2014 sample_fs "prop.h5",
        propToBeamParameters pow_rounded hbar_2014 e_2014
          {[ "other.h5" := WavefrontFile other_pulse ]} "other.h5" with
  | Ok bp, Ok bp' =>
      photon_energy bp' = photon_energy bp
      /\ photon_energy_relative_bandwidth bp' = photon_energy_relative_bandwidth bp
  | Raise ex, Raise ex' => ex' = ex
  | _, _ => False
  end.
Proof.
  apply (propToBeamParameters_ignores_last_slice pow_rounded hbar_2014 e_2014 sample_fs
           {[ "other.h5" := WavefrontFile other_pulse ]}
           "prop.h5" "other.h5" pulse other_pulse).
  - reflexivity.
  - reflexivity.
  - repeat split; reflexivity.
Defined.

(** X3: a mesh with a single pixel column or a single pixel row makes
    [propToBeamParameters] raise a ZeroDivisionError, whatever the
    intensities are: the pixel size divides by [nx - 1] and [ny - 1]. *)
Theorem single_pixel_mesh_raises
    (pow : float -> float -> float) (hbar e : float)
    (fs : gmap string file) (path : string) (w : Wavefront) :
  fs !! path = Some (WavefrontFile w) ->
  nx (Mesh_t w) = 1%Z \/ ny (Mesh_t w) = 1%Z ->
  raises_class (propToBeamParameters pow hbar e fs path) ZeroDivisionError.
Proof.
  intros Hfile Hone.
  rewrite (propToBeamParameters_moments pow hbar e fs path w Hfile).
  unfold beam_parameters_of, py_div.
  destruct Hone as [-> | ->].
  - by eexists.
  - destruct (float_of_int (nx (Mesh_t w) - 1) =? 0)%float; by eexists.
Qed.

Lemma single_pixel_mesh_raises_witness :
  raises_class
    (propToBeamParameters pow_rounded hbar_2014 e_2014
       {[ "column.h5" := WavefrontFile column_pulse ]} "column.h5")
    ZeroDivisionError.
Proof.
  apply (single_pixel_mesh_raises pow_rounded hbar_2014 e_2014
           {[ "column.h5" := WavefrontFile column_pulse ]} "column.h5" column_pulse).
  - reflexivity.
  - left. reflexivity.
Defined.

(** X4: when rounding makes the temporal variance m2 - m1**2 negative,
    as the code computes it, [propToBeamParameters] raises the
    ValueError of [math.sqrt]. This happens for a delta-like pulse on a
    time axis from 0 to 0.3 (where glibc's [pow] returns the rounded
    square). *)
Theorem negative_variance_raises_ValueError
    (pow : float -> float -> float) (hbar e : float)
    (fs : gmap string file) (path : string) (w : Wavefront) :
  fs !! path = Some (WavefrontFile w) ->
  (float_of_int (nx (Mesh_t w) - 1) =? 0)%float = false ->
  (float_of_int (ny (Mesh_t w) - 1) =? 0)%float = false ->
  (variance pow (intensity_vs_time w) (slice_times w) <? 0)%float = true ->
  propToBeamParameters pow hbar e fs path
  = Raise (Exc ValueError (Some "math domain error")).
Proof.
  intros Hfile Hnx Hny Hvar.
  rewrite (propToBeamParameters_moments pow hbar e fs path w Hfile).
  unfold beam_parameters_of, py_div, math_sqrt.
  by rewrite Hnx, Hny, Hvar.
Qed.

Lemma negative_variance_raises_ValueError_witness :
  delta_like (intensity_t rounding_pulse) = true
  /\ propToBeamParameters pow_rounded hbar_2014 e_2014
       {[ "rounding.h5" := WavefrontFile rounding_pulse ]} "rounding.h5"
     = Raise (Exc ValueError (Some "math domain error")).
Proof.
  split; [reflexivity|].
  apply (negative_variance_raises_ValueError pow_rounded hbar_2014 e_2014
           {[ "rounding.h5" := WavefrontFile rounding_pulse ]} "rounding.h5"
           rounding_pulse); reflexivity.
Defined.

(** *** A nan that passes through *)

Lemma SFcompare_refl_nan (s : spec_float) :
  SFeqb s s = false -> s = S754_nan.
Proof.
  unfold SFeqb. destruct s as [[]|[]| |[] m ex]; simpl; try done;
    rewrite Z.compare_refl, Pos.compare_cont_refl; done.
Qed.

Lemma is_nan_spec (x : float) : is_nan x = true -> Prim2SF x = S754_nan.
Proof.
  unfold is_nan. intros H. apply negb_true_iff in H.
  rewrite FloatAxioms.eqb_spec in H. by apply SFcompare_refl_nan.
Qed.

Lemma spec_is_nan (x : float) : Prim2SF x = S754_nan -> is_nan x = true.
Proof.
  intros H. unfold is_nan. by rewrite FloatAxioms.eqb_spec, H.
Qed.

Lemma nan_not_less (x y : float) : is_nan x = true -> (x <? y)%float = false.
Proof. intros H. by rewrite ltb_spec, (is_nan_spec x H). Qed.

Lemma nan_not_equal (x y : float) : is_nan x = true -> (x =? y)%float = false.
Proof. intros H. by rewrite FloatAxioms.eqb_spec, (is_nan_spec x H). Qed.

Lemma sqrt_nan (x : float) : is_nan x = true -> is_nan (PrimFloat.sqrt x) = true.
Proof.
  intros H. apply spec_is_nan. by rewrite sqrt_spec, (is_nan_spec x H).
Qed.

Lemma div_nan_l (x y : float) : is_nan x = true -> is_nan (x / y)%float = true.
Proof.
  intros H. apply spec_is_nan. by rewrite div_spec, (is_nan_spec x H).
Qed.

Lemma div_nan_r (x y : float) : is_nan y = true -> is_nan (x / y)%float = true.
Proof.
  intros H. apply spec_is_nan. rewrite div_spec, (is_nan_spec y H).
  by destruct (Prim2SF x) as [[]|[]| |[] m ex].
Qed.

(** X5: a nan among the moments raises nothing. When the temporal
    variance, as the code computes it, is not a number (as it is when
    the slices before the last carry no intensity: m0 = 0 and
    m2 = 0/0), [propToBeamParameters] returns all the same, with a
    relative bandwidth that is not a number. *)
Theorem nan_variance_gives_nan_bandwidth
    (pow : float -> float -> float) (hbar e : float)
    (fs : gmap string file) (path : string) (w : Wavefront) :
  fs !! path = Some (WavefrontFile w) ->
  (float_of_int (nx (Mesh_t w) - 1) =? 0)%float = false ->
  (float_of_int (ny (Mesh_t w) - 1) =? 0)%float = false ->
  is_nan (variance pow (intensity_vs_time w) (slice_times w)) = true ->
  (e =? 0)%float = false ->
  (variance pow (intensity_vs_energy w) (slice_energies w) <? 0)%float = false ->
  exists bp bandwidth,
    propToBeamParameters pow hbar e fs path = Ok bp
    /\ photon_energy_relative_bandwidth bp = PyFloat bandwidth
    /\ is_nan bandwidth = true.
Proof.
  intros Hfile Hnx Hny Hnan He Hvar.
  assert (Hrms : is_nan (temporal_rms pow w) = true) by by apply sqrt_nan.
  assert (Hdef : moments_defined pow e w = true).
  { unfold moments_defined.
    by rewrite Hnx, Hny, (nan_not_less _ _ Hnan), (nan_not_equal _ _ Hrms), He, Hvar. }
  exists (beam_parameters_value pow hbar e w), (relative_bandwidth pow hbar e w).
  split; [|split; [done|]].
  - rewrite (propToBeamParameters_moments pow hbar e fs path w Hfile).
    by apply beam_parameters_of_defined.
  - unfold relative_bandwidth. by apply div_nan_l, div_nan_l, div_nan_r.
Qed.

Lemma nan_variance_gives_nan_bandwidth_witness :
  exists bp bandwidth,
    propToBeamParameters pow_rounded hbar_2014 e_2014
      {[ "dark.h5" := WavefrontFile dark_pulse ]} "dark.h5" = Ok bp
    /\ photon_energy_relative_bandwidth bp = PyFloat bandwidth
    /\ is_nan bandwidth = true.
Proof.
  apply (nan_variance_gives_nan_bandwidth pow_rounded hbar_2014 e_2014
           {[ "dark.h5" := WavefrontFile dark_pulse ]} "dark.h5" dark_pulse);
    reflexivity.
Defined.

(** ** The constructor of [DetectorGeometryParameters] *)

Lemma checkAndSetInstance_none_or (cls : pyclass) (val default : pyobj) :
  checkAndSetInstance cls val default
  = if none_or cls val then Ok (or_default default val)
    else raise_ TypeError "The parameter 'var' is not of correct type.".
Proof. destruct val; simpl; try done; by destruct cls. Qed.

Lemma init_outcome (pe bd pu bw dv st : pyobj) :
  DetectorGeometryParameters_init pe bd pu bw dv st
  = if none_or cls_float pe && none_or cls_float bd && none_or cls_float pu
       && none_or cls_float bw && none_or cls_float dv && none_or cls_str st
    then Ok {| photon_energy := pe;
               photon_energy_relative_bandwidth := or_default (PyFloat 0.01) bw;
               beam_diameter_fwhm := bd;
               pulse_energy := pu;
               divergence := or_default (PyFloat 0) dv;
               photon_energy_spectrum_type := or_default (PyStr "SASE") st |}
    else raise_ TypeError "The parameter 'var' is not of correct type.".
Proof.
  unfold DetectorGeometryParameters_init, set_photon_energy,
    set_photon_energy_relative_bandwidth, set_beam_diameter_fwhm,
    set_pulse_energy, set_divergence, set_photon_energy_spectrum_type.
  rewrite !checkAndSetInstance_none_or.
  assert (Hnone : forall v, or_default PyNone v = v) by (by intros []).
  destruct (none_or cls_float pe); cbn [mbind result_bind andb]; [|done].
  destruct (none_or cls_float bw); cbn [mbind result_bind andb];
    [|by rewrite !andb_false_r].
  destruct (none_or cls_float bd); cbn [mbind result_bind andb]; [|done].
  destruct (none_or cls_float pu); cbn [mbind result_bind andb]; [|done].
  destruct (none_or cls_float dv); cbn [mbind result_bind andb]; [|done].
  destruct (none_or cls_str st); cbn [mbind result_bind andb]; [|done].
  cbn [photon_energy photon_energy_relative_bandwidth beam_diameter_fwhm
       pulse_energy divergence photon_energy_spectrum_type].
  by rewrite !Hnone.
Qed.

Lemma or_default_none_or (cls : pyclass) (default val : pyobj) :
  none_or cls val = true -> none_or cls default = true ->
  none_or cls (or_default default val) = true.
Proof. by destruct val. Qed.

Lemma or_default_idempotent (default val : pyobj) :
  default <> PyNone ->
  or_default default (or_default default val) = or_default default val.
Proof. destruct val; simpl; try done. by destruct default. Qed.

(** X6: the constructor returns exactly when each of its six arguments
    is [None] or of its type (a float for the five numbers, a string for
    the spectrum type), and otherwise raises. The object it returns
    holds the arguments as given, with 0.01 for a relative bandwidth
    left at [None], 0.0 for a divergence left at [None] and "SASE" for
    a spectrum type left at [None]; the three required parameters have
    no default and stay [None]. *)
Theorem DetectorGeometryParameters_init_accepts
    (pe bd pu bw dv st : pyobj) (self : DetectorGeometryParameters) :
  DetectorGeometryParameters_init pe bd pu bw dv st = Ok self
  <-> (none_or cls_float pe && none_or cls_float bd && none_or cls_float pu
       && none_or cls_float bw && none_or cls_float dv && none_or cls_str st = true
       /\ self = {| photon_energy := pe;
                    photon_energy_relative_bandwidth := or_default (PyFloat 0.01) bw;
                    beam_diameter_fwhm := bd;
                    pulse_energy := pu;
                    divergence := or_default (PyFloat 0) dv;
                    photon_energy_spectrum_type := or_default (PyStr "SASE") st |}).
Proof.
  rewrite init_outcome.
  destruct (_ && none_or cls_str st).
  - split; [by intros [= <-] | by intros [_ ->]].
  - split; [done | by intros [? _]].
Qed.

(** X7: validation is idempotent. The fields of an object that the
    constructor returned, passed to the constructor again, give the same
    object: a validated value is accepted as it is and a default that
    was filled in is not replaced. *)
Theorem DetectorGeometryParameters_init_idempotent
    (pe bd pu bw dv st : pyobj) (self : DetectorGeometryParameters) :
  DetectorGeometryParameters_init pe bd pu bw dv st = Ok self ->
  reconstruct self = Ok self.
Proof.
  rewrite init_outcome.
  destruct (_ && none_or cls_str st) eqn:Hok; [|done].
  intros [= <-].
  apply andb_prop in Hok as [Hok Hst]. apply andb_prop in Hok as [Hok Hdv].
  apply andb_prop in Hok as [Hok Hbw]. apply andb_prop in Hok as [Hok Hpu].
  apply andb_prop in Hok as [Hpe Hbd].
  unfold reconstruct. rewrite init_outcome.
  cbn [photon_energy photon_energy_relative_bandwidth beam_diameter_fwhm
       pulse_energy divergence photon_energy_spectrum_type].
  rewrite !or_default_idempotent by done.
  by rewrite Hpe, Hbd, Hpu, !or_default_none_or.
Qed.

Lemma DetectorGeometryParameters_init_idempotent_witness :
  reconstruct
    {| photon_energy := PyFloat 4960;
       photon_energy_relative_bandwidth := PyFloat 0.01;
       beam_diameter_fwhm := PyFloat 1e-6;
       pulse_energy := PyFloat 0.001;
       divergence := PyFloat 0;
       photon_energy_spectrum_type := PyStr "tophat" |}
  = Ok {| photon_energy := PyFloat 4960;
          photon_energy_relative_bandwidth := PyFloat 0.01;
          beam_diameter_fwhm := PyFloat 1e-6;
          pulse_energy := PyFloat 0.001;
          divergence := PyFloat 0;
          photon_energy_spectrum_type := PyStr "tophat" |}.
Proof.
  apply (DetectorGeometryParameters_init_idempotent
           (PyFloat 4960) (PyFloat 1e-6) (PyFloat 0.001) PyNone PyNone (PyStr "tophat")).
  reflexivity.
Defined.

(** ** [extractDate] on the Debye-Waller line, any character of the class *)

Lemma match_here_debye_waller_class (ws1 ws2 : list ascii) (c : ascii)
    (after : list ascii) :
  ws1 <> [] -> forallb is_space ws1 = true ->
  ws2 <> [] -> forallb is_space ws2 = true ->
  atom_accepts debye_waller_class c = true -> is_space c = false ->
  match_here debye_waller_tail (ws1 ++ "="%char :: ws2 ++ c :: after)
  = Some (length (ws1 ++ "="%char :: ws2 ++ [c])).
Proof.
  intros Hws1 Hspaces1 Hws2 Hspaces2 Hclass Hns.
  destruct ws1 as [|s1 ws1]; [done|]. destruct ws2 as [|s2 ws2]; [done|].
  cbn [forallb] in Hspaces1, Hspaces2.
  apply andb_prop in Hspaces1 as [Hs1 Hspaces1].
  apply andb_prop in Hspaces2 as [Hs2 Hspaces2].
  unfold debye_waller_tail.
  cbn [match_here app atom_accepts charset_accepts]. rewrite Hs1.
  rewrite (match_star_run (Single Space) _ ws1 _ (S (S (length ws2 + 1))) Hspaces1);
    [| done |].
  - cbn [fmap option_fmap option_map]. f_equal.
    cbn [length]. rewrite !length_app. cbn [length]. rewrite !length_app.
    cbn [length]. lia.
  - cbn [atom_accepts charset_accepts fmap option_fmap option_map app].
    rewrite Ascii.eqb_refl, Hs2.
    rewrite (match_star_run (Single Space) _ ws2 (c :: after) 1 Hspaces2); [done|done|].
    cbn [match_here]. unfold debye_waller_class, atom_accepts in Hclass.
    by rewrite Hclass.
Qed.

Lemma py_float_lone_sign_or_point (ws : list ascii) (c : ascii) :
  forallb is_space ws = true ->
  c ∈ ["."; "|"; "+"]%char ->
  raises_class (py_float (string_of_list_ascii (ws ++ [c]))) ValueError.
Proof.
  intros Hspaces Hc. unfold py_float, strip.
  rewrite list_ascii_of_string_of_list_ascii.
  assert (Hns : is_space c = false).
  { repeat (apply elem_of_cons in Hc as [->|Hc]); [done..|].
    by apply elem_of_nil in Hc. }
  destruct (take_while_run is_space ws [c] Hspaces Hns) as [_ ->].
  repeat (apply elem_of_cons in Hc as [->|Hc]);
    [by eexists..|by apply elem_of_nil in Hc].
Qed.

(** X10: a Debye-Waller number that starts with a point (as in ".5"),
    a plus sign or a bar makes [extractDate] raise a ValueError: the
    class of the pattern accepts that one character and [float] is
    given it alone. *)
Theorem extractDate_debye_waller_point_raises
    (before ws1 ws2 : list ascii) (c : ascii) (after : list ascii) :
  ws1 <> [] -> forallb is_space ws1 = true ->
  ws2 <> [] -> forallb is_space ws2 = true ->
  c ∈ ["."; "|"; "+"]%char ->
  (forall i, i < length before ->
     match_here (literal "Debye-Waller" ++ debye_waller_tail)
       (drop i (before ++ debye_waller_line ws1 ws2 c ++ after)) = None) ->
  raises_class
    (extractDate pattern_debye_waller
       (string_of_list_ascii (before ++ debye_waller_line ws1 ws2 c ++ after)))
    ValueError.
Proof.
  intros Hws1 Hspaces1 Hws2 Hspaces2 Hc Hfirst.
  assert (Hfacts : atom_accepts debye_waller_class c = true
                   /\ is_space c = false /\ Ascii.eqb "=" c = false).
  { pose proof Hc as Hc'.
    repeat (apply elem_of_cons in Hc' as [->|Hc']); [done..|].
    by apply elem_of_nil in Hc'. }
  destruct Hfacts as (Hclass & Hns & Hne).
  unfold extractDate, compile.
  rewrite debye_waller_compile, equals_space_compile.
  cbn [mbind result_bind].
  unfold findall. rewrite list_ascii_of_string_of_list_ascii.
  rewrite (findall_from_no_match _ _ _ Hfirst).
  assert (Hmatch : match_here (literal "Debye-Waller" ++ debye_waller_tail)
                     (debye_waller_line ws1 ws2 c ++ after)
                   = Some (length (debye_waller_line ws1 ws2 c))).
  { unfold debye_waller_line, literal. rewrite <- !app_assoc.
    rewrite match_here_literal.
    change (("="%char :: ws2 ++ [c]) ++ after)
      with ("="%char :: (ws2 ++ [c]) ++ after).
    rewrite <- (app_assoc ws2). cbn [app].
    rewrite (match_here_debye_waller_class ws1 ws2 c after) by done.
    reflexivity. }
  destruct (findall_from_match _ _ _ Hmatch) as [more ->].
  rewrite take_app_length. cbn [map first_item mbind result_bind].
  unfold split. rewrite list_ascii_of_string_of_list_ascii.
  unfold debye_waller_line. rewrite app_assoc.
  destruct ws2 as [|s2 ws2]; [done|].
  cbn [forallb] in Hspaces2. apply andb_prop in Hspaces2 as [Hs2 Hspaces2].
  cbn [app].
  rewrite (split_line (list_ascii_of_string "Debye-Waller") ws1 s2 (ws2 ++ [c])).
  - cbn [map last_item last mbind result_bind].
    by apply py_float_lone_sign_or_point.
  - rewrite forallb_app. by rewrite (spaces_no_equals ws1 Hspaces1).
  - done.
  - rewrite forallb_app, (spaces_no_equals ws2 Hspaces2). cbn [forallb].
    by rewrite Hne.
Qed.

Lemma extractDate_debye_waller_point_raises_witness :
  raises_class (extractDate pattern_debye_waller "Debye-Waller = .5") ValueError.
Proof.
  apply (extractDate_debye_waller_point_raises
           [] [" "]%char [" "]%char "."%char ["5"]%char).
  - discriminate.
  - reflexivity.
  - discriminate.
  - reflexivity.
  - apply list_elem_of_here.
  - intros i Hi. simpl in Hi. lia.
Defined.

(** ** [parseStaticData]: which failure is reported, and when it returns *)

Lemma collect_first_failure (text : string) (before after : list (string * string))
    (kp : string * string) (d : gmap string float) (e : exception) :
  Forall (fun kp' => exists v, extractDate kp'.2 text = Ok v) before ->
  extractDate kp.2 text = Raise e ->
  collect text (before ++ kp :: after) (Ok d) = Raise e.
Proof.
  intros Hbefore Hkp. revert d.
  induction Hbefore as [|kp' before [v Hv] _ IH]; intros d.
  - cbn [app]. by rewrite collect_cons, Hkp.
  - cbn [app]. rewrite collect_cons, Hv. apply IH.
Qed.

Lemma collect_all_Ok (text : string) (l : list (string * string))
    (d : gmap string float) :
  Forall (fun kp => exists v, extractDate kp.2 text = Ok v) l ->
  exists d', collect text l (Ok d) = Ok d'.
Proof.
  intros Hall. revert d. induction Hall as [|kp l [v Hv] _ IH]; intros d.
  - by exists d.
  - rewrite collect_cons, Hv. apply IH.
Qed.

(** X11: [parseStaticData] reports the first failure. The patterns are
    tried in the order fk, qk, Sk_ion, Sk_free, Sk_core, Wk, Sk_total,
    ipl, lfc, debye_waller; when one of them fails after all earlier
    ones have succeeded, its exception is the one that
    [parseStaticData] raises, whatever the later patterns would do. *)
Theorem parseStaticData_first_failure (data_string : string)
    (before after : list (string * string)) (key pattern : string)
    (e : exception) :
  static_patterns = before ++ (key, pattern) :: after ->
  Forall (fun kp => exists v, extractDate kp.2 data_string = Ok v) before ->
  extractDate pattern data_string = Raise e ->
  parseStaticData data_string = Raise e.
Proof.
  intros Hsplit Hbefore Hfail.
  rewrite parseStaticData_collect, Hsplit.
  by apply (collect_first_failure _ _ _ (key, pattern)).
Qed.

Lemma parseStaticData_first_failure_witness :
  parseStaticData "f(k) = 1.5
Debye-Waller = .5"
  = Raise (Exc IndexError (Some "list index out of range")).
Proof.
  apply (parseStaticData_first_failure _
           [("fk", pattern_fk)]
           [("Sk_ion", pattern_Sk_ion); ("Sk_free", pattern_Sk_free);
            ("Sk_core", pattern_Sk_core); ("Wk", pattern_Wk);
            ("Sk_total", pattern_Sk_total); ("ipl", pattern_ipl);
            ("lfc", pattern_lfc); ("debye_waller", pattern_debye_waller)]
           "qk" pattern_qk).
  - reflexivity.
  - constructor; [|constructor]. exists 1.5%float. vm_compute. reflexivity.
  - vm_compute. reflexivity.
Defined.

(** X12: [parseStaticData] returns exactly when each of the ten
    extractions returns. *)
Theorem parseStaticData_returns_iff (data_string : string) :
  (exists d, parseStaticData data_string = Ok d)
  <-> Forall (fun kp => exists v, extractDate kp.2 data_string = Ok v) static_patterns.
Proof.
  rewrite parseStaticData_collect. split.
  - intros [d Hd]. destruct (collect_Ok _ _ _ _ Hd) as (_ & _ & Hval).
    apply Forall_forall. intros kp Hin.
    destruct (Hval static_patterns_NoDup kp Hin) as (v & Hv & _). by exists v.
  - apply collect_all_Ok.
Qed.

Lemma parseStaticData_returns_iff_witness :
  exists d, parseStaticData sample_log = Ok d.
Proof.
  apply (proj2 (parseStaticData_returns_iff sample_log)).
  repeat (constructor; [eexists; vm_compute; reflexivity|]). constructor.
Defined.

(** ** [backengine]: what is left behind on each path *)

Lemma string_app_assoc (a b c : string) : a +:+ (b +:+ c) = (a +:+ b) +:+ c.
Proof.
  induction a as [|x a IH]; [done|].
  change (String x (a +:+ (b +:+ c)) = String x ((a +:+ b) +:+ c)).
  by rewrite IH.
Qed.

Lemma os_path_join_relative (a : string) (c : ascii) (b : string) :
  c <> "/"%char -> os_path_join a (String c b) = join_prefix a +:+ String c b.
Proof.
  intros Hc. unfold os_path_join, join_prefix.
  assert (Hb : forall (X : Type) (x y : X),
            match c with "/"%char => x | _ => y end = y).
  { intros X x y. destruct c as [[] [] [] [] [] [] [] []]; done. }
  rewrite Hb.
  destruct (last (list_ascii_of_string a)) as [z|]; [|done].
  destruct (Ascii.eqb_spec z "/") as [->|Hz]; [done|].
  assert (Hz' : forall (X : Type) (x y : X),
            match z with "/"%char => x | _ => y end = y).
  { intros X x y. destruct z as [[] [] [] [] [] [] [] []]; done. }
  rewrite !Hz'. apply string_app_assoc.
Qed.

Lemma log_is_not_the_table (tmp_dir : string) :
  os_path_join tmp_dir "xrts.log" <> os_path_join tmp_dir "xrts_out.txt".
Proof.
  rewrite !os_path_join_relative by done.
  intros H. by apply (inj (String.app _)) in H.
Qed.

(** X13: a run that goes through. When the tool writes nothing to its
    standard error and leaves a readable [xrts_out.txt], [backengine]
    returns; the run log is the tool's standard output, the run data is
    the table loaded from [xrts_out.txt], the standard output is also
    written to [xrts.log] in the temporary directory, and the current
    directory is the one from before the call. *)
Theorem backengine_success
    (_serialize : CalculatorParameters -> gmap string file ->
                  result (CalculatorParameters * gmap string file))
    (communicate : Popen -> gmap string file ->
                   result (string * string * gmap string file))
    (loadtxt : string -> result (list (list float)))
    (self : PlasmaXRTSCalculator) (w : world)
    (p p' : CalculatorParameters) (fs' fs'' : gmap string file)
    (out text : string) (data : list (list float)) :
  parameters self = PyParameters p ->
  _serialize p (files w) = Ok (p', fs') ->
  communicate (xrs_in p') fs' = Ok (out, "", fs'') ->
  fs'' !! os_path_join (_tmp_dir p') "xrts_out.txt" = Some (TextFile text) ->
  loadtxt text = Ok data ->
  let '(r, (self', w')) := backengine _serialize communicate loadtxt (self, w) in
  r = Ok tt
  /\ __run_log self' = Some out
  /\ __run_data self' = Some data
  /\ parameters self' = PyParameters p'
  /\ files w' = <[os_path_join (_tmp_dir p') "xrts.log" := TextFile out]> fs''
  /\ getcwd w' = getcwd w.
Proof.
  intros Hp Hs Hc Hfile Hload.
  rewrite (backengine_until_exit _ _ _ self w p p' fs' fs'' out "" Hp Hs Hc).
  cbn [String.eqb negb]. unfold isfile. rewrite Hfile. cbn [negb].
  unfold read_text, mbind, method_bind, get_world, lift, mret, method_ret.
  cbn [snd files with_files].
  rewrite lookup_insert_ne by apply log_is_not_the_table.
  by rewrite Hfile, Hload.
Qed.

Lemma backengine_success_witness :
  let '(r, (self', w')) :=
    backengine sample_serialize working_tool sample_loadtxt
      (sample_calculator, sample_world) in
  r = Ok tt
  /\ __run_log self' = Some "f(k)   = 0.873"
  /\ __run_data self' = Some [[0; 0.5; 0.25; 0.75]%float]
  /\ parameters self' = PyParameters sample_parameters
  /\ files w' = <[os_path_join "/tmp/xrts" "xrts.log" := TextFile "f(k)   = 0.873"]>
                  table_written
  /\ getcwd w' = "/home/user".
Proof.
  apply (backengine_success sample_serialize working_tool sample_loadtxt
           sample_calculator sample_world sample_parameters sample_parameters
           deck_written table_written "f(k)   = 0.873" "0.0 0.5 0.25 0.75"
           [[0; 0.5; 0.25; 0.75]%float]);
    reflexivity.
Defined.

(** X14: a table that cannot be loaded. When [numpy.loadtxt] raises on
    [xrts_out.txt], [backengine] raises the same exception with half of
    its work done: the run log already holds the standard output of
    this run and [xrts.log] is written, while the run data is still what
    it was before the call. *)
Theorem backengine_unreadable_table
    (_serialize : CalculatorParameters -> gmap string file ->
                  result (CalculatorParameters * gmap string file))
    (communicate : Popen -> gmap string file ->
                   result (string * string * gmap string file))
    (loadtxt : string -> result (list (list float)))
    (self : PlasmaXRTSCalculator) (w : world)
    (p p' : CalculatorParameters) (fs' fs'' : gmap string file)
    (out text : string) (e : exception) :
  parameters self = PyParameters p ->
  _serialize p (files w) = Ok (p', fs') ->
  communicate (xrs_in p') fs' = Ok (out, "", fs'') ->
  fs'' !! os_path_join (_tmp_dir p') "xrts_out.txt" = Some (TextFile text) ->
  loadtxt text = Raise e ->
  let '(r, (self', w')) := backengine _serialize communicate loadtxt (self, w) in
  r = Raise e
  /\ __run_log self' = Some out
  /\ __run_data self' = __run_data self
  /\ files w' = <[os_path_join (_tmp_dir p') "xrts.log" := TextFile out]> fs''.
Proof.
  intros Hp Hs Hc Hfile Hload.
  rewrite (backengine_until_exit _ _ _ self w p p' fs' fs'' out "" Hp Hs Hc).
  cbn [String.eqb negb]. unfold isfile. rewrite Hfile. cbn [negb].
  unfold read_text, mbind, method_bind, get_world, lift, mret, method_ret.
  cbn [snd files with_files].
  rewrite lookup_insert_ne by apply log_is_not_the_table.
  by rewrite Hfile, Hload.
Qed.

Lemma backengine_unreadable_table_witness :
  let '(r, (self', w')) :=
    backengine sample_serialize working_tool failing_loadtxt
      (sample_calculator, sample_world) in
  r = Raise (Exc ValueError (Some "could not convert string to float"))
  /\ __run_log self' = Some "f(k)   = 0.873"
  /\ __run_data self' = Some [[1; 2; 3; 4]%float]
  /\ files w' = <[os_path_join "/tmp/xrts" "xrts.log" := TextFile "f(k)   = 0.873"]>
                  table_written.
Proof.
  apply (backengine_unreadable_table sample_serialize working_tool failing_loadtxt
           sample_calculator sample_world sample_parameters sample_parameters
           deck_written table_written "f(k)   = 0.873" "0.0 0.5 0.25 0.75"
           (Exc ValueError (Some "could not convert string to float")));
    reflexivity.
Defined.

(** X16: a tool that cannot be started. When [subprocess.Popen] (or
    [communicate]) raises, [backengine] raises the same exception; the
    input deck is written by then, and the run log and the run data are
    what they were. *)
Theorem backengine_tool_fails_to_start
    (_serialize : CalculatorParameters -> gmap string file ->
                  result (CalculatorParameters * gmap string file))
    (communicate : Popen -> gmap string file ->
                   result (string * string * gmap string file))
    (loadtxt : string -> result (list (list float)))
    (self : PlasmaXRTSCalculator) (w : world)
    (p p' : CalculatorParameters) (fs' : gmap string file) (e : exception) :
  parameters self = PyParameters p ->
  _serialize p (files w) = Ok (p', fs') ->
  communicate (xrs_in p') fs' = Raise e ->
  let '(r, (self', w')) := backengine _serialize communicate loadtxt (self, w) in
  r = Raise e
  /\ files w' = fs'
  /\ __run_log self' = __run_log self
  /\ __run_data self' = __run_data self.
Proof.
  intros Hp Hs Hc. unfold xrs_in in Hc.
  unfold backengine, parameters_serialize, parameters_tmp_dir, Popen_communicate.
  unfold mbind, method_bind, get_self, get_world, lift, set_self, set_world,
    mret, method_ret.
  cbn [fst snd]. rewrite Hp. cbn [fst snd with_parameters parameters].
  rewrite Hs. cbn [fst snd with_parameters parameters with_files files
                   with_process].
  by rewrite Hc.
Qed.

Lemma backengine_tool_fails_to_start_witness :
  let '(r, (self', w')) :=
    backengine sample_serialize missing_tool sample_loadtxt
      (sample_calculator, sample_world) in
  r = Raise (Exc OSError (Some "No such file or directory"))
  /\ files w' = deck_written
  /\ __run_log self' = Some "log of an earlier run"
  /\ __run_data self' = Some [[1; 2; 3; 4]%float].
Proof.
  apply (backengine_tool_fails_to_start sample_serialize missing_tool sample_loadtxt
           sample_calculator sample_world sample_parameters sample_parameters
           deck_written (Exc OSError (Some "No such file or directory")));
    reflexivity.
Defined.

(** X17: output that is lost. When [backengine] raises because the
    tool wrote to its standard error or left no [xrts_out.txt], the
    standard output of the tool is neither stored as run log nor
    written to [xrts.log]: the files are those the tool left behind. *)
Theorem backengine_failed_run_drops_stdout
    (_serialize : CalculatorParameters -> gmap string file ->
                  result (CalculatorParameters * gmap string file))
    (communicate : Popen -> gmap string file ->
                   result (string * string * gmap string file))
    (loadtxt : string -> result (list (list float)))
    (self : PlasmaXRTSCalculator) (w : world)
    (p p' : CalculatorParameters) (fs' fs'' : gmap string file)
    (out err : string) :
  parameters self = PyParameters p ->
  _serialize p (files w) = Ok (p', fs') ->
  communicate (xrs_in p') fs' = Ok (out, err, fs'') ->
  err <> "" \/ isfile fs'' (os_path_join (_tmp_dir p') "xrts_out.txt") = false ->
  let '(r, (self', w')) := backengine _serialize communicate loadtxt (self, w) in
  raises r
  /\ __run_log self' = __run_log self
  /\ __run_data self' = __run_data self
  /\ files w' = fs''.
Proof.
  intros Hp Hs Hc Hwhy.
  rewrite (backengine_until_exit _ _ _ self w p p' fs' fs'' out err Hp Hs Hc).
  destruct (String.eqb err "") eqn:Herr; cbn [negb].
  - destruct Hwhy as [Hne|Hmissing].
    + by apply String.eqb_neq in Hne; rewrite Hne in Herr.
    + rewrite Hmissing. cbn [negb]. split; [by eexists|done].
  - split; [by eexists|done].
Qed.

Lemma backengine_failed_run_drops_stdout_witness :
  let '(r, (self', w')) :=
    backengine sample_serialize idle_tool sample_loadtxt
      (sample_calculator, sample_world) in
  raises r
  /\ __run_log self' = Some "log of an earlier run"
  /\ __run_data self' = Some [[1; 2; 3; 4]%float]
  /\ files w' = deck_written.
Proof.
  apply (backengine_failed_run_drops_stdout sample_serialize idle_tool sample_loadtxt
           sample_calculator sample_world sample_parameters sample_parameters
           deck_written deck_written "f(k)   = 0.873" "").
  - reflexivity.
  - reflexivity.
  - reflexivity.
  - right. reflexivity.
Defined.

(** ** [saveH5] *)

Lemma save_static_calls (items : list (string * float))
    (self : PlasmaXRTSCalculator) (calls : list h5call) :
  save_static items (self, calls) = (Ok tt, (self, calls ++ static_calls items)).
Proof.
  revert calls. induction items as [|[key value] items IH]; intros calls.
  - cbn [save_static static_calls map]. by rewrite app_nil_r.
  - cbn [save_static static_calls map]. unfold mbind, h5method_bind, h5.
    cbn [fst snd]. rewrite IH. unfold static_calls.
    by rewrite <- app_assoc.
Qed.

(** [saveH5] up to the point where the table is asked for. *)
Lemma saveH5_unfold (self : PlasmaXRTSCalculator) (calls : list h5call) :
  saveH5 (self, calls) =
  let opened := calls ++ opening_calls (output_path self) in
  match __run_data self with
  | None =>
      (raise_ AttributeError
         "'PlasmaXRTSCalculator' object has no attribute '_PlasmaXRTSCalculator__run_data'",
       (self, opened))
  | Some table =>
      match (c0 ← column 0 table; c1 ← column 1 table; c2 ← column 2 table;
             c3 ← column 3 table; Ok (c0, c1, c2, c3)) with
      | Raise e => (Raise e, (self, opened))
      | Ok (c0, c1, c2, c3) =>
          let written := opened ++ dynamic_calls c0 c1 c2 c3 in
          match __run_log self with
          | None =>
              (raise_ AttributeError
                 "'PlasmaXRTSCalculator' object has no attribute '_PlasmaXRTSCalculator__run_log'",
               (self, written))
          | Some log =>
              match parseStaticData log with
              | Raise e => (Raise e, (self, written))
              | Ok d =>
                  (Ok tt, (with_static_data d self,
                           written ++ static_calls (map_to_list d) ++ closing_calls))
              end
          end
      end
  end.
Proof.
  unfold saveH5, mbind at 1, h5method_bind at 1. cbn [fst snd].
  unfold mbind, h5method_bind, h5, get_run_data, get_run_log, h5lift,
    set_static_data.
  cbn [fst snd]. rewrite <- !app_assoc. cbn [app].
  destruct (__run_data self) as [table|]; [|reflexivity].
  unfold result_bind.
  destruct (column 0 table) as [c0|]; [|reflexivity].
  destruct (column 1 table) as [c1|]; [|reflexivity].
  destruct (column 2 table) as [c2|]; [|reflexivity].
  destruct (column 3 table) as [c3|]; [|reflexivity].
  cbn [fst snd]. rewrite <- !app_assoc. cbn [app].
  destruct (__run_log self) as [log|]; [|reflexivity].
  destruct (parseStaticData log) as [d|]; [|reflexivity].
  cbn [fst snd]. rewrite save_static_calls. cbn [fst snd].
  rewrite <- !app_assoc. reflexivity.
Qed.

Lemma column_IndexError (k : nat) (table : list (list float)) (e : exception) :
  column k table = Raise e -> exc_type e = IndexError.
Proof.
  unfold column. destruct table as [|row [|row' table]]; try by intros [= <-].
  destruct (mapM _ _); [done|]. by intros [= <-].
Qed.

Lemma column_four_columns (k : nat) (table : list (list float)) :
  four_columns table -> k < 4 -> exists c, column k table = Ok c.
Proof.
  intros [Hrows Hcols] Hk. unfold column.
  destruct table as [|row [|row' table]]; [simpl in Hrows; lia..|].
  destruct (mapM (fun row : list float => row !! k) (row :: row' :: table))
    as [c|] eqn:Hc; [by exists c|].
  exfalso. assert (His : is_Some (mapM (fun row : list float => row !! k)
                            (row :: row' :: table))).
  { apply mapM_is_Some. eapply Forall_impl; [exact Hcols|].
    intros r Hr. cbn beta in Hr. unfold compose. apply lookup_lt_is_Some. lia. }
  rewrite Hc in His. by destruct His.
Qed.

Lemma column_short_table (k : nat) (table : list (list float)) :
  ~ four_columns table -> exists j e, j < 4 /\ column j table = Raise e.
Proof.
  intros Hnot. destruct (column 3 table) as [c|e] eqn:Hc; [|by exists 3, e; split; [lia|]].
  exfalso. apply Hnot. unfold column in Hc.
  destruct table as [|row [|row' table]]; [done..|].
  split; [simpl; lia|].
  destruct (mapM (fun row : list float => row !! 3) (row :: row' :: table))
    as [c'|] eqn:Hc'; [|done].
  assert (His : is_Some (mapM (fun row : list float => row !! 3)
                           (row :: row' :: table))) by by rewrite Hc'.
  apply mapM_is_Some in His. eapply Forall_impl; [exact His|].
  intros r Hr. apply lookup_lt_is_Some in Hr. simpl in Hr. lia.
Qed.

(** X18: saving before a run. On a calculator whose run data was never
    assigned, as after construction, [saveH5] raises an AttributeError;
    by then it has opened the output file for writing (which empties
    it) and created the five groups, and it does not close the file. *)
Theorem saveH5_without_run_data (self : PlasmaXRTSCalculator) (calls : list h5call) :
  __run_data self = None ->
  exists e,
    saveH5 (self, calls)
    = (Raise e, (self, calls ++ opening_calls (output_path self)))
    /\ exc_type e = AttributeError.
Proof.
  intros Hnone. rewrite saveH5_unfold, Hnone. by eexists.
Qed.

Lemma saveH5_without_run_data_witness :
  exists e,
    saveH5 (with_parameters (PyParameters sample_parameters)
              {| parameters := PyNone; input_path := "in"; output_path := "out.h5";
                 __is_initialized := false; __expected_data := [];
                 __provided_data := []; _input_data := ∅; __run_log := None;
                 __run_data := None; __static_data := None |}, [])
    = (Raise e,
       (with_parameters (PyParameters sample_parameters)
          {| parameters := PyNone; input_path := "in"; output_path := "out.h5";
             __is_initialized := false; __expected_data := [];
             __provided_data := []; _input_data := ∅; __run_log := None;
             __run_data := None; __static_data := None |},
        [] ++ opening_calls "out.h5"))
    /\ exc_type e = AttributeError.
Proof.
  apply (saveH5_without_run_data
           (with_parameters (PyParameters sample_parameters)
              {| parameters := PyNone; input_path := "in"; output_path := "out.h5";
                 __is_initialized := false; __expected_data := [];
                 __provided_data := []; _input_data := ∅; __run_log := None;
                 __run_data := None; __static_data := None |}) []).
  reflexivity.
Defined.

(** X19: a table that is too small. [saveH5] returns only for a table
    of at least two rows that all have four columns; for any other
    table it raises an IndexError before it has created a dataset, and
    the static data is not assigned. *)
Theorem saveH5_small_table (self : PlasmaXRTSCalculator) (calls : list h5call)
    (table : list (list float)) :
  __run_data self = Some table ->
  ~ four_columns table ->
  exists e,
    saveH5 (self, calls)
    = (Raise e, (self, calls ++ opening_calls (output_path self)))
    /\ exc_type e = IndexError.
Proof.
  intros Htable Hsmall. rewrite saveH5_unfold, Htable. cbn zeta.
  destruct (column_short_table 0 table Hsmall) as (j & e & Hj & He).
  unfold mbind, result_bind.
  destruct (column 0 table) as [c0|e0] eqn:H0;
    [|by exists e0; split; [|apply (column_IndexError 0 table)]].
  destruct (column 1 table) as [c1|e1] eqn:H1;
    [|by exists e1; split; [|apply (column_IndexError 1 table)]].
  destruct (column 2 table) as [c2|e2] eqn:H2;
    [|by exists e2; split; [|apply (column_IndexError 2 table)]].
  destruct (column 3 table) as [c3|e3] eqn:H3;
    [|by exists e3; split; [|apply (column_IndexError 3 table)]].
  exfalso.
  destruct j as [|[|[|[|j]]]]; [congruence..|lia].
Qed.

Lemma saveH5_small_table_witness :
  exists e,
    saveH5 (sample_calculator, [])
    = (Raise e, (sample_calculator, [] ++ opening_calls "/home/user/xrts_out.h5"))
    /\ exc_type e = IndexError.
Proof.
  apply (saveH5_small_table sample_calculator [] [[1; 2; 3; 4]%float]).
  - reflexivity.
  - intros [Hrows _]. simpl in Hrows. lia.
Defined.

(** X20: a log without one of the phrases. With a table of four
    columns in place, [saveH5] raises whatever [parseStaticData] raises
    on the run log. The four dynamic datasets are written by then; the
    static data is not assigned and the file is not closed. *)
Theorem saveH5_log_without_phrase (self : PlasmaXRTSCalculator) (calls : list h5call)
    (table : list (list float)) (log : string) (e : exception) :
  __run_data self = Some table ->
  four_columns table ->
  __run_log self = Some log ->
  parseStaticData log = Raise e ->
  exists c0 c1 c2 c3,
    column 0 table = Ok c0 /\ column 1 table = Ok c1
    /\ column 2 table = Ok c2 /\ column 3 table = Ok c3
    /\ saveH5 (self, calls)
       = (Raise e, (self, calls ++ opening_calls (output_path self)
                            ++ dynamic_calls c0 c1 c2 c3)).
Proof.
  intros Htable Hfour Hlog Hparse.
  destruct (column_four_columns 0 table Hfour) as [c0 H0]; [lia|].
  destruct (column_four_columns 1 table Hfour) as [c1 H1]; [lia|].
  destruct (column_four_columns 2 table Hfour) as [c2 H2]; [lia|].
  destruct (column_four_columns 3 table Hfour) as [c3 H3]; [lia|].
  exists c0, c1, c2, c3. repeat (split; [done|]).
  rewrite saveH5_unfold, Htable, H0, H1, H2, H3. cbn [mbind result_bind]. cbn zeta.
  by rewrite Hlog, Hparse, <- app_assoc.
Qed.

(** X21: a save that goes through. With a table of four columns and a
    run log that [parseStaticData] accepts, [saveH5] returns: the
    static data is the parsed dictionary, and the calls are the opening
    of the file and the five groups, the four columns as dynamic
    datasets with their units, one scalar dataset per key of the
    dictionary, the unit of the ionization potential lowering, and the
    closing of the file. *)
Theorem saveH5_success (self : PlasmaXRTSCalculator) (calls : list h5call)
    (table : list (list float)) (log : string) (d : gmap string float) :
  __run_data self = Some table ->
  four_columns table ->
  __run_log self = Some log ->
  parseStaticData log = Ok d ->
  exists c0 c1 c2 c3,
    column 0 table = Ok c0 /\ column 1 table = Ok c1
    /\ column 2 table = Ok c2 /\ column 3 table = Ok c3
    /\ saveH5 (self, calls)
       = (Ok tt, (with_static_data d self,
                  calls ++ opening_calls (output_path self)
                    ++ dynamic_calls c0 c1 c2 c3
                    ++ static_calls (map_to_list d) ++ closing_calls)).
Proof.
  intros Htable Hfour Hlog Hparse.
  destruct (column_four_columns 0 table Hfour) as [c0 H0]; [lia|].
  destruct (column_four_columns 1 table Hfour) as [c1 H1]; [lia|].
  destruct (column_four_columns 2 table Hfour) as [c2 H2]; [lia|].
  destruct (column_four_columns 3 table Hfour) as [c3 H3]; [lia|].
  exists c0, c1, c2, c3. repeat (split; [done|]).
  rewrite saveH5_unfold, Htable, H0, H1, H2, H3. cbn [mbind result_bind]. cbn zeta.
  by rewrite Hlog, Hparse, <- !app_assoc.
Qed.

Lemma saveH5_log_without_phrase_witness :
  exists c0 c1 c2 c3,
    column 0 sample_table = Ok c0 /\ column 1 sample_table = Ok c1
    /\ column 2 sample_table = Ok c2 /\ column 3 sample_table = Ok c3
    /\ saveH5 (with_run_data sample_table
                 (with_run_log "f(k)   = 0.873" sample_calculator), [])
       = (Raise (Exc IndexError (Some "list index out of range")),
          (with_run_data sample_table
             (with_run_log "f(k)   = 0.873" sample_calculator),
           [] ++ opening_calls "/home/user/xrts_out.h5" ++ dynamic_calls c0 c1 c2 c3)).
Proof.
  apply (saveH5_log_without_phrase
           (with_run_data sample_table
              (with_run_log "f(k)   = 0.873" sample_calculator))
           [] sample_table "f(k)   = 0.873"
           (Exc IndexError (Some "list index out of range"))).
  - reflexivity.
  - split; [simpl; lia|]. repeat (constructor; [simpl; lia|]). constructor.
  - reflexivity.
  - vm_compute. reflexivity.
Defined.

Lemma saveH5_success_witness :
  exists c0 c1 c2 c3,
    column 0 sample_table = Ok c0 /\ column 1 sample_table = Ok c1
    /\ column 2 sample_table = Ok c2 /\ column 3 sample_table = Ok c3
    /\ saveH5 (run_calculator, [])
       = (Ok tt, (with_static_data sample_static run_calculator,
                  [] ++ opening_calls "/home/user/xrts_out.h5"
                    ++ dynamic_calls c0 c1 c2 c3
                    ++ static_calls (map_to_list sample_static)
                    ++ closing_calls)).
Proof.
  apply (saveH5_success run_calculator [] sample_table sample_log sample_static).
  - reflexivity.
  - split; [simpl; lia|]. repeat (constructor; [simpl; lia|]). constructor.
  - reflexivity.
  - vm_compute. reflexivity.
Defined.

(** *** The names that [saveH5] creates *)

Lemma static_items_keys (log : string) (d : gmap string float) :
  parseStaticData log = Ok d -> (map_to_list d).*1 ≡ₚ static_key_list.
Proof.
  intros Hd. rewrite parseStaticData_collect in Hd.
  destruct (collect_Ok _ _ _ _ Hd) as (Hdom & _ & _).
  rewrite static_patterns_keys, dom_empty_L, union_empty_l_L in Hdom.
  apply NoDup_Permutation.
  - apply NoDup_fst_map_to_list.
  - apply (bool_decide_unpack (NoDup static_key_list)). by vm_compute.
  - intros k. rewrite <- (elem_of_list_to_set (C := gset string) k static_key_list).
    change (list_to_set static_key_list) with static_keys. rewrite <- Hdom.
    rewrite elem_of_dom. split.
    + intros ([k' v] & -> & Hin)%list_elem_of_fmap.
      apply elem_of_map_to_list in Hin. by exists v.
    + intros [v Hv]. apply list_elem_of_fmap. exists (k, v). split; [done|].
      by apply elem_of_map_to_list.
Qed.

Lemma created_static_calls (items : list (string * float)) :
  created (static_calls items)
  = map (fun k => components ("/data/static/" +:+ k)) items.*1
  /\ created_datasets (static_calls items)
     = map (fun k => components ("/data/static/" +:+ k)) items.*1
  /\ attributed (static_calls items) = [].
Proof.
  induction items as [|[k v] items (IH1 & IH2 & IH3)]; [done|].
  unfold created, created_datasets, attributed, static_calls in *.
  cbn [map fmap list_fmap omap list_omap fst]. by rewrite IH1, IH2, IH3.
Qed.

Lemma saveH5_Ok_calls (self self' : PlasmaXRTSCalculator) (calls' : list h5call) :
  saveH5 (self, []) = (Ok tt, (self', calls')) ->
  exists c0 c1 c2 c3 log d,
    parseStaticData log = Ok d
    /\ calls' = opening_calls (output_path self) ++ dynamic_calls c0 c1 c2 c3
                 ++ static_calls (map_to_list d) ++ closing_calls.
Proof.
  rewrite saveH5_unfold.
  destruct (__run_data self) as [table|]; [|done].
  destruct (_ ← column 0 table; _) as [[[[c0 c1] c2] c3]|]; [|done].
  destruct (__run_log self) as [log|]; [|done].
  destruct (parseStaticData log) as [d|] eqn:Hd; [|done].
  intros H. injection H as _ <-.
  by exists c0, c1, c2, c3, log, d.
Qed.

(** X22: the names of a completed save. Whatever order the dictionary
    is walked in, [saveH5] never asks for two objects of one name (the
    five groups, the four dynamic datasets and the ten static datasets
    are nineteen different names), and every unit is attached to a
    dataset that it has created. *)
Theorem saveH5_names (self self' : PlasmaXRTSCalculator) (calls' : list h5call) :
  saveH5 (self, []) = (Ok tt, (self', calls')) ->
  NoDup (created calls')
  /\ length (created calls') = 19
  /\ (forall name, name ∈ attributed calls' -> name ∈ created_datasets calls').
Proof.
  intros (c0 & c1 & c2 & c3 & log & d & Hd & ->)%saveH5_Ok_calls.
  pose proof (static_items_keys log d Hd) as Hkeys.
  destruct (created_static_calls (map_to_list d)) as (Hc & Hcd & Ha).
  unfold created, created_datasets, attributed in *.
  rewrite !omap_app, Hc, Hcd, Ha.
  set (names := map (fun k => components ("/data/static/" +:+ k)) (map_to_list d).*1).
  assert (Hnames : names
            ≡ₚ map (fun k => components ("/data/static/" +:+ k)) static_key_list)
    by (by apply fmap_Permutation).
  split; [|split].
  - rewrite Hnames. apply (bool_decide_unpack (NoDup _)). by vm_compute.
  - rewrite !length_app, Hnames. reflexivity.
  - intros name. rewrite Hnames. clear. revert name.
    match goal with
    | |- forall name, name ∈ ?attrs -> name ∈ ?made =>
        assert (Hall : Forall (fun name => name ∈ made) attrs)
          by (apply (bool_decide_unpack (Forall _ _)); by vm_compute)
    end.
    intros name Hin. by apply (proj1 (Forall_forall _ _) Hall).
Qed.

Lemma saveH5_names_witness :
  NoDup (created (snd (snd (saveH5 (run_calculator, [])))))
  /\ length (created (snd (snd (saveH5 (run_calculator, []))))) = 19
  /\ (forall name,
        name ∈ attributed (snd (snd (saveH5 (run_calculator, [])))) ->
        name ∈ created_datasets (snd (snd (saveH5 (run_calculator, []))))).
Proof.
  apply (saveH5_names run_calculator
           (fst (snd (saveH5 (run_calculator, []))))
           (snd (snd (saveH5 (run_calculator, []))))).
  vm_compute. reflexivity.
Defined.

(** ** The constructor, a run and a save, one after the other *)

(** X23: a calculator as the constructor returns it cannot be saved:
    it has no run data yet, and [saveH5] raises an AttributeError after
    it has emptied the output file and created the five groups. *)
Theorem saveH5_after_init
    (base_init : pyobj -> pyobj -> pyobj -> result (string * string))
    (params source target : pyobj)
    (self : PlasmaXRTSCalculator) (calls : list h5call) :
  PlasmaXRTSCalculator_init base_init params source target = Ok self ->
  exists e,
    saveH5 (self, calls)
    = (Raise e, (self, calls ++ opening_calls (output_path self)))
    /\ exc_type e = AttributeError.
Proof.
  intros Hinit.
  assert (Hnone : __run_data self = None).
  { revert Hinit. unfold PlasmaXRTSCalculator_init.
    destruct (checkAndSetParameters params) as [p|]; [|done].
    cbn [mbind result_bind].
    destruct (base_init p source target) as [[inp outp]|]; [|done].
    by intros [= <-]. }
  rewrite saveH5_unfold, Hnone. by eexists.
Qed.

Lemma saveH5_after_init_witness :
  exists self e,
    PlasmaXRTSCalculator_init sample_base_init (PyParameters sample_parameters)
      PyNone PyNone = Ok self
    /\ saveH5 (self, [])
       = (Raise e, (self, [] ++ opening_calls (output_path self)))
    /\ exc_type e = AttributeError.
Proof.
  eexists.
  destruct (saveH5_after_init sample_base_init (PyParameters sample_parameters)
              PyNone PyNone _ [] eq_refl) as (e & He & Hclass).
  exists e. split; [reflexivity|]. split; [exact He | exact Hclass].
Defined.

(** X24: a run, then a save. After a run of [backengine] that went
    through, with a table of four columns and a standard output that
    [parseStaticData] accepts, [saveH5] returns; the static data is
    what [parseStaticData] reads in the tool's standard output, and the
    dynamic datasets are the four columns of the loaded table. *)
Theorem saveH5_after_backengine
    (_serialize : CalculatorParameters -> gmap string file ->
                  result (CalculatorParameters * gmap string file))
    (communicate : Popen -> gmap string file ->
                   result (string * string * gmap string file))
    (loadtxt : string -> result (list (list float)))
    (self : PlasmaXRTSCalculator) (w : world)
    (p p' : CalculatorParameters) (fs' fs'' : gmap string file)
    (out text : string) (table : list (list float)) (d : gmap string float) :
  parameters self = PyParameters p ->
  _serialize p (files w) = Ok (p', fs') ->
  communicate (xrs_in p') fs' = Ok (out, "", fs'') ->
  fs'' !! os_path_join (_tmp_dir p') "xrts_out.txt" = Some (TextFile text) ->
  loadtxt text = Ok table ->
  four_columns table ->
  parseStaticData out = Ok d ->
  let '(_, (self', _)) := backengine _serialize communicate loadtxt (self, w) in
  exists c0 c1 c2 c3,
    column 0 table = Ok c0 /\ column 1 table = Ok c1
    /\ column 2 table = Ok c2 /\ column 3 table = Ok c3
    /\ saveH5 (self', [])
       = (Ok tt, (with_static_data d self',
                  [] ++ opening_calls (output_path self)
                    ++ dynamic_calls c0 c1 c2 c3
                    ++ static_calls (map_to_list d) ++ closing_calls)).
Proof.
  intros Hp Hs Hc Hfile Hload Hfour Hparse.
  destruct (column_four_columns 0 table Hfour) as [c0 H0]; [lia|].
  destruct (column_four_columns 1 table Hfour) as [c1 H1]; [lia|].
  destruct (column_four_columns 2 table Hfour) as [c2 H2]; [lia|].
  destruct (column_four_columns 3 table Hfour) as [c3 H3]; [lia|].
  rewrite (backengine_until_exit _ _ _ self w p p' fs' fs'' out "" Hp Hs Hc).
  cbn [String.eqb negb]. unfold isfile. rewrite Hfile. cbn [negb].
  unfold read_text, mbind, method_bind, get_world, lift, mret, method_ret.
  cbn [snd files with_files].
  rewrite lookup_insert_ne by apply log_is_not_the_table.
  rewrite Hfile, Hload. cbn [fst snd].
  exists c0, c1, c2, c3. repeat (split; [done|]).
  rewrite saveH5_unfold.
  cbn [__run_data __run_log output_path with_run_data with_run_log with_parameters].
  rewrite H0, H1, H2, H3. cbn [mbind result_bind]. cbn zeta.
  by rewrite Hparse, <- !app_assoc.
Qed.

Lemma saveH5_after_backengine_witness :
  let '(_, (self', _)) :=
    backengine sample_serialize logging_tool table_loadtxt
      (sample_calculator, sample_world) in
  exists c0 c1 c2 c3,
    column 0 sample_table = Ok c0 /\ column 1 sample_table = Ok c1
    /\ column 2 sample_table = Ok c2 /\ column 3 sample_table = Ok c3
    /\ saveH5 (self', [])
       = (Ok tt, (with_static_data sample_static self',
                  [] ++ opening_calls "/home/user/xrts_out.h5"
                    ++ dynamic_calls c0 c1 c2 c3
                    ++ static_calls (map_to_list sample_static) ++ closing_calls)).
Proof.
  apply (saveH5_after_backengine sample_serialize logging_tool table_loadtxt
           sample_calculator sample_world sample_parameters sample_parameters
           deck_written
           (<[os_path_join "/tmp/xrts" "xrts_out.txt" :=
                TextFile "-10 0.5 0.25 0.75
10 0.125 0.5 0.625"]> deck_written)
           sample_log "-10 0.5 0.25 0.75
10 0.125 0.5 0.625" sample_table sample_static).
  - reflexivity.
  - reflexivity.
  - reflexivity.
  - reflexivity.
  - reflexivity.
  - split; [simpl; lia|]. repeat (constructor; [simpl; lia|]). constructor.
  - vm_compute. reflexivity.
Defined.

(** ** What a run leaves alone *)

(** The calculator after [backengine], in each of the ways the method
    can end. *)
Lemma backengine_self_cases
    (_serialize : CalculatorParameters -> gmap string file ->
                  result (CalculatorParameters * gmap string file))
    (communicate : Popen -> gmap string file ->
                   result (string * string * gmap string file))
    (loadtxt : string -> result (list (list float)))
    (self : PlasmaXRTSCalculator) (w : world) :
  let '(r, (self', _)) := backengine _serialize communicate loadtxt (self, w) in
  (r <> Ok tt
   /\ (self' = self
       \/ (exists p', self' = with_parameters p' self)
       \/ (exists p' out, self' = with_run_log out (with_parameters p' self))))
  \/ (r = Ok tt
      /\ exists p' out data,
           self' = with_run_data data (with_run_log out (with_parameters p' self))).
Proof.
  unfold backengine, parameters_serialize, parameters_tmp_dir, Popen_communicate,
    read_text, mbind, method_bind, get_self, get_world, set_self, set_world,
    lift, mret, method_ret.
  cbn [fst snd].
  destruct (parameters self) as [| | | | |p] eqn:Hp;
    try (left; split; [done|by left]).
  destruct (_serialize p (files w)) as [[p' fs']|e]; [|left; split; [done|by left]].
  cbn [fst snd parameters with_parameters files with_files with_process].
  destruct (communicate _ fs') as [[[out err] fs'']|e];
    [|left; split; [done|right; left; by eexists]].
  cbn [fst snd files with_files].
  destruct (negb (String.eqb err "")); [left; split; [done|right; left; by eexists]|].
  match goal with
  | |- context [negb (isfile ?fs ?path)] => destruct (negb (isfile fs path))
  end; [left; split; [done|right; left; by eexists]|].
  cbn [fst snd files with_files].
  match goal with
  | |- context [?fs !! ?path] => destruct (fs !! path) as [[?|content]|]
  end; try (left; split; [done|right; right; by do 2 eexists]).
  cbn [fst snd].
  destruct (loadtxt content) as [data|e];
    [|left; split; [done|right; right; by do 2 eexists]].
  right. split; [done|]. by do 3 eexists.
Qed.

(** X26: what a run leaves alone. However [backengine] ends, the two
    paths, the initialisation flag, the lists of expected and provided
    data, the input data and the static data of the calculator are what
    they were. When it raises, the run data is what it was, too; when
    it returns, the run log and the run data are both assigned. *)
Theorem backengine_frame
    (_serialize : CalculatorParameters -> gmap string file ->
                  result (CalculatorParameters * gmap string file))
    (communicate : Popen -> gmap string file ->
                   result (string * string * gmap string file))
    (loadtxt : string -> result (list (list float)))
    (self : PlasmaXRTSCalculator) (w : world) :
  let '(r, (self', _)) := backengine _serialize communicate loadtxt (self, w) in
  (input_path self' = input_path self /\ output_path self' = output_path self
   /\ __is_initialized self' = __is_initialized self
   /\ expectedData self' = expectedData self
   /\ providedData self' = providedData self
   /\ _input_data self' = _input_data self
   /\ __static_data self' = __static_data self)
  /\ match r with
     | Raise _ => __run_data self' = __run_data self
     | Ok _ => is_Some (__run_log self') /\ is_Some (__run_data self')
     end.
Proof.
  pose proof (backengine_self_cases _serialize communicate loadtxt self w) as Hcases.
  destruct (backengine _serialize communicate loadtxt (self, w)) as [r [self' w']].
  destruct Hcases as [[Hr [->|[[p' ->]|(p' & out & ->)]]]|[-> (p' & out & data & ->)]];
    (split; [done|]); try (by destruct r as [[]|]).
  cbn [__run_log __run_data with_run_data with_run_log]. by split.
Qed.

(** ** The list of provided data and the file that is written *)

Lemma created_datasets_dynamic_calls (c0 c1 c2 c3 : list float) :
  created_datasets (dynamic_calls c0 c1 c2 c3)
  = map components ["data/dynamic/energy_shifts"; "data/dynamic/Skw_free";
                    "data/dynamic/Skw_bound"; "data/dynamic/Skw_total"].
Proof. reflexivity. Qed.

(** X27: the list of provided data against the file. For a calculator
    from the constructor, run and then saved, [providedData] is still
    the list of the constructor, and a completed save creates fourteen
    datasets of which that list names six: [Skw_free], [Skw_bound],
    [Sk_ion], [Sk_total], [fk] and [qk]. The other eight, the energy
    shifts among them, are written without being listed. *)
Theorem providedData_names_six_datasets
    (base_init : pyobj -> pyobj -> pyobj -> result (string * string))
    (_serialize : CalculatorParameters -> gmap string file ->
                  result (CalculatorParameters * gmap string file))
    (communicate : Popen -> gmap string file ->
                   result (string * string * gmap string file))
    (loadtxt : string -> result (list (list float)))
    (params source target : pyobj) (w w1 : world) (r : result unit)
    (self0 self1 self2 : PlasmaXRTSCalculator) (calls : list h5call) :
  PlasmaXRTSCalculator_init base_init params source target = Ok self0 ->
  backengine _serialize communicate loadtxt (self0, w) = (r, (self1, w1)) ->
  saveH5 (self1, []) = (Ok tt, (self2, calls)) ->
  providedData self2 = providedData self0
  /\ length (created_datasets calls) = 14
  /\ (forall name,
        name ∈ created_datasets calls ->
        (name ∈ map components (providedData self2)
         <-> name ∈ [["data"; "dynamic"; "Skw_free"]; ["data"; "dynamic"; "Skw_bound"];
                     ["data"; "static"; "Sk_ion"]; ["data"; "static"; "Sk_total"];
                     ["data"; "static"; "fk"]; ["data"; "static"; "qk"]])).
Proof.
  intros Hinit Hrun Hsave.
  assert (H12 : providedData self2 = providedData self1).
  { revert Hsave. rewrite saveH5_unfold.
    destruct (__run_data self1) as [table|]; [|done].
    destruct (_ ← column 0 table; _) as [[[[c0 c1] c2] c3]|]; [|done].
    destruct (__run_log self1) as [log|]; [|done].
    destruct (parseStaticData log) as [d|]; [|done].
    by intros [= <- _]. }
  assert (H01 : providedData self1 = providedData self0).
  { pose proof (backengine_self_cases _serialize communicate loadtxt self0 w) as Hc.
    rewrite Hrun in Hc.
    by destruct Hc as [[_ [->|[[p' ->]|(p' & out & ->)]]]|[_ (p' & out & data & ->)]]. }
  apply saveH5_Ok_calls in Hsave as (c0 & c1 & c2 & c3 & log & d & Hd & ->).
  pose proof (static_items_keys log d Hd) as Hkeys.
  destruct (created_static_calls (map_to_list d)) as (_ & Hcd & _).
  unfold created_datasets in *. rewrite !omap_app, Hcd. fold (created_datasets).
  set (names := map (fun k => components ("/data/static/" +:+ k)) (map_to_list d).*1).
  assert (Hnames : names
            ≡ₚ map (fun k => components ("/data/static/" +:+ k)) static_key_list)
    by (by apply fmap_Permutation).
  rewrite H12, H01. split; [done|]. split.
  - rewrite !length_app, Hnames. reflexivity.
  - assert (Hlist : providedData self0
              = ["/data/";
                 "/data/dynamic/data/dynamic/energy_shifts";
                 "/data/dynamic/Skw_free";
                 "/data/dynamic/Skw_bound";
                 "/data/dynamic/collision_frequency";
                 "/data/static/data/static/Sk_bound";
                 "/data/static/Sk_ion";
                 "/data/static/Sk_elastic";
                 "/data/static/Sk_core_inelastic";
                 "/data/static/Sk_free_inelastic";
                 "/data/static/Sk_total";
                 "/data/static/fk";
                 "/data/static/qk";
                 "/data/static/ionization_potential_delta/data/static/LFC";
                 "/history/parent/detail";
                 "/history/parent/parent";
                 "/info/package_version";
                 "/info/contact";
                 "/info/data_description";
                 "/info/method_description";
                 "/info/units/energy/info/units/structure_factor/params/beam/photonEnergy";
                 "/params/beam/spectrum";
                 "/params/info"]).
    { revert Hinit. unfold PlasmaXRTSCalculator_init.
      destruct (checkAndSetParameters params) as [p|]; [|done].
      cbn [mbind result_bind].
      destruct (base_init p source target) as [[inp outp]|]; [|done].
      by intros [= <-]. }
    rewrite Hlist. intros name. rewrite Hnames. clear. revert name.
    match goal with
    | |- forall name, name ∈ ?made -> (name ∈ ?listed <-> name ∈ ?six) =>
        assert (Hall : Forall (fun name => name ∈ listed <-> name ∈ six) made)
          by (apply (bool_decide_unpack (Forall _ _)); by vm_compute)
    end.
    intros name Hin. by apply (proj1 (Forall_forall _ _) Hall).
Qed.

Lemma providedData_names_six_datasets_witness :
  exists self0 r self1 w1 self2 calls,
    PlasmaXRTSCalculator_init sample_base_init (PyParameters sample_parameters)
      PyNone PyNone = Ok self0
    /\ backengine sample_serialize logging_tool table_loadtxt (self0, sample_world)
       = (r, (self1, w1))
    /\ saveH5 (self1, []) = (Ok tt, (self2, calls))
    /\ providedData self2 = providedData self0
    /\ length (created_datasets calls) = 14
    /\ (forall name,
          name ∈ created_datasets calls ->
          (name ∈ map components (providedData self2)
           <-> name ∈ [["data"; "dynamic"; "Skw_free"]; ["data"; "dynamic"; "Skw_bound"];
                       ["data"; "static"; "Sk_ion"]; ["data"; "static"; "Sk_total"];
                       ["data"; "static"; "fk"]; ["data"; "static"; "qk"]])).
Proof.
  do 6 eexists.
  split; [reflexivity|]. split; [vm_compute; reflexivity|].
  split; [vm_compute; reflexivity|].
  eapply (providedData_names_six_datasets sample_base_init sample_serialize
            logging_tool table_loadtxt (PyParameters sample_parameters) PyNone PyNone
            sample_world).
  - reflexivity.
  - vm_compute. reflexivity.
  - vm_compute. reflexivity.
Defined.

(** ** [_readH5] *)

(** X25: reading the input keeps nothing of what was read before. Once
    the input file has been opened, the input data is emptied: when the
    spectrum is read it is the only entry, and when reading it raises
    the input data is left empty. Only when the file cannot be opened
    does the calculator stay as it was. *)
Theorem readH5_replaces_input_data
    (File_r : string -> result unit)
    (dataset_value : string -> string -> result (list float))
    (self : PlasmaXRTSCalculator) :
  let '(r, self') := _readH5 File_r dataset_value self in
  match File_r (input_path self) with
  | Raise e => r = Raise e /\ self' = self
  | Ok _ =>
      (forall key, key <> "source_spectrum" -> _input_data self' !! key = None)
      /\ match dataset_value (input_path self) "misc/spectrum0" with
         | Ok spectrum =>
             r = Ok tt /\ _input_data self' !! "source_spectrum" = Some spectrum
         | Raise e =>
             r = Raise e /\ _input_data self' = ∅
         end
      /\ __run_log self' = __run_log self
      /\ __run_data self' = __run_data self
  end.
Proof.
  unfold _readH5.
  destruct (File_r (input_path self)) as [[]|e]; [|done].
  cbn [input_path with_input_data].
  destruct (dataset_value (input_path self) "misc/spectrum0") as [spectrum|e].
  - split; [intros key Hkey; cbn; by rewrite lookup_insert_ne|].
    split; [|done]. split; [done|]. cbn. apply lookup_insert_eq.
  - split; [done|]. by split.
Qed.
